(** * RN2903 basic wrapper: command validation, dispatch and configuration
      synchronisation

    A shallow embedding of [rn2903.py] (class [rn2903]): the command table
    [commands], [check_param], [validate_command], the serial helpers
    [write_command] and [read_response], the dispatcher [send_command], the
    two sequences [get_device_config] and [put_device_config] and
    [__init__]; and of the script [example.py].

    Conventions of the embedding.
    - A Python [str] is a [string]; its characters are the code points
      0..255, which covers every character the device protocol uses.
    - A Python value that is either [False] or a string is a [pyval].
    - An uncaught exception is the [Raise] outcome of a [result].
    - The instance ([self]) is a record threaded through every method; the
      serial port [dev_object] is a record holding the bytes still to be
      received, the planned outcome of the next writes and a log of every
      call to [write].
    - Calls to [logging] have no effect on any value and are left out;
      what [example.py] prints is the result of its run.
    - The properties of the methods hold for any instance, that is any
      record of the fields the methods read ([dev_status], [safe_mode],
      [device_config], [dev_object]). [__init__] takes what it reads from
      the configuration file and the opening of the port as inputs; the
      two file helpers are not embedded. *)

From Stdlib Require Import String Ascii List ZArith Bool Lia.
From Stdlib Require DecimalString HexadecimalString.
Import ListNotations.
Open Scope string_scope.

(** ** Python string primitives *)

Module PyStr.

Definition code (c : ascii) : nat := nat_of_ascii c.

Definition between (lo hi : nat) (c : ascii) : bool :=
  (lo <=? code c)%nat && (code c <=? hi)%nat.

(** [c in s] for a one-character [c]. *)
Fixpoint contains (c : ascii) (s : string) : bool :=
  match s with
  | EmptyString => false
  | String d r => Ascii.eqb c d || contains c r
  end.

(** The characters [str.split()] treats as white space. *)
Definition isspace (c : ascii) : bool :=
  between 9 13 c || between 28 32 c
  || Nat.eqb (code c) 133 || Nat.eqb (code c) 160.

(** [s.split()]: maximal runs of non-blank characters. [cur] is the token
    being read. *)
Fixpoint split_from (cur : string) (s : string) : list string :=
  match s with
  | EmptyString => match cur with EmptyString => [] | _ => [cur] end
  | String c r =>
      if isspace c then
        match cur with
        | EmptyString => split_from "" r
        | _ => cur :: split_from "" r
        end
      else split_from (cur ++ String c "") r
  end.

Definition split (s : string) : list string := split_from "" s.

(** [s.split(sep)] for a one-character separator: empty fields are kept. *)
Fixpoint split_on (sep : ascii) (s : string) : list string :=
  match s with
  | EmptyString => [""]
  | String c r =>
      if Ascii.eqb c sep then "" :: split_on sep r
      else match split_on sep r with
           | w :: ws => String c w :: ws
           | [] => [String c ""]
           end
  end.

Definition lower_char (c : ascii) : ascii :=
  if between 65 90 c
     || (between 192 222 c && negb (Nat.eqb (code c) 215))
  then ascii_of_nat (code c + 32) else c.

Fixpoint lower (s : string) : string :=
  match s with
  | EmptyString => EmptyString
  | String c r => String (lower_char c) (lower r)
  end.

Definition upper_char (c : ascii) : ascii :=
  if between 97 122 c then ascii_of_nat (code c - 32) else c.

(** [s.upper()], used on hexadecimal digits only. *)
Fixpoint upper (s : string) : string :=
  match s with
  | EmptyString => EmptyString
  | String c r => String (upper_char c) (upper r)
  end.

Fixpoint forallb (p : ascii -> bool) (s : string) : bool :=
  match s with
  | EmptyString => true
  | String c r => p c && forallb p r
  end.

Definition nonempty (s : string) : bool :=
  match s with EmptyString => false | _ => true end.

Definition is_dec (c : ascii) : bool := between 48 57 c.

(** [c.isdigit()]: the decimal digits and the superscripts one, two and
    three. *)
Definition isdigit_char (c : ascii) : bool :=
  is_dec c || Nat.eqb (code c) 178 || Nat.eqb (code c) 179
  || Nat.eqb (code c) 185.

Definition isdigit (s : string) : bool :=
  nonempty s && forallb isdigit_char s.

Definition dec_val (c : ascii) : option Z :=
  if is_dec c then Some (Z.of_nat (code c - 48)) else None.

Definition hex_val (c : ascii) : option Z :=
  if is_dec c then Some (Z.of_nat (code c - 48))
  else if between 97 102 c then Some (Z.of_nat (code c - 87))
  else if between 65 70 c then Some (Z.of_nat (code c - 55))
  else None.

(** The blanks [int] skips at both ends of its argument: the ASCII white
    space, and the next-line and no-break space characters, which the
    conversion turns into spaces first. The separators 28 to 31, white
    space for [split], are not among them. *)
Definition int_space (c : ascii) : bool :=
  between 9 13 c || Nat.eqb (code c) 32
  || Nat.eqb (code c) 133 || Nat.eqb (code c) 160.

Fixpoint skip_blanks (s : string) : string :=
  match s with
  | EmptyString => EmptyString
  | String c r => if int_space c then skip_blanks r else s
  end.

(** An optional sign: [true] for a minus. *)
Definition sign (s : string) : bool * string :=
  match s with
  | String "+" r => (false, r)
  | String "-" r => (true, r)
  | _ => (false, s)
  end.

(** The prefix [0x] or [0X] a literal in base 16 may carry, and the one
    underscore allowed after it. *)
Definition hex_prefix (s : string) : string :=
  match s with
  | String "0" (String x r) =>
      if Ascii.eqb x "x" || Ascii.eqb x "X" then
        match r with
        | String "_" r' => r'
        | _ => r
        end
      else s
  | _ => s
  end.

(** The digits of a literal, single underscores allowed between them, up
    to the blanks that may end the string: the value and the number of
    digits read. [after_digit] tells that the character before was a
    digit; a literal neither starts nor ends with an underscore, and has
    at least one digit. *)
Fixpoint literal (base : Z) (val : ascii -> option Z) (after_digit : bool)
  (acc : Z) (n : nat) (s : string) : option (Z * nat) :=
  match s with
  | EmptyString => if after_digit then Some (acc, n) else None
  | String c r =>
      if Ascii.eqb c "_" then
        if after_digit then literal base val false acc n r else None
      else
        match val c with
        | Some d => literal base val true (acc * base + d)%Z (S n) r
        | None =>
            if after_digit && forallb int_space s then Some (acc, n)
            else None
        end
  end.

(** [sys.get_int_max_str_digits()]: CPython 3.11 and later, and the
    security releases of 3.7 to 3.10, refuse to convert a decimal string
    of more digits; the module does not change the limit. *)
Definition max_str_digits : nat := 4300.

(** [int(s)]; [None] is [ValueError]. *)
Definition int (s : string) : option Z :=
  let (neg, s) := sign (skip_blanks s) in
  match literal 10 dec_val false 0 0 s with
  | Some (v, n) =>
      if (max_str_digits <? n)%nat then None
      else Some (if neg : bool then (- v)%Z else v)
  | None => None
  end.

(** [int(s,16)]; [None] is [ValueError]. A power of two as base, the
    number of digits is not limited. *)
Definition int16 (s : string) : option Z :=
  let (neg, s) := sign (skip_blanks s) in
  match literal 16 hex_val false 0 0 (hex_prefix s) with
  | Some (v, _) => Some (if neg : bool then (- v)%Z else v)
  | None => None
  end.

(** [re.compile("[^0-9a-f]").search(s)] finds a match. *)
Definition search_non_hex (s : string) : bool :=
  negb (forallb (fun c => is_dec c || between 97 102 c) s).

Definition startswith (s p : string) : bool := String.prefix p s.

(** [s.replace("\r\n", "")]. *)
Fixpoint strip_crlf (s : string) : string :=
  match s with
  | EmptyString => EmptyString
  | String c r =>
      match r with
      | String d r' =>
          if Ascii.eqb c "013" && Ascii.eqb d "010" then strip_crlf r'
          else String c (strip_crlf r)
      | EmptyString => s
      end
  end.

Definition hex_digit (n : nat) : ascii :=
  if (n <? 10)%nat then ascii_of_nat (48 + n) else ascii_of_nat (87 + n).

(** [format(n, 'x')] for [n < 256]. *)
Definition format_x (n : nat) : string :=
  if (n <? 16)%nat then String (hex_digit n) ""
  else String (hex_digit (n / 16)) (String (hex_digit (n mod 16)) "").

Definition join (sep : string) (l : list string) : string :=
  String.concat sep l.

End PyStr.

(** ** Values and outcomes *)

(** The exceptions that can leave a method. *)
Inductive exn : Type :=
| IndexError
| KeyError
| TypeError
| ValueError.

Inductive result (A : Type) : Type :=
| Return (a : A)
| Raise (e : exn).
Arguments Return {A} a.
Arguments Raise {A} e.

(** [False] or a string: what [validate_command], [read_response] and the
    two components of [send_command]'s pair can be. *)
Inductive pyval : Type :=
| PFalse
| PStr (s : string).

Definition pyval_eqb (a b : pyval) : bool :=
  match a, b with
  | PFalse, PFalse => true
  | PStr s, PStr t => String.eqb s t
  | _, _ => false
  end.

(** Truth value: [False] and the empty string are false. *)
Definition truthy (v : pyval) : bool :=
  match v with
  | PFalse => false
  | PStr s => PyStr.nonempty s
  end.

(** A dictionary in insertion order. *)
Definition dict (V : Type) : Type := list (string * V).

Fixpoint dict_get {V : Type} (k : string) (d : dict V) : option V :=
  match d with
  | [] => None
  | (k', v) :: r => if String.eqb k k' then Some v else dict_get k r
  end.

(** [d[k] = v]: a present key keeps its place. *)
Fixpoint dict_set {V : Type} (k : string) (v : V) (d : dict V) : dict V :=
  match d with
  | [] => [(k, v)]
  | (k', v') :: r =>
      if String.eqb k k' then (k', v) :: r else (k', v') :: dict_set k v r
  end.

(** ** The command table *)

(** An element of a ['range'] list: the table writes integer bounds as
    numbers and hexadecimal bounds and set members as strings. *)
Inductive atom : Type :=
| AInt (z : Z)
| AStr (s : string).

(** One entry of a ['user_input'] list: [{'type': ..., 'range': [...]}].
    Every entry of the table is a dictionary with exactly these two keys and
    a list under ['range'], so the checks [check_param] makes on that shape
    are settled by this type. *)
Record param_def : Type := mk_param_def {
  ptype : string;
  prange : list atom
}.

(** The nested dictionaries of [commands]. The value under a key is again a
    dictionary, except under ['user_input'], where it is a list of
    parameter definitions. *)
#[local] Set Warnings "-register-all".
Inductive node : Type :=
| Dict (items : dict node)
| UserInput (specs : list param_def).

(** [k in n] and [n[k]] in one: [None] when the key is absent. A string is
    never an element of a list of dictionaries. *)
Definition getitem (k : string) (n : node) : option node :=
  match n with
  | Dict items => dict_get k items
  | UserInput _ => None
  end.

(** Truth value of a container: non-empty. *)
Definition node_truthy (n : node) : bool :=
  match n with
  | Dict [] | UserInput [] => false
  | _ => true
  end.

Definition len (n : node) : nat :=
  match n with
  | Dict items => length items
  | UserInput specs => length specs
  end.

(** [n[i]] for an integer [i]. *)
Definition getindex (n : node) (i : nat) : result param_def :=
  match n with
  | UserInput specs =>
      match nth_error specs i with
      | Some d => Return d
      | None => Raise IndexError
      end
  | Dict _ => Raise KeyError
  end.

Module Table.

Definition int_range (lo hi : Z) : param_def :=
  mk_param_def "int" [AInt lo; AInt hi].
Definition hex_range (lo hi : string) : param_def :=
  mk_param_def "hex" [AStr lo; AStr hi].
Definition set_of (l : list string) : param_def :=
  mk_param_def "set" (map AStr l).

(** [{}] *)
Definition empty : node := Dict [].
(** [{'user_input': specs}] *)
Definition input (specs : list param_def) : node :=
  Dict [("user_input", UserInput specs)].
(** [{k: {} for k in keys}] *)
Definition leaves (keys : list string) : dict node :=
  map (fun k => (k, empty)) keys.

Definition firmware_name : string := "RN2903".
Definition target_version : string := "1.0.5".

(** ["\r\n"] *)
Definition data_termintaor : string := String "013" (String "010" "").

Definition response_codes : list string :=
  ["ok"; "busy"; "fram_counter_err_rejoin_needed"; "invalid_class";
   "invalid_data_len"; "invalid_param"; "keys_not_init"; "mac_paused";
   "multicast_keys_not_set"; "no_free_ch"; "not_joined"; "silent"; "err"].

Definition nvm_adr_range : list atom := [AStr "300"; AStr "3FF"].

Definition dpin_names : list string :=
  ["GPIO0"; "GPIO1"; "GPIO2"; "GPIO3"; "GPIO4"; "GPIO5"; "GPIO6"; "GPIO7";
   "GPIO8"; "GPIO9"; "GPIO10"; "GPIO11"; "GPIO12"; "GPIO13"; "UART_CTS";
   "UART_RTS"; "TEST0"; "TEST1"].

Definition apin_names : list string :=
  ["GPIO0"; "GPIO1"; "GPIO2"; "GPIO3"; "GPIO5"; "GPIO6"; "GPIO7"; "GPIO8";
   "GPIO9"; "GPIO10"; "GPIO11"; "GPIO12"; "GPIO13"].

Definition pin_modes : list string := ["digout"; "digin"; "ana"].

(** 240 times the letter F: 120 bytes. *)
Definition max_tx_msg : string :=
  string_of_list_ascii (repeat "F"%char 240).

Definition auto_freq_band : list string :=
  ["250"; "125"; "62.5"; "31.3"; "15.6"; "7.8"; "3.9"; "200"; "100"; "50";
   "25"; "12.5"; "6.3"; "3.1"; "166.7"; "83.3"; "41.7"; "20.8"; "10.4";
   "5.2"; "2.6"].

Definition gfsk_modulation_bt : list string := ["none"; "1.0"; "0.5"; "0.3"].

Definition rx_bandwidth : list string :=
  ["250"; "125"; "62.5"; "31.3"; "15.6"; "7.8"; "3.9"; "200"; "100"; "50";
   "25"; "12.5"; "6.3"; "3.1"; "166.7"; "83.3"; "41.7"; "20.8"; "10.4";
   "5.2"; "2.6"].

Definition spread_factors : list string :=
  ["sf7"; "sf8"; "sf9"; "sf10"; "sf11"; "sf12"].

Definition sys_commands : node :=
  Dict
    [("sleep", input [int_range 100 4294967296]);
     ("reset", empty);
     ("eraseFW", empty);
     ("factoryRESET", empty);
     ("set",
       Dict
         [("nvm", input [mk_param_def "hex" nvm_adr_range;
                         hex_range "00" "FF"]);
          ("pindig", input [set_of dpin_names; int_range 0 1]);
          ("pinmode", input [set_of dpin_names; set_of pin_modes])]);
     ("get",
       Dict
         [("ver", empty);
          ("nvm", input [mk_param_def "hex" nvm_adr_range]);
          ("vdd", empty);
          ("hweui", empty);
          ("pindig", input [set_of dpin_names]);
          ("pinana", input [set_of apin_names])])].

Definition mac_get_ch : node :=
  Dict
    [("freq", input [int_range 0 71]);
     ("drrange", input [int_range 0 71]);
     ("status", input [int_range 0 71])].

Definition mac_commands : node :=
  Dict
    [("reset", empty);
     ("pause", empty);
     ("resume", empty);
     ("save", empty);
     ("get",
       Dict
         (leaves ["adr"; "appeui"; "ar"]
          ++ [("ch", mac_get_ch)]
          ++ leaves
               ["class"; "dcycleps"; "devaddr"; "deveui"; "dnctr"; "dr";
                "gwnb"; "mcast"; "mcastdevaddr"; "mcastdnctr"; "mrgn";
                "pwridx"; "retx"; "rx2"; "rxdelay1"; "rxdelay2"; "status";
                "sync"; "upctr"])%list)].

Definition radio_commands : node :=
  Dict
    [("rx", input [int_range 0 65535]);
     ("tx", input [hex_range "0" max_tx_msg]);
     ("cw", empty);
     ("rxstop", empty);
     ("set",
       Dict
         [("afcbw", input [set_of auto_freq_band]);
          ("bitrate", input [int_range 1 300000]);
          ("bt", input [set_of gfsk_modulation_bt]);
          ("bw", input [set_of ["125"; "250"; "500"]]);
          ("cr", input [set_of ["4/5"; "4/6"; "4/7"; "4/8"]]);
          ("crc", input [set_of ["on"; "off"]]);
          ("fdev", input [int_range 0 200000]);
          ("freq", input [int_range 902000000 928000000]);
          ("iqi", input [set_of ["on"; "off"]]);
          ("mod", input [set_of ["lora"; "fsk"]]);
          ("prlen", input [int_range 0 65535]);
          ("pwr", input [int_range 2 20]);
          ("rxbw", input [set_of rx_bandwidth]);
          ("sf", input [set_of spread_factors]);
          ("sync", input [hex_range "0" "FFFFFFFFFFFFFFFF"]);
          ("wdt", input [int_range 0 4294967295])]);
     ("get",
       Dict
         (leaves
            ["afcbw"; "bitrate"; "bt"; "bw"; "cr"; "crc"; "fdev"; "freq";
             "iqi"; "mod"; "prlen"; "pwr"; "rssi"; "rxbw"; "sf"; "snr";
             "sync"; "wdt"]))].

Definition commands : node :=
  Dict [("sys", sys_commands); ("mac", mac_commands);
        ("radio", radio_commands)].

End Table.

(** ** check_param *)

Definition atom_int (a : atom) : option Z :=
  match a with
  | AInt z => Some z
  | AStr s => PyStr.int s
  end.

(** [int(a,16)]: a number in place of the string is a [TypeError]. *)
Definition atom_int16 (a : atom) : option Z :=
  match a with
  | AInt _ => None
  | AStr s => PyStr.int16 s
  end.

Definition atom_is (param : string) (a : atom) : bool :=
  match a with
  | AInt _ => false
  | AStr s => String.eqb param s
  end.

(** The bounds test shared by the integer and the hexadecimal branch:
    [False] below [range[0]], [False] above [range[1]]. A [None] is an
    exception inside the [try] (a missing bound, a conversion that fails),
    and the handler answers [False] as well, whichever bound is read
    first. *)
Definition in_bounds (pval : option Z) (rmin rmax : option (option Z))
  : bool :=
  match pval, rmin with
  | Some p, Some (Some lo) =>
      if (p <? lo)%Z then false
      else match rmax with
           | Some (Some hi) => negb (hi <? p)%Z
           | _ => false
           end
  | _, _ => false
  end.

Definition check_param (ps_param : string) (ps_param_def : param_def)
  : bool :=
  if negb (PyStr.nonempty ps_param) then false
  else
    let param := ps_param in
    let range := prange ps_param_def in
    match range with
    | [] => false
    | _ =>
        if String.eqb (ptype ps_param_def) "int" then
          if negb (PyStr.isdigit param) then false
          else in_bounds (PyStr.int param)
                 (option_map atom_int (nth_error range 0))
                 (option_map atom_int (nth_error range 1))
        else if String.eqb (ptype ps_param_def) "hex" then
          let param := PyStr.lower param in
          if PyStr.search_non_hex param then false
          else in_bounds (PyStr.int16 param)
                 (option_map atom_int16 (nth_error range 0))
                 (option_map atom_int16 (nth_error range 1))
        else if String.eqb (ptype ps_param_def) "set" then
          existsb (atom_is param) range
        else false
    end.

(** ** validate_command *)

Definition bind_result {A B : Type} (r : result A) (k : A -> result B)
  : result B :=
  match r with
  | Return a => k a
  | Raise e => Raise e
  end.

Notation "'try!' x <- r ; k" := (bind_result r (fun x => k))
  (at level 10, x name, r at level 100, k at level 200).

Section Validator.

(** [self.commands] *)
Variable commands : node.

(** The block that checks the user input of a node: one parameter, and a
    second one when the list under ['user_input'] has length two. The
    source has it twice, on [cmd_par1], [cmd_par2] below a command and on
    [cmd_par2], [cmd_par3] below a subcommand. [send_str] is the command
    built so far. *)
Definition check_user_input (send_str : string) (user_input : node)
  (par_a par_b : string) : result pyval :=
  try! spec0 <- getindex user_input 0;
  if check_param par_a spec0 then
    let send_str := send_str ++ " " ++ par_a in
    if Nat.eqb (len user_input) 2 then
      try! spec1 <- getindex user_input 1;
      if check_param par_b spec1 then
        Return (PStr (send_str ++ " " ++ par_b))
      else Return PFalse
    else Return (PStr send_str)
  else Return PFalse.

(** The part of [validate_command] that follows [cmd.split()]. *)
Definition validate_tokens (cmd_set : list string) : result pyval :=
  match nth_error cmd_set 0 with
  | None => Raise IndexError
  | Some cmd_0 =>
  let cmd_type := PyStr.lower cmd_0 in
  match nth_error cmd_set 1 with
  | None => Raise IndexError
  | Some cmd_base =>
  let cmd_par1 := nth 2 cmd_set "" in
  let cmd_par2 := nth 3 cmd_set "" in
  let cmd_par3 := nth 4 cmd_set "" in
  (* check command type *)
  match getitem cmd_type commands with
  | None => Return PFalse
  | Some n_type =>
  let send_str := cmd_type in
  (* check command base *)
  match getitem cmd_base n_type with
  | None => Return PFalse
  | Some n_base =>
  let send_str := send_str ++ " " ++ cmd_base in
  (* check parameters *)
  if node_truthy n_base then
    match getitem "user_input" n_base with
    | Some user_input =>
        check_user_input send_str user_input cmd_par1 cmd_par2
    | None =>
        match getitem cmd_par1 n_base with
        | Some n_par1 =>
            let send_str := send_str ++ " " ++ cmd_par1 in
            if node_truthy n_par1 then
              match getitem "user_input" n_par1 with
              | Some user_input =>
                  check_user_input send_str user_input cmd_par2 cmd_par3
              | None =>
                  match getitem cmd_par2 n_par1 with
                  | Some n_par2 =>
                      match getitem "user_input" n_par2 with
                      | Some user_input =>
                          try! spec0 <- getindex user_input 0;
                          if check_param cmd_par3 spec0 then
                            Return (PStr (send_str ++ " " ++ cmd_par3))
                          else Return (PStr send_str)
                      | None => Return (PStr send_str)
                      end
                  | None => Return (PStr send_str)
                  end
              end
            else Return (PStr send_str)
        | None => Return PFalse
        end
    end
  else Return (PStr send_str)
  end end end end.

Definition validate_command (ps_cmd : string) : result pyval :=
  let cmd := ps_cmd in
  (* should be at least two space-separated parameters *)
  if negb (PyStr.contains " " cmd) then Return PFalse
  else validate_tokens (PyStr.split cmd).

End Validator.

(** ** The serial port and the instance *)

(** What one call to [dev_object.read()] does: it delivers a byte, returns
    nothing after the time-out, or raises. *)
Inductive rx : Type :=
| RxByte (b : ascii)
| RxTimeout
| RxFail.

Record serial : Type := mk_serial {
  (** the next calls to [read()], in order; after them the port is silent *)
  inbox : list rx;
  (** whether the next calls to [write()] succeed, in order; after them
      every write succeeds *)
  wplan : list bool;
  (** every call to [write()] so far, oldest first: the text and whether
      the call succeeded *)
  written : list (string * bool)
}.

Definition serial_write (data : string) (dev : serial) : bool * serial :=
  match wplan dev with
  | [] => (true, mk_serial (inbox dev) [] (written dev ++ [(data, true)]))
  | ok :: plan =>
      (ok, mk_serial (inbox dev) plan (written dev ++ [(data, ok)]))
  end.

Definition serial_read (dev : serial) : rx * serial :=
  match inbox dev with
  | [] => (RxTimeout, dev)
  | ev :: rest => (ev, mk_serial rest (wplan dev) (written dev))
  end.

Record rn2903 : Type := mk_rn2903 {
  dev_status : string;
  safe_mode : string;
  device_config : dict (dict pyval);
  dev_object : serial
}.

Definition with_dev (self : rn2903) (dev : serial) : rn2903 :=
  mk_rn2903 (dev_status self) (safe_mode self) (device_config self) dev.

(** A method: it returns or raises, and leaves the instance in a new
    state. *)
Definition method (A : Type) : Type := rn2903 -> result A * rn2903.

Definition ret {A : Type} (a : A) : method A := fun self => (Return a, self).

Definition raise {A : Type} (e : exn) : method A :=
  fun self => (Raise e, self).

Definition bind {A B : Type} (m : method A) (k : A -> method B)
  : method B :=
  fun self =>
    match m self with
    | (Return a, self') => k a self'
    | (Raise e, self') => (Raise e, self')
    end.

Notation "'do!' x <- m ; k" := (bind m (fun x => k))
  (at level 10, x pattern, m at level 100, k at level 200).

(** ** write_command and read_response *)

Definition write_command (cmd_str : string) : method bool :=
  fun self =>
    let send_str := cmd_str in
    if negb (PyStr.nonempty send_str) then (Return false, self)
    else
      let send_str := send_str ++ Table.data_termintaor in
      let (ok, dev) := serial_write send_str (dev_object self) in
      (Return ok, with_dev self dev).

(** [self.dev_object.read().decode("utf-8")]: [None] when either call
    raises; a lone byte above 127 does not decode. *)
Definition decode (ev : rx) : option string :=
  match ev with
  | RxByte b =>
      if (PyStr.code b <? 128)%nat then Some (String b "") else None
  | RxTimeout => Some ""
  | RxFail => None
  end.

(** The reader loop, [n] iterations from [count = max_ch - n]. [None] is
    the [return False] of the handler. *)
Fixpoint read_loop (n : nat) (resp : string) (dev : serial)
  : option string * serial :=
  match n with
  | O => (Some resp, dev)
  | S n' =>
      let (ev, dev) := serial_read dev in
      match decode ev with
      | None => (None, dev)
      | Some s =>
          let resp := resp ++ s in
          if String.eqb s (String "010" "") then (Some resp, dev)
          else read_loop n' resp dev
      end
  end.

Definition max_ch : nat := 256.

Definition read_response : method pyval :=
  fun self =>
    match read_loop max_ch "" (dev_object self) with
    | (None, dev) => (Return PFalse, with_dev self dev)
    | (Some resp, dev) =>
        (Return (PStr (PyStr.strip_crlf resp)), with_dev self dev)
    end.

(** ** send_command *)

Definition ok : pyval := PStr "ok".

(** The handling of the version line, which [sys reset] and
    [sys factoryRESET] share word for word: six fields separated by one
    space, the first one the firmware name. A [False] from
    [read_response] has no [split] and lands in the handler. *)
Definition expect_version (status : pyval) : pyval * pyval :=
  match status with
  | PStr line =>
      match PyStr.split_on " " line with
      | [module; _; _; _; _; _] =>
          if String.eqb module Table.firmware_name then (ok, PStr line)
          else (PFalse, PFalse)
      | _ => (PFalse, PFalse)
      end
  | PFalse => (PFalse, PFalse)
  end.

Definition err_status : list string := ["invalid_param"; "busy"; "radio_err"].

Definition status_in (status : pyval) (l : list string) : bool :=
  match status with
  | PStr s => existsb (String.eqb s) l
  | PFalse => false
  end.

Definition send_command (ps_cmd : string) : method (pyval * pyval) :=
  fun self =>
    (* ignore command request if device is in bad state *)
    if String.eqb (dev_status self) "error" then
      (Return (PFalse, PFalse), self)
    else
      (* ensure we have valid command *)
      match validate_command Table.commands ps_cmd with
      | Raise e => (Raise e, self)
      | Return PFalse => (Return (PFalse, PFalse), self)
      | Return (PStr send_str) =>
      if negb (PyStr.nonempty send_str) then (Return (PFalse, PFalse), self)
      (* sys sleep *)
      else if PyStr.startswith send_str "sys sleep" then
        match nth_error (PyStr.split_on " " send_str) 2 with
        | None => (Raise IndexError, self)
        | Some mils =>
            (do! sent <- write_command send_str;
             if sent : bool then
               do! status <- read_response;
               if pyval_eqb status ok then ret (status, PStr mils)
               else ret (PFalse, PFalse)
             else ret (PStr "", PStr "")) self
        end
      (* sys reset *)
      else if PyStr.startswith send_str "sys reset" then
        (do! sent <- write_command send_str;
         if sent : bool then
           do! status <- read_response;
           ret (expect_version status)
         else ret (PStr "", PStr "")) self
      (* sys eraseFW *)
      else if PyStr.startswith send_str "sys eraseFW" then
        if String.eqb (safe_mode self) "off" then
          (do! sent <- write_command send_str;
           if sent : bool then ret (ok, PStr "awaiting firmware")
           else ret (PStr "", PStr "")) self
        else (Return (PFalse, PFalse), self)
      (* sys factoryRESET *)
      else if PyStr.startswith send_str "sys factoryRESET" then
        if String.eqb (safe_mode self) "off" then
          (do! sent <- write_command send_str;
           if sent : bool then
             do! status <- read_response;
             ret (expect_version status)
           else ret (PStr "", PStr "")) self
        else (Return (PFalse, PFalse), self)
      (* radio rx *)
      else if PyStr.startswith send_str "radio rx " then
        match nth_error (PyStr.split_on " " send_str) 2 with
        | None => (Raise IndexError, self)
        | Some syms => (Return (PStr "", PStr ""), self)
        end
      (* radio tx *)
      else if PyStr.startswith send_str "radio tx" then
        (Return (PStr "", PStr ""), self)
      (* all other commands *)
      else
        (do! sent <- write_command send_str;
         if sent : bool then
           do! status <- read_response;
           if status_in status err_status then ret (PFalse, status)
           else if negb (pyval_eqb status ok) then ret (ok, status)
           else ret (status, PStr "")
         else ret (PStr "", PStr "")) self
      end.

(** ** get_device_config *)

Definition config_cmds : list string :=
  ["sys get ver"; "sys get nvm"; "sys get hweui"; "mac get adr";
   "mac get appeui"; "mac get ar"; "mac get class"; "mac get dcycleps";
   "mac get devaddr"; "mac get deveui"; "mac get dnctr"; "mac get dr";
   "mac get gwnb"; "mac get mcast"; "mac get mcastdevaddr";
   "mac get mcastdnctr"; "mac get mrgn"; "mac get pwridx"; "mac get retx";
   "mac get rx2"; "mac get rxdelay1"; "mac get rxdelay2"; "mac get status";
   "mac get sync"; "mac get upctr"; "radio get afcbw"; "radio get bitrate";
   "radio get bt"; "radio get bw"; "radio get cr"; "radio get crc";
   "radio get fdev"; "radio get freq"; "radio get iqi"; "radio get mod";
   "radio get prlen"; "radio get pwr"; "radio get rxbw"; "radio get sf";
   "radio get sync"; "radio get wdt"].

(** The address sent for byte [adr] of the memory window. *)
Definition nvm_adr (adr : nat) : string :=
  let nvm_adr := PyStr.upper (PyStr.format_x adr) in
  if (String.length nvm_adr <? 2)%nat then "30" ++ nvm_adr
  else "3" ++ nvm_adr.

(** [while adr < 256], with [n] iterations left. Appending a [False]
    response to the string raises. *)
Fixpoint nvm_loop (n adr : nat) (nvm_data : string) : method string :=
  match n with
  | O => ret nvm_data
  | S n' =>
      let cmd := "sys get nvm" ++ " " ++ nvm_adr adr in
      do! sr <- send_command cmd;
      let '(status, response) := sr in
      if pyval_eqb status ok then
        match response with
        | PStr data => nvm_loop n' (adr + 1) (nvm_data ++ data)
        | PFalse => raise TypeError
        end
      else nvm_loop n' (adr + 1) nvm_data
  end.

(** [config[ctype][cparm] = value] *)
Definition config_set (ctype cparm : string) (value : pyval)
  (config : dict (dict pyval)) : result (dict (dict pyval)) :=
  match dict_get ctype config with
  | Some group => Return (dict_set ctype (dict_set cparm value group) config)
  | None => Raise KeyError
  end.

Definition lift {A : Type} (r : result A) : method A :=
  fun self => (r, self).

(** [for cmd in config_cmds] *)
Fixpoint config_loop (cmds : list string) (config : dict (dict pyval))
  : method (dict (dict pyval)) :=
  match cmds with
  | [] => ret config
  | cmd :: rest =>
      match PyStr.split_on " " cmd with
      | [ctype; cbase; cparm] =>
          if String.eqb cmd "sys get nvm" then
            do! nvm_data <- nvm_loop 256 0 "";
            do! config <- lift (config_set "sys" "nvm" (PStr nvm_data) config);
            config_loop rest config
          else if String.eqb cmd "mac get ch" then
            config_loop rest config
          else
            do! sr <- send_command cmd;
            let '(status, response) := sr in
            if negb (pyval_eqb status ok) then config_loop rest config
            else
              do! config <- lift (config_set ctype cparm response config);
              config_loop rest config
      | _ => raise ValueError
      end
  end.

Definition get_device_config : method (dict (dict pyval)) :=
  do! _ <- send_command "mac pause";
  let config := [("sys", []); ("mac", []); ("radio", [])] in
  do! config <- config_loop config_cmds config;
  do! _ <- send_command "mac resume";
  ret config.

(** ** put_device_config *)

(** ['radio set '+setting+' '+val]; only a string can be appended. *)
Definition radio_set (setting : string) (val : pyval) : result string :=
  match val with
  | PStr v => Return ("radio set " ++ setting ++ " " ++ v)
  | PFalse => Raise TypeError
  end.

(** The first loop: validate every setting, remembering any failure. *)
Fixpoint validate_settings (radio : dict pyval) (config_valid : bool)
  : result bool :=
  match radio with
  | [] => Return config_valid
  | (setting, val) :: rest =>
      try! cmd <- radio_set setting val;
      try! valid <- validate_command Table.commands cmd;
      if negb (truthy valid) then validate_settings rest false
      else validate_settings rest config_valid
  end.

(** The second loop: send the settings until one fails. The result is
    [set_config]. *)
Fixpoint apply_settings (radio : dict pyval) : method bool :=
  match radio with
  | [] => ret true
  | (setting, val) :: rest =>
      do! cmd <- lift (radio_set setting val);
      do! sr <- send_command cmd;
      if negb (pyval_eqb (fst sr) ok) then ret false
      else apply_settings rest
  end.

Definition put_device_config : method bool :=
  fun self =>
    match dict_get "radio" (device_config self) with
    | None => (Raise KeyError, self)
    | Some radio =>
        (do! config_valid <- lift (validate_settings radio true);
         if config_valid : bool then
           (* pause LoRa WAN system *)
           do! sr <- send_command "mac pause";
           if negb (pyval_eqb (fst sr) ok) then ret false
           else
             do! set_config <- apply_settings radio;
             (* save config *)
             do! _ <- (if set_config : bool then send_command "mac save"
                       else ret (PStr "", PStr ""));
             (* resume LoRa WAN system *)
             do! sr <- send_command "mac resume";
             if negb (pyval_eqb (fst sr) ok) then ret false
             else ret true
         else ret true) self
    end.

(** ** Sessions and device scripts used in the statements *)

(** The bytes of one response line, terminator included. *)
Definition line (s : string) : list rx :=
  map RxByte (list_ascii_of_string (s ++ Table.data_termintaor)).

(** A freshly opened port that will deliver [incoming]. *)
Definition port (incoming : list rx) : serial := mk_serial incoming [] [].

(** An instance in state [status], in safe mode, holding the radio settings
    [radio]. *)
Definition session (status : string) (radio : dict pyval)
  (incoming : list rx) : rn2903 :=
  mk_rn2903 status "on" [("sys", []); ("mac", []); ("radio", radio)]
    (port incoming).

(** The texts handed to [write()], oldest first. *)
Definition sent (self : rn2903) : list string :=
  map fst (written (dev_object self)).

(** ** Shape of a command table *)

Definition is_input_list (n : node) : bool :=
  match n with
  | UserInput (_ :: _) => true
  | _ => false
  end.

(** No key is the empty string, and what sits under ['user_input'] is a
    non-empty list of parameter definitions. *)
Fixpoint well_formed (n : node) : bool :=
  match n with
  | UserInput _ => true
  | Dict items =>
      (fix all (l : dict node) : bool :=
         match l with
         | [] => true
         | (k, v) :: r =>
             PyStr.nonempty k
             && (if String.eqb k "user_input" then is_input_list v else true)
             && well_formed v
             && all r
         end) items
  end.

(** [sub] is made of elements of [l], taken in the order of [l]. *)
Fixpoint picked (sub l : list string) : bool :=
  match sub, l with
  | [], _ => true
  | _ :: _, [] => false
  | x :: sub', y :: l' =>
      if String.eqb x y then picked sub' l' else picked sub l'
  end.

(** The tokens a command line offers to the validator: the category in
    lower case, then the other tokens as typed. *)
Definition offered (cmd_set : list string) : list string :=
  match cmd_set with
  | [] => []
  | cmd_0 :: rest => PyStr.lower cmd_0 :: rest
  end.

(** The tests of [send_command]'s chain of [if]/[elif]: the command has a
    branch of its own. Every other command takes the last branch. *)
Definition special_class (send_str : string) : bool :=
  PyStr.startswith send_str "sys sleep"
  || PyStr.startswith send_str "sys reset"
  || PyStr.startswith send_str "sys eraseFW"
  || PyStr.startswith send_str "sys factoryRESET"
  || PyStr.startswith send_str "radio rx "
  || PyStr.startswith send_str "radio tx".

(** The first three tokens of [l] lead to a node that is a non-empty
    dictionary of further subcommands, with no ['user_input'] of its own. *)
Definition under_branch (commands : node) (l : list string) : Prop :=
  exists a b c,
    getitem (PyStr.lower (nth 0 l "")) commands = Some a
    /\ getitem (nth 1 l "") a = Some b
    /\ getitem "user_input" b = None
    /\ getitem (nth 2 l "") b = Some c
    /\ node_truthy c = true
    /\ getitem "user_input" c = None.

(** The length of the prefix of a token list that the table recognizes
    below node [n]. A node that declares parameters takes as many tokens as
    it declares; otherwise the next token is taken when it is a key of the
    node, and the count goes on below that key. From the root of the
    table this counts the category, the command, the subcommands if any,
    and the declared parameter slots. *)
Fixpoint recognized (n : node) (l : list string) : nat :=
  match getitem "user_input" n with
  | Some user_input => len user_input
  | None =>
      match l with
      | [] => 0
      | t :: r =>
          match getitem t n with
          | Some c => S (recognized c r)
          | None => 0
          end
      end
  end.


(** ** Proof tools *)

(** The hint and rewrite bases for the lemmas on strings and token lists. *)
Create HintDb tokens.
Create Rewrite HintDb tokens.

(** From [H : firstn (S n) l' = x :: xs], make [l'] start with [x]. *)
Ltac peel H l' :=
  let y := fresh "y" in
  destruct l' as [|y l']; [discriminate H|];
  simpl in H; first [injection H as -> H | injection H as ->].

(** Case analysis on the key of a lookup in a literal dictionary. *)
Ltac by_key H :=
  repeat match type of H with
         | context [String.eqb ?k ?lit] =>
             destruct (String.eqb_spec k lit) as [->|_]; [|try discriminate H]
         end.

(** Equality of a string built by appending with the [join] of its tokens. *)
Ltac join_eq :=
  unfold PyStr.join; simpl; autorewrite with tokens; simpl;
  autorewrite with tokens; reflexivity.

Ltac picked_eq :=
  simpl; rewrite ?String.eqb_refl; first [reflexivity | auto with tokens].

(** ** Tokens *)

(** A non-empty string without white space: what [str.split()] returns. *)
Definition is_token (t : string) : bool :=
  PyStr.nonempty t && PyStr.forallb (fun c => negb (PyStr.isspace c)) t.

(** ** example.py: the command line *)

(** [for arg in args: cmd += str(arg); cmd += ' '] *)
Fixpoint append_args (cmd : string) (args : list string) : string :=
  match args with
  | [] => cmd
  | arg :: rest => append_args (cmd ++ arg ++ " ") rest
  end.

(** [s[:-1]] *)
Fixpoint drop_last (s : string) : string :=
  match s with
  | EmptyString => EmptyString
  | String c r =>
      match r with
      | EmptyString => EmptyString
      | _ => String c (drop_last r)
      end
  end.

(** The command string the script builds from its arguments ([sys.argv]
    without the script name): empty unless there are at least two. *)
Definition example_cmd (args : list string) : string :=
  if (1 <? length args)%nat then drop_last (append_args "" args) else "".

(** ** Response text and what a call may change *)

(** A character a response line can carry: a 7-bit code other than the
    line feed. *)
Definition is_text_char (c : ascii) : bool :=
  (PyStr.code c <? 128)%nat && negb (Ascii.eqb c "010").

Definition is_text (s : string) : bool := PyStr.forallb is_text_char s.

(** The bytes of a text as the port delivers them. *)
Definition bytes (s : string) : list rx :=
  map RxByte (list_ascii_of_string s).

(** The attributes of the instance other than the port are the same. *)
Definition same_settings (self self' : rn2903) : Prop :=
  dev_status self' = dev_status self
  /\ safe_mode self' = safe_mode self
  /\ device_config self' = device_config self.

(** An entry of the write log that carries a canonical command and the
    terminator. *)
Definition valid_entry (e : string * bool) : Prop :=
  exists cmd out,
    validate_command Table.commands cmd = Return (PStr out)
    /\ fst e = out ++ Table.data_termintaor.

(** From [self] to [self']: the settings are kept, [k] items have been
    taken from the port and the entries [new] added to its write log. *)
Definition reached (self self' : rn2903) (k : nat)
  (new : list (string * bool)) : Prop :=
  same_settings self self'
  /\ inbox (dev_object self') = skipn k (inbox (dev_object self))
  /\ written (dev_object self') = (written (dev_object self) ++ new)%list.

(** From [self] to [self']: the settings are kept, the port has only been
    read from and written to, and every write carried a canonical
    command. *)
Definition only_valid_writes (self self' : rn2903) : Prop :=
  exists k new, reached self self' k new /\ Forall valid_entry new.

(** The texts written for a list of commands. *)
Definition frames (cmds : list string) : list string :=
  map (fun cmd => cmd ++ Table.data_termintaor) cmds.

(** The fields of an instance are kept by every call of a method. *)
Definition keeps {A : Type} (R : rn2903 -> rn2903 -> Prop) (m : method A)
  : Prop :=
  forall self, R self (snd (m self)).

(** ** The commands of the two sequences *)

(** The command [get_device_config] builds for byte [adr] of the memory
    window. *)
Definition nvm_cmd (adr : nat) : string :=
  "sys get nvm" ++ " " ++ nvm_adr adr.

(** [cmd] is its own canonical form and takes the last branch of
    [send_command]. *)
Definition plain (cmd : string) : bool :=
  match validate_command Table.commands cmd with
  | Return (PStr out) => String.eqb out cmd && negb (special_class cmd)
  | _ => false
  end.

(** What the loop of [get_device_config] sends for one entry of
    [config_cmds]. *)
Definition expand (cmd : string) : list string :=
  if String.eqb cmd "sys get nvm" then map nvm_cmd (seq 0 256)
  else if String.eqb cmd "mac get ch" then []
  else [cmd].

(** All the commands of a complete read sequence, in order. *)
Definition read_sequence : list string :=
  ("mac pause" :: flat_map expand config_cmds ++ ["mac resume"])%list.

(** An entry the loop of [get_device_config] can handle: three fields, the
    first one a group of the snapshot, and a command that is sent as it
    stands unless it is one of the two special entries. *)
Definition loop_entry (cmd : string) : bool :=
  match PyStr.split_on " " cmd with
  | [ctype; cbase; cparm] =>
      existsb (String.eqb ctype) ["sys"; "mac"; "radio"]
      && (String.eqb cmd "sys get nvm" || String.eqb cmd "mac get ch"
          || plain cmd)
  | _ => false
  end.

(** Every item the port still has to deliver is a byte that decodes or a
    time-out. *)
Definition clean (dev : serial) : Prop :=
  Forall (fun ev => decode ev <> None) (inbox dev).

(** The snapshot under construction has its three groups. *)
Definition has_groups (config : dict (dict pyval)) : Prop :=
  forall g, In g ["sys"; "mac"; "radio"] -> dict_get g config <> None.

(** The canonical form of a command the validator accepts. *)
Definition canonical (cmd : string) : string :=
  match validate_command Table.commands cmd with
  | Return (PStr out) => out
  | _ => ""
  end.

(** The canonical [radio set] commands of a group of settings. *)
Definition radio_commands (radio : dict pyval) : list string :=
  map (fun kv =>
         match radio_set (fst kv) (snd kv) with
         | Return cmd => canonical cmd
         | Raise _ => ""
         end) radio.

(** A setting that passed the first loop of [put_device_config]: its value
    is a string and the [radio set] command built from it validates. *)
Definition passed (kv : string * pyval) : Prop :=
  exists s out,
    snd kv = PStr s
    /\ validate_command Table.commands
         ("radio set " ++ fst kv ++ " " ++ s) = Return (PStr out).

(** The [radio set] requests of a group of settings, as the loops of
    [put_device_config] build them. *)
Definition radio_requests (radio : dict pyval) : list string :=
  map (fun kv =>
         match radio_set (fst kv) (snd kv) with
         | Return cmd => cmd
         | Raise _ => ""
         end) radio.

(** The device acknowledges the requests [cmds] one after the other: each
    [send_command] returns with the status ['ok']. [self'] is the instance
    after the last of them. *)
Inductive all_acknowledged : list string -> rn2903 -> rn2903 -> Prop :=
| ack_nil (self : rn2903) : all_acknowledged [] self self
| ack_cons (cmd : string) (cmds : list string) (self self1 self2 : rn2903)
    (response : pyval) :
    send_command cmd self = (Return (ok, response), self1) ->
    all_acknowledged cmds self1 self2 ->
    all_acknowledged (cmd :: cmds) self self2.

(** ** __init__ *)

(** What [read_file_config] found, when it is a non-empty JSON object: the
    value under ['dev'], as [str] renders it, and the value under
    ['device_config'], taken to be groups of string settings. Other keys
    play no part. *)
Record file_config : Type := mk_file_config {
  fc_dev : option string;
  fc_device_config : option (dict (dict pyval))
}.

(** The default configuration of a new instance. *)
Definition default_device_config : dict (dict pyval) :=
  [("sys", [("ver", PStr ""); ("nvm", PStr ""); ("hweui", PStr "")]);
   ("mac",
     [("adr", PStr "off"); ("appeui", PStr "0000000000000000");
      ("ar", PStr "off"); ("class", PStr "A"); ("dcycleps", PStr "1");
      ("devaddr", PStr "00000000"); ("deveui", PStr "0000000000000000");
      ("dnctr", PStr "0"); ("dr", PStr "XXX"); ("gwnb", PStr "0");
      ("mcast", PStr "off"); ("mcastdevaddr", PStr "00000000");
      ("mcastdnctr", PStr "0"); ("mrgn", PStr "255"); ("pwridx", PStr "5");
      ("retx", PStr "7"); ("rx2", PStr "8 923300000");
      ("rxdelay1", PStr "1000"); ("rxdelay2", PStr "2000");
      ("status", PStr "00000100"); ("sync", PStr "34");
      ("upctr", PStr "0")]);
   ("radio",
     [("afcbw", PStr "41.7"); ("bitrate", PStr "50000"); ("bt", PStr "0.5");
      ("bw", PStr "125"); ("cr", PStr "4/5"); ("crc", PStr "on");
      ("fdev", PStr "25000"); ("freq", PStr "923300000");
      ("iqi", PStr "off"); ("mod", PStr "lora"); ("prlen", PStr "8");
      ("pwr", PStr "2"); ("rxbw", PStr "25"); ("sf", PStr "sf12");
      ("sync", PStr "34"); ("wdt", PStr "15000")])].

Definition set_status (self : rn2903) (status : string) : rn2903 :=
  mk_rn2903 status (safe_mode self) (device_config self) (dev_object self).

Definition set_config (self : rn2903) (config : dict (dict pyval))
  : rn2903 :=
  mk_rn2903 (dev_status self) (safe_mode self) config (dev_object self).

(** The check of the running firmware on the outcome of
    [send_command('sys get ver')]: the status is ['ok'], the payload has
    six fields, and the first two are the firmware name and the target
    version. An exception, in the call or in the unpacking of the fields,
    is caught and fails the check. *)
Definition firmware_matches (r : result (pyval * pyval)) : bool :=
  match r with
  | Return (status, PStr running_firmware) =>
      if pyval_eqb status ok then
        match PyStr.split_on " " running_firmware with
        | [module; version; _; _; _; _] =>
            String.eqb module Table.firmware_name
            && String.eqb version Table.target_version
        | _ => false
        end
      else false
  | _ => false
  end.

(** The new instance for the default serial device path, or the one the
    configuration file names. *)
Definition device_path (config : option file_config) : string :=
  match config with
  | Some (mk_file_config (Some dev) _) => dev
  | _ => "/dev/ttyACM0"
  end.

(** [__init__]. [config] is what [read_file_config] returned, [None] for
    [False] or an empty object; [open_port] is [serial.Serial], [None]
    when it raises. Without a port [dev_object] stays [None] in the
    source; the record then holds an empty port, which no method reaches
    since [dev_status] is ['error']. Saving the default configuration file
    changes nothing in the instance. *)
Definition init (config : option file_config)
  (open_port : string -> option serial) : result unit * rn2903 :=
  (* open serial device *)
  let self :=
    match open_port (device_path config) with
    | Some dev => mk_rn2903 "idle" "on" default_device_config dev
    | None => mk_rn2903 "error" "on" default_device_config (port [])
    end in
  (* check running firmware against target *)
  let self :=
    if String.eqb (dev_status self) "idle" then
      let (r, self) := send_command "sys get ver" self in
      if firmware_matches r then self else set_status self "error"
    else self in
  (* get current running device config *)
  let (r, self) :=
    if String.eqb (dev_status self) "idle" then
      (do! config <- get_device_config;
       fun self =>
         let self := set_config self config in
         (Return tt,
          match config with
          | [] => set_status self "error"
          | _ => self
          end)) self
    else (Return tt, self) in
  match r with
  | Raise e => (Raise e, self)
  | Return _ =>
      (* grab local config overrides if exist *)
      match config with
      | Some (mk_file_config _ (Some device_config)) =>
          (do! _ <- put_device_config; ret tt)
            (set_config self device_config)
      | _ => (Return tt, self)
      end
  end.

(** The instance once the port [dev] has opened. *)
Definition opened (dev : serial) : rn2903 :=
  mk_rn2903 "idle" "on" default_device_config dev.

(** The settings the configuration file asks to push to the device. *)
Definition overrides (config : option file_config)
  : option (dict (dict pyval)) :=
  match config with
  | Some fc => fc_device_config fc
  | None => None
  end.

(** ** example.py: the run *)

(** What the script prints: the pair [send_command] returned, or the
    configuration of the instance. *)
Inductive printed : Type :=
| PrintResult (sta res : pyval)
| PrintConfig (device_config : dict (dict pyval)).

(** The script from its arguments ([sys.argv] without the script name);
    [config] and [open_port] are what [__init__] finds. An exception of
    [__init__] or of [send_command] ends the script. Leaving the [with]
    block closes the port, which the port model does not record. *)
Definition example (args : list string) (config : option file_config)
  (open_port : string -> option serial) : result printed * rn2903 :=
  let cmd := example_cmd args in
  (* instantiate a rn2903 object *)
  let (r, modem1) := init config open_port in
  match r with
  | Raise e => (Raise e, modem1)
  | Return _ =>
      if PyStr.nonempty cmd then
        (do! sr <- send_command cmd;
         ret (PrintResult (fst sr) (snd sr))) modem1
      else (Return (PrintConfig (device_config modem1)), modem1)
  end.

(** * Properties *)

(** ** The validator on the depth-four commands and on short inputs *)

(** C2. [validate_command] does not reject a command under [mac get ch]
    whose channel number violates its range [0,71]: it answers the string
    ["mac get ch"], a command without the offending token (and without the
    subcommand), where every other parameter position answers [False]. *)
Theorem mac_get_ch_bad_parameter_is_not_rejected :
  check_param "99" (Table.int_range 0 71) = false
  /\ validate_command Table.commands "mac get ch freq 99"
     = Return (PStr "mac get ch")
  /\ (forall n : string,
        check_param n (Table.int_range 0 71) = false ->
        validate_tokens Table.commands ["mac"; "get"; "ch"; "freq"; n]
        = Return (PStr "mac get ch"))
  /\ validate_command Table.commands "radio set pwr 99" = Return PFalse.
Proof.
  split; [|split; [|split]]; try (vm_compute; reflexivity).
  intros n Hn. cbv [Table.int_range] in Hn.
  cbv -[check_param]. rewrite Hn. reflexivity.
Qed.

(** C8. Validating a canonical command again can give another string: the
    canonical form of ["mac get ch freq 5"] is ["mac get ch 5"], whose own
    canonical form is ["mac get ch"]. *)
Theorem canonical_form_not_stable_under_mac_get_ch :
  validate_command Table.commands "mac get ch freq 5"
  = Return (PStr "mac get ch 5")
  /\ validate_command Table.commands "mac get ch 5"
     = Return (PStr "mac get ch").
Proof. split; vm_compute; reflexivity. Qed.

(** C9. An input with a space in it and fewer than two tokens is not
    answered with [False]: reading the missing token raises [IndexError]. *)
Theorem short_input_with_space_raises :
  forall cmd : string,
    PyStr.contains " " cmd = true ->
    (length (PyStr.split cmd) < 2)%nat ->
    validate_command Table.commands cmd = Raise IndexError.
Proof.
  intros cmd Hsp Hlen. unfold validate_command. rewrite Hsp. simpl.
  unfold validate_tokens.
  destruct (PyStr.split cmd) as [|t0 [|t1 rest]]; simpl in *;
    [reflexivity | reflexivity | lia].
Qed.

(** The input ["sys "]. *)
Lemma short_input_with_space_raises_witness :
  validate_command Table.commands "sys " = Raise IndexError.
Proof.
  apply short_input_with_space_raises; [reflexivity | simpl; lia].
Defined.

(** ** Dispatch *)

(** C1. For [radio rx 0] and [radio tx 0a] on an idle device, whatever the
    state of the port, [send_command] returns the pair of empty strings and
    leaves the instance as it was: nothing is written. *)
Theorem radio_rx_tx_not_written :
  forall (mode : string) (config : dict (dict pyval)) (dev : serial),
    let self := mk_rn2903 "idle" mode config dev in
    validate_command Table.commands "radio rx 0" = Return (PStr "radio rx 0")
    /\ send_command "radio rx 0" self = (Return (PStr "", PStr ""), self)
    /\ validate_command Table.commands "radio tx 0a"
       = Return (PStr "radio tx 0a")
    /\ send_command "radio tx 0a" self = (Return (PStr "", PStr ""), self).
Proof.
  intros mode config dev self. subst self.
  split; [|split; [|split]]; vm_compute; reflexivity.
Qed.

(** C6. In safe mode (any [safe_mode] other than ['off'], so the default
    ['on'] too) a request whose canonical command is [sys eraseFW] or
    [sys factoryRESET] is answered [(False, False)] and the instance, port
    included, is left as it was: no write takes place. *)
Theorem destructive_commands_rejected_in_safe_mode :
  forall (self : rn2903) (ps_cmd send_str : string),
    safe_mode self <> "off" ->
    validate_command Table.commands ps_cmd = Return (PStr send_str) ->
    send_str = "sys eraseFW" \/ send_str = "sys factoryRESET" ->
    send_command ps_cmd self = (Return (PFalse, PFalse), self)
    /\ written (dev_object (snd (send_command ps_cmd self)))
       = written (dev_object self).
Proof.
  intros self ps_cmd send_str Hsafe Hval Hcmd.
  assert (Hoff : String.eqb (safe_mode self) "off" = false)
    by (apply String.eqb_neq; exact Hsafe).
  assert (H : send_command ps_cmd self = (Return (PFalse, PFalse), self)).
  { unfold send_command.
    destruct (String.eqb (dev_status self) "error"); [reflexivity|].
    rewrite Hval.
    destruct Hcmd; subst send_str; cbn -[String.eqb]; rewrite Hoff;
      reflexivity. }
  split; [exact H | rewrite H; reflexivity].
Qed.

(** [sys eraseFW] on an idle instance in safe mode. *)
Lemma destructive_commands_rejected_in_safe_mode_witness :
  send_command "sys eraseFW" (session "idle" [] (line "ok"))
  = (Return (PFalse, PFalse), session "idle" [] (line "ok"))
  /\ written (dev_object
       (snd (send_command "sys eraseFW" (session "idle" [] (line "ok")))))
     = [].
Proof.
  apply (destructive_commands_rejected_in_safe_mode
           (session "idle" [] (line "ok")) "sys eraseFW" "sys eraseFW").
  - simpl. discriminate.
  - reflexivity.
  - left. reflexivity.
Defined.

(** ** Configuration sequences *)

(** C4. When the device answers [busy] to [mac pause], [send_command]
    reports the failure, yet [get_device_config] goes on: it sends all the
    read commands and [mac resume], 298 writes in all, and returns a
    snapshot. *)
Theorem get_device_config_continues_after_failed_pause :
  let self := session "idle" [] (line "busy") in
  fst (send_command "mac pause" self) = Return (PFalse, PStr "busy")
  /\ firstn 3 (sent (snd (get_device_config self)))
     = ["mac pause" ++ Table.data_termintaor;
        "sys get ver" ++ Table.data_termintaor;
        "sys get nvm 300" ++ Table.data_termintaor]
  /\ length (sent (snd (get_device_config self))) = 298%nat
  /\ (exists config, fst (get_device_config self) = Return config).
Proof.
  cbv zeta. split; [|split; [|split]].
  - vm_compute. reflexivity.
  - vm_compute. reflexivity.
  - vm_compute. reflexivity.
  - eexists. vm_compute. reflexivity.
Qed.

(** C5. [put_device_config] returns [True] for a snapshot with an invalid
    radio setting (nothing is sent), and returns [True] again when the
    device rejects the first [radio set]: the loop stops there, [mac save]
    is skipped, [mac resume] is sent. *)
Theorem put_device_config_reports_success_on_failure :
  validate_command Table.commands "radio set sf sf13" = Return PFalse
  /\ put_device_config (session "idle" [("sf", PStr "sf13")] [])
     = (Return true, session "idle" [("sf", PStr "sf13")] [])
  /\ (let radio := [("sf", PStr "sf7"); ("pwr", PStr "2")] in
      let self :=
        session "idle" radio
          (line "4294967245" ++ line "invalid_param" ++ line "ok") in
      fst (put_device_config self) = Return true
      /\ sent (snd (put_device_config self))
         = ["mac pause" ++ Table.data_termintaor;
            "radio set sf sf7" ++ Table.data_termintaor;
            "mac resume" ++ Table.data_termintaor]).
Proof.
  cbv zeta. split; [|split; [|split]]; vm_compute; reflexivity.
Qed.

(** ** Response classification of the ordinary commands *)

Lemma status_in_spec (s : string) (l : list string) :
  status_in (PStr s) l = true <-> In s l.
Proof.
  simpl. rewrite existsb_exists. split.
  - intros [x [Hin Heq]]. apply String.eqb_eq in Heq. subst x. exact Hin.
  - intros Hin. exists s. split; [exact Hin | apply String.eqb_refl].
Qed.

(** C3 fails as stated: [err] is one of the response codes, yet a device
    answering [err] to [mac save] gets the result [('ok', 'err')]. *)
Lemma err_response_is_returned_as_data :
  In "err" Table.response_codes
  /\ special_class "mac save" = false
  /\ fst (send_command "mac save" (session "idle" [] (line "err")))
     = Return (ok, PStr "err").
Proof.
  split; [|split].
  - simpl. tauto.
  - vm_compute. reflexivity.
  - vm_compute. reflexivity.
Qed.

(** C3, amended. For a command outside the special classes whose write
    succeeds and whose response line is [line]: a line in
    [{invalid_param, busy, radio_err}] gives the failure [(False, line)];
    the line [ok] gives [('ok', '')]; any other line gives
    [('ok', line)]. *)
Theorem ordinary_command_response :
  forall (self self1 self2 : rn2903) (ps_cmd send_str line : string),
    dev_status self <> "error" ->
    validate_command Table.commands ps_cmd = Return (PStr send_str) ->
    special_class send_str = false ->
    write_command send_str self = (Return true, self1) ->
    read_response self1 = (Return (PStr line), self2) ->
    (In line ["invalid_param"; "busy"; "radio_err"] ->
     send_command ps_cmd self = (Return (PFalse, PStr line), self2))
    /\ (line = "ok" ->
        send_command ps_cmd self = (Return (PStr "ok", PStr ""), self2))
    /\ (~ In line ["invalid_param"; "busy"; "radio_err"] -> line <> "ok" ->
        send_command ps_cmd self = (Return (PStr "ok", PStr line), self2)).
Proof.
  intros self self1 self2 ps_cmd send_str line Hst Hval Hsp Hw Hr.
  assert (Hne : PyStr.nonempty send_str = true).
  { unfold write_command in Hw.
    destruct (PyStr.nonempty send_str); [reflexivity | discriminate]. }
  unfold special_class in Hsp.
  repeat (apply orb_false_elim in Hsp; destruct Hsp as [Hsp ?]).
  assert (Hsend :
    send_command ps_cmd self
    = (Return (if status_in (PStr line) err_status then (PFalse, PStr line)
               else if negb (pyval_eqb (PStr line) ok) then (ok, PStr line)
               else (PStr line, PStr "")), self2)).
  { unfold send_command.
    apply String.eqb_neq in Hst. rewrite Hst, Hval, Hne. simpl negb.
    cbv iota.
    repeat match goal with
           | H : PyStr.startswith send_str _ = false |- _ =>
               rewrite H; clear H
           end.
    unfold bind. rewrite Hw, Hr.
    destruct (status_in (PStr line) err_status); [reflexivity|].
    unfold ok. simpl. destruct (String.eqb line "ok"); reflexivity. }
  rewrite Hsend. split; [|split].
  - intros Hin. apply (status_in_spec line err_status) in Hin.
    rewrite Hin. reflexivity.
  - intros ->. reflexivity.
  - intros Hnin Hnok.
    destruct (status_in (PStr line) err_status) eqn:E.
    + apply status_in_spec in E. contradiction.
    + apply String.eqb_neq in Hnok. simpl. unfold ok. rewrite Hnok.
      reflexivity.
Qed.

(** [radio set pwr 5] answered by [invalid_param]. *)
Lemma ordinary_command_response_witness :
  send_command "radio set pwr 5" (session "idle" [] (line "invalid_param"))
  = (Return (PFalse, PStr "invalid_param"),
     mk_rn2903 "idle" "on" [("sys", []); ("mac", []); ("radio", [])]
       (mk_serial [] []
          [("radio set pwr 5" ++ Table.data_termintaor, true)])).
Proof.
  refine (proj1 (ordinary_command_response
    (session "idle" [] (line "invalid_param"))
    (mk_rn2903 "idle" "on" [("sys", []); ("mac", []); ("radio", [])]
       (mk_serial (line "invalid_param") []
          [("radio set pwr 5" ++ Table.data_termintaor, true)]))
    _ "radio set pwr 5" "radio set pwr 5" "invalid_param" _ _ _ _ _) _).
  - simpl. discriminate.
  - vm_compute. reflexivity.
  - vm_compute. reflexivity.
  - vm_compute. reflexivity.
  - vm_compute. reflexivity.
  - simpl. tauto.
Defined.

(** ** The error state *)

Lemma send_command_in_error_state (self : rn2903) (ps_cmd : string) :
  dev_status self = "error" ->
  send_command ps_cmd self = (Return (PFalse, PFalse), self).
Proof.
  intros Herr. unfold send_command. rewrite Herr. reflexivity.
Qed.

(** C7. In the error state no command reaches the transport:
    [send_command] answers [(False, False)] at once, and none of the three
    public operations changes the instance, so the port sees no write and
    no read. The two sequences, though, do not report the state: as each
    of them goes on after a failed step, [get_device_config] returns a
    snapshot with empty groups, and [put_device_config] returns [True]
    when a radio setting is invalid ([False] when all are valid). *)
Theorem error_state_blocks_the_transport :
  forall self : rn2903,
    dev_status self = "error" ->
    (forall ps_cmd,
        send_command ps_cmd self = (Return (PFalse, PFalse), self))
    /\ get_device_config self
       = (Return [("sys", [("nvm", PStr "")]); ("mac", []); ("radio", [])],
          self)
    /\ snd (put_device_config self) = self
    /\ (forall radio,
          dict_get "radio" (device_config self) = Some radio ->
          validate_settings radio true = Return true ->
          put_device_config self = (Return false, self))
    /\ (forall radio,
          dict_get "radio" (device_config self) = Some radio ->
          validate_settings radio true = Return false ->
          put_device_config self = (Return true, self)).
Proof.
  intros self Herr.
  assert (Hsend : forall ps_cmd,
             send_command ps_cmd self = (Return (PFalse, PFalse), self))
    by (intros; apply send_command_in_error_state; exact Herr).
  split; [exact Hsend|]. split; [|split; [|split]].
  - destruct self as [status mode config dev]. simpl in Herr. subst status.
    vm_compute. reflexivity.
  - unfold put_device_config.
    destruct (dict_get "radio" (device_config self)) as [radio|];
      [|reflexivity].
    unfold bind, lift.
    destruct (validate_settings radio true) as [[|]|e]; [|reflexivity..].
    rewrite Hsend. reflexivity.
  - intros radio Hradio Hvalid. unfold put_device_config.
    rewrite Hradio. unfold bind, lift. rewrite Hvalid, Hsend. reflexivity.
  - intros radio Hradio Hvalid. unfold put_device_config.
    rewrite Hradio. unfold bind, lift. rewrite Hvalid. reflexivity.
Qed.

(** An instance in the error state that holds the spreading factor
    [sf13], which the table does not list: the read sequence returns a
    snapshot and the write sequence returns [True]. *)
Lemma error_state_blocks_the_transport_witness :
  get_device_config (session "error" [("sf", PStr "sf13")] [])
  = (Return [("sys", [("nvm", PStr "")]); ("mac", []); ("radio", [])],
     session "error" [("sf", PStr "sf13")] [])
  /\ put_device_config (session "error" [("sf", PStr "sf13")] [])
     = (Return true, session "error" [("sf", PStr "sf13")] []).
Proof.
  destruct (error_state_blocks_the_transport
              (session "error" [("sf", PStr "sf13")] []) eq_refl)
    as [_ [Hget [_ [_ Hput]]]].
  split; [exact Hget|].
  apply (Hput [("sf", PStr "sf13")]); [reflexivity|].
  vm_compute. reflexivity.
Defined.


(** ** Strings and token lists *)

Lemma append_assoc (a b c : string) : (a ++ b) ++ c = a ++ (b ++ c).
Proof. induction a as [|x a IH]; simpl; [reflexivity | now rewrite IH]. Qed.

Lemma nth_as_nth_error (l : list string) (i : nat) :
  nth i l "" = match nth_error l i with Some x => x | None => "" end.
Proof. rewrite <- nth_default_eq. reflexivity. Qed.

Lemma firstn_nth_error (n : nat) (l l' : list string) :
  firstn n l' = firstn n l ->
  forall i, (i < n)%nat -> nth_error l' i = nth_error l i.
Proof.
  intros H i Hi.
  assert (E : forall m : list string,
             nth_error m i = nth_error (firstn n m) i).
  { intros m. rewrite nth_error_firstn.
    apply Nat.ltb_lt in Hi. now rewrite Hi. }
  now rewrite (E l'), (E l), H.
Qed.

Lemma firstn_nth (n : nat) (l l' : list string) :
  firstn n l' = firstn n l ->
  forall i, (i < n)%nat -> nth i l' "" = nth i l "".
Proof.
  intros H i Hi. rewrite !nth_as_nth_error.
  now rewrite (firstn_nth_error n l l' H i Hi).
Qed.

(** The validator reads positions 0 to 4 of the token list and no other. *)
Lemma validate_tokens_first_five (commands : node) (l l' : list string) :
  firstn 5 l' = firstn 5 l ->
  validate_tokens commands l' = validate_tokens commands l.
Proof.
  intros H. unfold validate_tokens.
  rewrite (firstn_nth_error 5 l l' H 0), (firstn_nth_error 5 l l' H 1) by lia.
  rewrite (firstn_nth 5 l l' H 2), (firstn_nth 5 l l' H 3),
    (firstn_nth 5 l l' H 4) by lia.
  reflexivity.
Qed.

(** An empty parameter never passes. *)
Lemma check_param_nonempty (p : string) (d : param_def) :
  check_param p d = true -> PyStr.nonempty p = true.
Proof.
  unfold check_param. destruct (PyStr.nonempty p); [trivial | discriminate].
Qed.

(** A token that is present stays where it is when tokens are appended. *)
Lemma nonempty_nth_app (l e : list string) (i : nat) :
  PyStr.nonempty (nth i l "") = true -> nth i (l ++ e) "" = nth i l "".
Proof.
  intros H. destruct (Nat.lt_ge_cases i (length l)) as [Hlt|Hge].
  - now apply app_nth1.
  - rewrite (nth_overflow l "" Hge) in H. discriminate.
Qed.

(** What a successful lookup in a well-formed table gives. *)
Lemma well_formed_getitem (n v : node) (k : string) :
  well_formed n = true -> getitem k n = Some v ->
  PyStr.nonempty k = true /\ well_formed v = true
  /\ (k = "user_input" -> is_input_list v = true).
Proof.
  destruct n as [items|specs]; [|discriminate].
  simpl. induction items as [|[k' v'] r IH]; [discriminate|].
  intros Hwf Hget. simpl in Hget.
  apply andb_prop in Hwf. destruct Hwf as [Hwf Hr].
  apply andb_prop in Hwf. destruct Hwf as [Hwf Hv].
  apply andb_prop in Hwf. destruct Hwf as [Hk Hui].
  destruct (String.eqb_spec k k') as [->|Hneq].
  - injection Hget as <-. repeat split; try assumption.
    intros ->. exact Hui.
  - now apply IH.
Qed.

#[local] Hint Rewrite append_assoc : tokens.

(** The two ways [check_user_input] accepts: one parameter (the second
    argument is then not looked at) or two. *)
Lemma check_user_input_cases (s out : string) (ui : node) (pa pb : string) :
  check_user_input s ui pa pb = Return (PStr out) ->
  PyStr.nonempty pa = true
  /\ ((out = s ++ " " ++ pa
       /\ forall pb', check_user_input s ui pa pb' = Return (PStr out))
      \/ (out = (s ++ " " ++ pa) ++ " " ++ pb /\ PyStr.nonempty pb = true)).
Proof.
  unfold check_user_input, bind_result.
  destruct (getindex ui 0) as [spec0|]; [|discriminate].
  destruct (check_param pa spec0) eqn:Ca; [|discriminate].
  intros H. split; [exact (check_param_nonempty _ _ Ca)|].
  destruct (Nat.eqb (len ui) 2).
  - destruct (getindex ui 1) as [spec1|]; [|discriminate].
    destruct (check_param pb spec1) eqn:Cb; [|discriminate].
    injection H as <-. right. split; [reflexivity|].
    exact (check_param_nonempty _ _ Cb).
  - injection H as <-. left. split; [reflexivity | trivial].
Qed.

Lemma picked_nil (l : list string) : picked [] l = true.
Proof. destruct l; reflexivity. Qed.

#[local] Hint Resolve picked_nil : tokens.

(** Splitting a line extended by a space and more text. *)
Lemma split_from_append (s t cur : string) :
  PyStr.split_from cur (s ++ String " " t)
  = (PyStr.split_from cur s ++ PyStr.split t)%list.
Proof.
  revert cur. induction s as [|c s IH]; intros cur; simpl.
  - destruct cur; reflexivity.
  - destruct (PyStr.isspace c).
    + destruct cur; rewrite IH; reflexivity.
    + apply IH.
Qed.

Lemma contains_append (c : ascii) (s t : string) :
  PyStr.contains c (s ++ String c t) = true.
Proof.
  induction s as [|d s IH]; simpl.
  - now rewrite Ascii.eqb_refl.
  - rewrite IH. apply orb_true_r.
Qed.

(** ** What the validator accepts *)

Lemma input_list_index (ui : node) :
  is_input_list ui = true -> exists d, getindex ui 0 = Return d.
Proof.
  destruct ui as [items|[|d specs]]; try discriminate.
  intros _. exists d. reflexivity.
Qed.

Lemma check_user_input_append (s out : string) (ui : node)
  (rest e : list string) (i : nat) :
  check_user_input s ui (nth i rest "") (nth (S i) rest "")
  = Return (PStr out) ->
  check_user_input s ui (nth i (rest ++ e) "") (nth (S i) (rest ++ e) "")
  = Return (PStr out).
Proof.
  unfold check_user_input, bind_result.
  destruct (getindex ui 0) as [spec0|]; [|discriminate].
  destruct (check_param (nth i rest "") spec0) eqn:Ca; [|discriminate].
  rewrite (nonempty_nth_app rest e i (check_param_nonempty _ _ Ca)), Ca.
  destruct (Nat.eqb (len ui) 2); [|trivial].
  destruct (getindex ui 1) as [spec1|]; [|discriminate].
  destruct (check_param (nth (S i) rest "") spec1) eqn:Cb; [|discriminate].
  rewrite (nonempty_nth_app rest e (S i) (check_param_nonempty _ _ Cb)), Cb.
  trivial.
Qed.

Section Accepted.

Variable commands : node.
Hypothesis Hwf : well_formed commands = true.

(** An accepted token list stays accepted when tokens are appended. *)
Lemma validate_tokens_append (l e : list string) (out : string) :
  validate_tokens commands l = Return (PStr out) ->
  exists out', validate_tokens commands (l ++ e) = Return (PStr out').
Proof.
  destruct l as [|c0 [|c1 rest]]; try discriminate.
  unfold validate_tokens. simpl.
  destruct (getitem (PyStr.lower c0) commands) as [a|] eqn:Ea;
    [|discriminate].
  destruct (well_formed_getitem _ _ _ Hwf Ea) as [_ [Hwa _]].
  destruct (getitem c1 a) as [b|] eqn:Eb; [|discriminate].
  destruct (well_formed_getitem _ _ _ Hwa Eb) as [_ [Hwb _]].
  destruct (node_truthy b); [|intros _; eexists; reflexivity].
  destruct (getitem "user_input" b) as [ui|].
  { intros H. exists out. now apply (check_user_input_append _ _ _ rest e 0). }
  destruct (getitem (nth 0 rest "") b) as [c|] eqn:Ec; [|discriminate].
  destruct (well_formed_getitem _ _ _ Hwb Ec) as [Hp1 [Hwc _]].
  rewrite (nonempty_nth_app rest e 0 Hp1), Ec.
  destruct (node_truthy c); [|intros _; eexists; reflexivity].
  destruct (getitem "user_input" c) as [ui|].
  { intros H. exists out. now apply (check_user_input_append _ _ _ rest e 1). }
  intros _.
  destruct (getitem (nth 1 (rest ++ e) "") c) as [d|] eqn:Ed;
    [|eexists; reflexivity].
  destruct (well_formed_getitem _ _ _ Hwc Ed) as [_ [Hwd _]].
  destruct (getitem "user_input" d) as [ui|] eqn:Eui;
    [|eexists; reflexivity].
  destruct (well_formed_getitem _ _ _ Hwd Eui) as [_ [_ Hui]].
  destruct (input_list_index ui (Hui eq_refl)) as [spec0 ->].
  simpl. destruct (check_param (nth 2 (rest ++ e) "") spec0);
    eexists; reflexivity.
Qed.

(** The canonical command of an accepted list: category, command, and
    tokens picked in order among the next three. *)
Lemma validate_tokens_picks (l : list string) (out : string) :
  validate_tokens commands l = Return (PStr out) ->
  exists ps,
    out = PyStr.join " " (firstn 2 (offered l) ++ ps)
    /\ picked ps (firstn 3 (skipn 2 l)) = true.
Proof.
  destruct l as [|c0 [|c1 rest]]; try discriminate.
  unfold validate_tokens. simpl.
  destruct (getitem (PyStr.lower c0) commands) as [a|] eqn:Ea;
    [|discriminate].
  destruct (well_formed_getitem _ _ _ Hwf Ea) as [_ [Hwa _]].
  destruct (getitem c1 a) as [b|] eqn:Eb; [|discriminate].
  destruct (well_formed_getitem _ _ _ Hwa Eb) as [_ [Hwb _]].
  destruct (node_truthy b).
  2:{ intros [= <-]. exists []. split; [reflexivity | apply picked_nil]. }
  destruct (getitem "user_input" b) as [ui|].
  { intros H. apply check_user_input_cases in H.
    destruct H as [Hpa [[-> _]|[-> Hpb]]].
    - exists [nth 0 rest ""]. split; [join_eq|].
      destruct rest as [|r0 rest]; [discriminate Hpa|].
      picked_eq.
    - exists [nth 0 rest ""; nth 1 rest ""]. split; [join_eq|].
      destruct rest as [|r0 [|r1 rest]];
        [discriminate Hpa | discriminate Hpb |].
      picked_eq. }
  destruct (getitem (nth 0 rest "") b) as [c|] eqn:Ec; [|discriminate].
  destruct (well_formed_getitem _ _ _ Hwb Ec) as [Hp1 [Hwc _]].
  destruct rest as [|r0 rest]; [discriminate Hp1|]. simpl in *.
  destruct (node_truthy c).
  2:{ intros [= <-]. exists [r0]. split; [join_eq|].
      picked_eq. }
  destruct (getitem "user_input" c) as [ui|].
  { intros H. apply check_user_input_cases in H.
    destruct H as [Hpa [[-> _]|[-> Hpb]]].
    - exists [r0; nth 0 rest ""]. split; [join_eq|].
      destruct rest as [|r1 rest]; [discriminate Hpa|].
      picked_eq.
    - exists [r0; nth 0 rest ""; nth 1 rest ""]. split; [join_eq|].
      destruct rest as [|r1 [|r2 rest]];
        [discriminate Hpa | discriminate Hpb |].
      picked_eq. }
  destruct (getitem (nth 0 rest "") c) as [d|] eqn:Ed.
  2:{ intros [= <-]. exists [r0]. split; [join_eq|].
      picked_eq. }
  destruct (getitem "user_input" d) as [ui|] eqn:Eui.
  2:{ intros [= <-]. exists [r0]. split; [join_eq|].
      picked_eq. }
  unfold bind_result.
  destruct (getindex ui 0) as [spec0|]; [|discriminate].
  destruct (check_param (nth 1 rest "") spec0) eqn:Cp.
  2:{ intros [= <-]. exists [r0]. split; [join_eq|].
      picked_eq. }
  intros [= <-]. exists [r0; nth 1 rest ""]. split; [join_eq|].
  apply check_param_nonempty in Cp.
  destruct rest as [|r1 [|r2 rest]]; [discriminate Cp | discriminate Cp|].
  simpl. rewrite String.eqb_refl.
  destruct (String.eqb r2 r1); picked_eq.
Qed.

(** Unless the first three tokens lead to a dictionary of subcommands, the
    canonical command is a prefix of the offered tokens and the answer
    depends on that prefix only. *)
Lemma validate_tokens_prefix (l : list string) (out : string) :
  validate_tokens commands l = Return (PStr out) ->
  (exists n,
      (2 <= n <= length l)%nat
      /\ out = PyStr.join " " (firstn n (offered l))
      /\ forall l', firstn n l' = firstn n l ->
                    validate_tokens commands l' = Return (PStr out))
  \/ under_branch commands l.
Proof.
  destruct l as [|c0 [|c1 rest]]; try discriminate.
  unfold validate_tokens at 1. simpl.
  destruct (getitem (PyStr.lower c0) commands) as [a|] eqn:Ea;
    [|discriminate].
  destruct (well_formed_getitem _ _ _ Hwf Ea) as [_ [Hwa _]].
  destruct (getitem c1 a) as [b|] eqn:Eb; [|discriminate].
  destruct (well_formed_getitem _ _ _ Hwa Eb) as [_ [Hwb _]].
  destruct (node_truthy b) eqn:Tb.
  2:{ intros [= <-]. left. exists 2%nat.
      split; [simpl; lia|]. split; [reflexivity|].
      intros l' H. peel H l'. peel H l'.
      unfold validate_tokens. simpl. now rewrite Ea, Eb, Tb. }
  destruct (getitem "user_input" b) as [ui|] eqn:Eui.
  { intros H. left.
    destruct (check_user_input_cases _ _ _ _ _ H)
      as [Hpa [[Hout Hany]|[Hout Hpb]]]; rewrite Hout in *; clear Hout.
    - destruct rest as [|r0 rest]; [discriminate Hpa|]. simpl in *.
      exists 3%nat. split; [simpl; lia|]. split; [join_eq|].
      intros l' E. peel E l'. peel E l'. peel E l'.
      unfold validate_tokens. simpl. rewrite Ea, Eb, Tb, Eui.
      apply Hany.
    - destruct rest as [|r0 [|r1 rest]];
        [discriminate Hpa | discriminate Hpb |]. simpl in *.
      exists 4%nat. split; [simpl; lia|]. split; [join_eq|].
      intros l' E. peel E l'. peel E l'. peel E l'. peel E l'.
      unfold validate_tokens. simpl. rewrite Ea, Eb, Tb, Eui.
      exact H. }
  destruct (getitem (nth 0 rest "") b) as [c|] eqn:Ec; [|discriminate].
  destruct (well_formed_getitem _ _ _ Hwb Ec) as [Hp1 [Hwc _]].
  destruct rest as [|r0 rest]; [discriminate Hp1|]. simpl in *.
  destruct (node_truthy c) eqn:Tc.
  2:{ intros [= <-]. left. exists 3%nat.
      split; [simpl; lia|]. split; [join_eq|].
      intros l' E. peel E l'. peel E l'. peel E l'.
      unfold validate_tokens. simpl. now rewrite Ea, Eb, Tb, Eui, Ec, Tc. }
  destruct (getitem "user_input" c) as [ui|] eqn:Euc.
  { intros H. left.
    destruct (check_user_input_cases _ _ _ _ _ H)
      as [Hpa [[Hout Hany]|[Hout Hpb]]]; rewrite Hout in *; clear Hout.
    - destruct rest as [|r1 rest]; [discriminate Hpa|]. simpl in *.
      exists 4%nat. split; [simpl; lia|]. split; [join_eq|].
      intros l' E. peel E l'. peel E l'. peel E l'. peel E l'.
      unfold validate_tokens. simpl.
      rewrite Ea, Eb, Tb, Eui, Ec, Tc, Euc. apply Hany.
    - destruct rest as [|r1 [|r2 rest]];
        [discriminate Hpa | discriminate Hpb |]. simpl in *.
      exists 5%nat. split; [simpl; lia|]. split; [join_eq|].
      intros l' E. peel E l'. peel E l'. peel E l'. peel E l'. peel E l'.
      unfold validate_tokens. simpl.
      rewrite Ea, Eb, Tb, Eui, Ec, Tc, Euc. exact H. }
  intros _. right. exists a, b, c. simpl. tauto.
Qed.

End Accepted.

(** The table of the class is well formed, and [mac get ch] is its only
    dictionary of subcommands below a subcommand. *)
Lemma commands_well_formed : well_formed Table.commands = true.
Proof. vm_compute. reflexivity. Qed.


Lemma only_branch_is_mac_get_ch (t0 t1 p1 : string) (a b c : node) :
  getitem t0 Table.commands = Some a ->
  getitem t1 a = Some b ->
  getitem "user_input" b = None ->
  getitem p1 b = Some c ->
  node_truthy c = true ->
  getitem "user_input" c = None ->
  t0 = "mac" /\ t1 = "get" /\ p1 = "ch".
Proof.
  intros Ha Hb Hbu Hc Hct Hcu.
  cbn in Ha. by_key Ha; try discriminate Ha; injection Ha as <-;
  cbn in Hb; by_key Hb; try discriminate Hb; injection Hb as <-;
  try discriminate Hbu;
  cbn in Hc; by_key Hc; try discriminate Hc; injection Hc as <-;
  try discriminate Hct; try discriminate Hcu.
  repeat split.
Qed.

(** ** Surplus tokens *)


(** * Further properties *)

(** ** Characters *)

Lemma lower_char_idempotent (c : ascii) :
  PyStr.lower_char (PyStr.lower_char c) = PyStr.lower_char c.
Proof. destruct c as [[] [] [] [] [] [] [] []]; vm_compute; reflexivity. Qed.

Lemma lower_idempotent (s : string) : PyStr.lower (PyStr.lower s) = PyStr.lower s.
Proof.
  induction s as [|c s IH]; simpl; [reflexivity|].
  now rewrite lower_char_idempotent, IH.
Qed.

Lemma isspace_lower_char (c : ascii) :
  PyStr.isspace (PyStr.lower_char c) = PyStr.isspace c.
Proof. destruct c as [[] [] [] [] [] [] [] []]; vm_compute; reflexivity. Qed.

Lemma is_token_lower (t : string) : is_token (PyStr.lower t) = is_token t.
Proof.
  unfold is_token. f_equal.
  - destruct t; reflexivity.
  - induction t as [|c t IH]; simpl; [reflexivity|].
    now rewrite isspace_lower_char, IH.
Qed.

(** ** check_param, kind by kind *)

(** *** Decimal numerals *)



Lemma isdigit_char_cases (c : ascii) :
  PyStr.isdigit_char c = true ->
  Ascii.eqb c "_" = false
  /\ PyStr.int_space c = false
  /\ (PyStr.dec_val c <> None -> PyStr.is_dec c = true).
Proof.
  destruct c as [[] [] [] [] [] [] [] []]; vm_compute; try discriminate;
    intros _; repeat split; try reflexivity; intros H; now elim H.
Qed.






(** Where [isdigit] holds, [int] succeeds on decimal digits only: the
    superscripts make it fail. *)
Lemma literal_isdigit (s : string) :
  forall (b : bool) (acc : Z) (n : nat) (r : Z * nat),
    PyStr.forallb PyStr.isdigit_char s = true ->
    PyStr.literal 10 PyStr.dec_val b acc n s = Some r ->
    PyStr.forallb PyStr.is_dec s = true.
Proof.
  induction s as [|c s IH]; intros b acc n r Hd H; [reflexivity|].
  cbn [PyStr.forallb] in Hd |- *. apply andb_prop in Hd.
  destruct Hd as [Hc Hs].
  destruct (isdigit_char_cases c Hc) as [Hu [Hsp Hdec]].
  cbn [PyStr.literal] in H. rewrite Hu in H.
  destruct (PyStr.dec_val c) as [j|] eqn:Ej.
  - rewrite Hdec by discriminate. exact (IH _ _ _ _ Hs H).
  - cbn [PyStr.forallb] in H. rewrite Hsp, andb_false_r in H.
    discriminate H.
Qed.

Lemma isdigit_int (p : string) (v : Z) :
  PyStr.isdigit p = true -> PyStr.int p = Some v ->
  PyStr.forallb PyStr.is_dec p = true.
Proof.
  unfold PyStr.isdigit. intros H. apply andb_prop in H.
  destruct H as [Hne Hd]. destruct p as [|c p]; [discriminate Hne|].
  pose proof Hd as Hd'. cbn [PyStr.forallb] in Hd'.
  apply andb_prop in Hd'. destruct Hd' as [Hc _].
  destruct (isdigit_char_cases c Hc) as [_ [Hsp _]].
  unfold PyStr.int. cbn [PyStr.skip_blanks]. rewrite Hsp.
  assert (Hsign : PyStr.sign (String c p) = (false, String c p)).
  { clear -Hc. unfold PyStr.sign.
    destruct c as [[] [] [] [] [] [] [] []]; try reflexivity;
      discriminate Hc. }
  rewrite Hsign.
  destruct (PyStr.literal 10 PyStr.dec_val false 0 0 (String c p))
    as [r|] eqn:E; [|discriminate].
  intros _. exact (literal_isdigit _ _ _ _ _ Hd E).
Qed.


Lemma nonempty_spec (s : string) : PyStr.nonempty s = true <-> s <> "".
Proof. destruct s; simpl; split; congruence. Qed.

Lemma in_bounds_spec (pval : option Z) (lo hi : Z) :
  in_bounds pval (Some (Some lo)) (Some (Some hi)) = true
  <-> exists v, pval = Some v /\ (lo <= v <= hi)%Z.
Proof.
  unfold in_bounds. destruct pval as [v|].
  - destruct (Z.ltb_spec v lo); [|destruct (Z.ltb_spec hi v)]; simpl;
      split; try discriminate;
      try (intros [w [[= <-] Hw]]; lia);
      intros _; exists v; split; [reflexivity | lia].
  - split; [discriminate | intros [v [H _]]; discriminate].
Qed.

(** What the integer branch accepts is made of decimal digits. *)
Lemma check_param_int_digits (p : string) (lo hi : Z) :
  check_param p (Table.int_range lo hi) = true ->
  p <> "" /\ PyStr.forallb PyStr.is_dec p = true.
Proof.
  unfold check_param, Table.int_range. simpl.
  destruct (PyStr.nonempty p) eqn:Hne; [|discriminate]. simpl.
  destruct (PyStr.isdigit p) eqn:Hd; [|discriminate]. simpl.
  intros H. apply in_bounds_spec in H. destruct H as [v [Hv _]].
  split; [now apply nonempty_spec | exact (isdigit_int _ _ Hd Hv)].
Qed.


(** *** Hexadecimal numerals *)

Lemma hexadecimal_char (c : ascii) (d d' : Hexadecimal.uint) :
  HexadecimalString.uint_of_char (PyStr.lower_char c) (Some d) = Some d' ->
  Ascii.eqb c "_" = false
  /\ PyStr.int_space c = false
  /\ Ascii.eqb c "+" = false
  /\ Ascii.eqb c "-" = false
  /\ Ascii.eqb c "x" = false
  /\ Ascii.eqb c "X" = false
  /\ PyStr.is_dec (PyStr.lower_char c)
     || PyStr.between 97 102 (PyStr.lower_char c) = true
  /\ exists k : nat,
       PyStr.hex_val c = Some (Z.of_nat k)
       /\ PyStr.hex_val (PyStr.lower_char c) = Some (Z.of_nat k)
       /\ forall n,
            Nat.of_hex_uint_acc d' n = Nat.of_hex_uint_acc d (k + 16 * n).
Proof.
  destruct c as [[] [] [] [] [] [] [] []]; cbn; try discriminate;
    intros [= <-]; repeat (split; [reflexivity|]);
    eexists; (split; [reflexivity|]); (split; [reflexivity|]);
    intros n; cbn [Nat.of_hex_uint_acc]; rewrite Nat.tail_mul_spec;
    reflexivity.
Qed.

(** A hexadecimal numeral of either case is read to its end. *)
Lemma literal_hexadecimal (s : string) :
  forall (d : Hexadecimal.uint) (b : bool) (n k : nat),
    HexadecimalString.NilEmpty.uint_of_string (PyStr.lower s) = Some d ->
    b = true \/ s <> "" ->
    PyStr.literal 16 PyStr.hex_val b (Z.of_nat n) k s
    = Some (Z.of_nat (Nat.of_hex_uint_acc d n), (k + String.length s)%nat).
Proof.
  induction s as [|c s IH]; intros d b n k H Hb.
  - injection H as <-. destruct Hb as [->|Hne]; [|now elim Hne].
    simpl. now rewrite Nat.add_0_r.
  - cbn [PyStr.lower HexadecimalString.NilEmpty.uint_of_string] in H.
    destruct (HexadecimalString.NilEmpty.uint_of_string (PyStr.lower s))
      as [ds|]; [|discriminate H].
    destruct (hexadecimal_char _ _ _ H)
      as [Hu [_ [_ [_ [_ [_ [_ [j [Hj [_ Hacc]]]]]]]]]].
    cbn [PyStr.literal]. rewrite Hu, Hj.
    replace (Z.of_nat n * 16 + Z.of_nat j)%Z with (Z.of_nat (j + 16 * n))
      by lia.
    rewrite (IH ds true (j + 16 * n)%nat (S k) eq_refl (or_introl eq_refl)).
    rewrite Hacc. cbn [String.length]. f_equal. f_equal. lia.
Qed.

Lemma hexadecimal_no_match (s : string) (d : Hexadecimal.uint) :
  HexadecimalString.NilEmpty.uint_of_string (PyStr.lower s) = Some d ->
  PyStr.search_non_hex (PyStr.lower s) = false.
Proof.
  unfold PyStr.search_non_hex. intros H. apply negb_false_iff.
  revert d H. induction s as [|c s IH]; intros d H; [reflexivity|].
  cbn [PyStr.lower HexadecimalString.NilEmpty.uint_of_string] in H.
  destruct (HexadecimalString.NilEmpty.uint_of_string (PyStr.lower s))
    as [ds|]; [|discriminate H].
  destruct (hexadecimal_char _ _ _ H) as [_ [_ [_ [_ [_ [_ [Hc _]]]]]]].
  cbn [PyStr.lower PyStr.forallb]. now rewrite Hc, (IH ds eq_refl).
Qed.

Lemma lower_hex_char (c : ascii) :
  PyStr.is_dec c || PyStr.between 97 102 c = true ->
  forall d, HexadecimalString.uint_of_char c (Some d) <> None.
Proof.
  destruct c as [[] [] [] [] [] [] [] []]; vm_compute; try discriminate;
    intros _ d; discriminate.
Qed.

Lemma no_match_hexadecimal (s : string) :
  PyStr.search_non_hex s = false ->
  exists d, HexadecimalString.NilEmpty.uint_of_string s = Some d.
Proof.
  unfold PyStr.search_non_hex. intros H. apply negb_false_iff in H.
  induction s as [|c s IH]; [now exists Hexadecimal.Nil|].
  cbn [PyStr.forallb] in H. apply andb_prop in H. destruct H as [Hc Hs].
  destruct (IH Hs) as [ds Hds].
  cbn [HexadecimalString.NilEmpty.uint_of_string]. rewrite Hds.
  destruct (HexadecimalString.uint_of_char c (Some ds)) as [d|] eqn:E;
    [now exists d | now elim (lower_hex_char c Hc ds)].
Qed.

(** [int(s,16)] on a hexadecimal numeral of either case: the number it
    denotes. The numeral has no blank, sign or prefix to take off. *)
Lemma int16_hexadecimal (s : string) (d : Hexadecimal.uint) :
  s <> "" ->
  HexadecimalString.NilEmpty.uint_of_string (PyStr.lower s) = Some d ->
  PyStr.int16 s = Some (Z.of_nat (Nat.of_hex_uint d)).
Proof.
  intros Hne Hd. unfold PyStr.int16.
  assert (Hs : PyStr.sign (PyStr.skip_blanks s) = (false, s)
               /\ PyStr.hex_prefix s = s).
  { destruct s as [|c s]; [now elim Hne|].
    pose proof Hd as H.
    cbn [PyStr.lower HexadecimalString.NilEmpty.uint_of_string] in H.
    destruct (HexadecimalString.NilEmpty.uint_of_string (PyStr.lower s))
      as [ds|] eqn:Es; [|discriminate H].
    destruct (hexadecimal_char _ _ _ H) as [_ [Hsp [Hp [Hm _]]]].
    cbn [PyStr.skip_blanks]. rewrite Hsp. split.
    - clear -Hp Hm. unfold PyStr.sign.
      destruct c as [[] [] [] [] [] [] [] []]; try reflexivity;
        discriminate.
    - destruct s as [|x s]; [unfold PyStr.hex_prefix;
        destruct c as [[] [] [] [] [] [] [] []]; reflexivity|].
      cbn [PyStr.lower HexadecimalString.NilEmpty.uint_of_string] in Es.
      destruct (HexadecimalString.NilEmpty.uint_of_string (PyStr.lower s))
        as [dx|]; [|discriminate Es].
      destruct (hexadecimal_char _ _ _ Es) as [_ [_ [_ [_ [Hx [HX _]]]]]].
      unfold PyStr.hex_prefix. rewrite Hx, HX.
      destruct c as [[] [] [] [] [] [] [] []]; reflexivity. }
  destruct Hs as [-> ->].
  change 0%Z with (Z.of_nat 0).
  rewrite (literal_hexadecimal s d false 0 0 Hd (or_intror Hne)).
  reflexivity.
Qed.

Lemma nonempty_lower (s : string) :
  PyStr.nonempty (PyStr.lower s) = PyStr.nonempty s.
Proof. destruct s; reflexivity. Qed.

(** X2. For bounds written as hexadecimal numerals of either case, as the
    table writes them, a hexadecimal parameter passes exactly when it is
    not empty, is a hexadecimal numeral once put in lower case, and the
    number it denotes lies within the numbers the two bounds denote, both
    included. Whatever the bounds, the case of the letters of the
    parameter plays no part. *)
Theorem check_param_hex_range :
  forall (p lo hi : string) (l h : Hexadecimal.uint),
    lo <> "" -> hi <> "" ->
    HexadecimalString.NilEmpty.uint_of_string (PyStr.lower lo) = Some l ->
    HexadecimalString.NilEmpty.uint_of_string (PyStr.lower hi) = Some h ->
    (check_param p (Table.hex_range lo hi) = true
     <-> p <> ""
         /\ exists v : Hexadecimal.uint,
              HexadecimalString.NilEmpty.uint_of_string (PyStr.lower p)
              = Some v
              /\ (Nat.of_hex_uint l <= Nat.of_hex_uint v
                  <= Nat.of_hex_uint h)%nat)
    /\ (forall (q lo' hi' : string),
          PyStr.lower q = PyStr.lower p ->
          check_param q (Table.hex_range lo' hi')
          = check_param p (Table.hex_range lo' hi')).
Proof.
  intros p lo hi l h Hlo Hhi Hl Hh. split.
  - unfold check_param, Table.hex_range. simpl.
    rewrite (int16_hexadecimal lo l Hlo Hl), (int16_hexadecimal hi h Hhi Hh).
    split.
    + destruct (PyStr.nonempty p) eqn:Hne; [|discriminate]. simpl.
      apply nonempty_spec in Hne.
      destruct (PyStr.search_non_hex (PyStr.lower p)) eqn:Hs;
        [discriminate|].
      destruct (no_match_hexadecimal _ Hs) as [v Hv].
      assert (Hv' : HexadecimalString.NilEmpty.uint_of_string
                      (PyStr.lower (PyStr.lower p)) = Some v)
        by now rewrite lower_idempotent.
      rewrite (int16_hexadecimal (PyStr.lower p) v) by
        (first [exact Hv' | destruct p; [now elim Hne | discriminate]]).
      intros H. apply in_bounds_spec in H. destruct H as [w [[= <-] Hb]].
      split; [exact Hne|]. exists v. split; [exact Hv | lia].
    + intros [Hne [v [Hv Hb]]].
      rewrite (proj2 (nonempty_spec p) Hne). simpl.
      rewrite (hexadecimal_no_match p v Hv).
      assert (Hv' : HexadecimalString.NilEmpty.uint_of_string
                      (PyStr.lower (PyStr.lower p)) = Some v)
        by now rewrite lower_idempotent.
      rewrite (int16_hexadecimal (PyStr.lower p) v) by
        (first [exact Hv' | destruct p; [now elim Hne | discriminate]]).
      apply in_bounds_spec. eexists. split; [reflexivity | lia].
  - intros q lo' hi' Hq. unfold check_param, Table.hex_range. simpl.
    rewrite <- (nonempty_lower q), <- (nonempty_lower p), Hq.
    reflexivity.
Qed.

(** The window of the user memory, as the table bounds it. *)
Lemma check_param_hex_range_witness :
  check_param "3fF" (Table.hex_range "300" "3FF") = true.
Proof.
  apply (proj1 (check_param_hex_range "3fF" "300" "3FF" _ _
                  ltac:(discriminate) ltac:(discriminate)
                  eq_refl eq_refl)).
  split; [discriminate|]. eexists. split; [reflexivity|].
  vm_compute. split; apply Nat.leb_le; reflexivity.
Defined.

Lemma existsb_atom_is (p : string) (l : list string) :
  existsb (atom_is p) (map AStr l) = true <-> In p l.
Proof.
  induction l as [|x l IH]; simpl; [split; [discriminate | tauto]|].
  rewrite orb_true_iff, IH, String.eqb_eq. split; intros [H|H]; auto.
Qed.

Lemma check_param_set_unfold (p : string) (r : list atom) :
  check_param p (mk_param_def "set" r)
  = PyStr.nonempty p && existsb (atom_is p) r.
Proof.
  unfold check_param. destruct (PyStr.nonempty p); [|reflexivity].
  destruct r; reflexivity.
Qed.

(** X3. A parameter of kind set passes exactly when it is, character for
    character, one of the listed strings (and is not empty). *)
Theorem check_param_set :
  forall (p : string) (l : list string),
    check_param p (Table.set_of l) = true <-> p <> "" /\ In p l.
Proof.
  intros p l. unfold Table.set_of. rewrite check_param_set_unfold.
  rewrite andb_true_iff, existsb_atom_is.
  destruct p; simpl; split; intros [H1 H2]; split;
    first [assumption | discriminate | now elim H1 | reflexivity].
Qed.

(** ** Splitting and joining *)

Lemma append_nil_r (s : string) : s ++ "" = s.
Proof. induction s as [|c s IH]; simpl; [reflexivity | now rewrite IH]. Qed.

Lemma forallb_append (p : ascii -> bool) (s t : string) :
  PyStr.forallb p (s ++ t) = PyStr.forallb p s && PyStr.forallb p t.
Proof.
  induction s as [|c s IH]; simpl; [reflexivity|].
  now rewrite IH, andb_assoc.
Qed.

Lemma split_from_word (t rest cur : string) :
  PyStr.forallb (fun c => negb (PyStr.isspace c)) t = true ->
  PyStr.split_from cur (t ++ rest) = PyStr.split_from (cur ++ t) rest.
Proof.
  revert cur. induction t as [|c t IH]; intros cur H; simpl in *.
  - now rewrite append_nil_r.
  - apply andb_prop in H. destruct H as [Hc Ht].
    apply negb_true_iff in Hc. rewrite Hc, (IH _ Ht), append_assoc.
    reflexivity.
Qed.

Lemma split_token (t : string) :
  is_token t = true -> PyStr.split t = [t].
Proof.
  unfold is_token, PyStr.split. intros H. apply andb_prop in H.
  destruct H as [Hne Hw].
  rewrite <- (append_nil_r t) at 1. rewrite (split_from_word _ _ _ Hw).
  simpl. destruct t; [discriminate | reflexivity].
Qed.

(** Joining tokens with single spaces and splitting again gives the tokens
    back. *)
Lemma split_join (toks : list string) :
  Forall (fun t => is_token t = true) toks ->
  PyStr.split (PyStr.join " " toks) = toks.
Proof.
  induction toks as [|t [|u r] IH]; intros H.
  - reflexivity.
  - apply split_token. now inversion H.
  - inversion H as [|? ? Ht Hr]; subst.
    change (PyStr.join " " (t :: u :: r))
      with (t ++ String " " (PyStr.join " " (u :: r))).
    unfold PyStr.split. rewrite split_from_append.
    fold (PyStr.split t). rewrite (split_token _ Ht).
    fold (PyStr.split (PyStr.join " " (u :: r))). now rewrite (IH Hr).
Qed.

Lemma split_from_tokens (s cur : string) :
  PyStr.forallb (fun c => negb (PyStr.isspace c)) cur = true ->
  Forall (fun t => is_token t = true) (PyStr.split_from cur s).
Proof.
  revert cur. induction s as [|c s IH]; intros cur Hcur; simpl.
  - destruct cur as [|d cur]; constructor; [|constructor].
    unfold is_token. now rewrite Hcur.
  - destruct (PyStr.isspace c) eqn:Ec.
    + destruct cur as [|d cur]; [now apply IH|].
      constructor; [unfold is_token; now rewrite Hcur | now apply IH].
    + apply IH. rewrite forallb_append, Hcur. simpl. now rewrite Ec.
Qed.

(** Every element of [s.split()] is a token. *)
Lemma split_tokens (s : string) :
  Forall (fun t => is_token t = true) (PyStr.split s).
Proof. apply split_from_tokens. reflexivity. Qed.

Lemma join_contains_space (a b : string) (r : list string) :
  PyStr.contains " " (PyStr.join " " (a :: b :: r)) = true.
Proof.
  change (PyStr.join " " (a :: b :: r))
    with (a ++ String " " (PyStr.join " " (b :: r))).
  apply contains_append.
Qed.

Lemma picked_Forall (P : string -> Prop) (l ps : list string) :
  picked ps l = true -> Forall P l -> Forall P ps.
Proof.
  revert ps. induction l as [|y l IH]; intros ps Hp Hl.
  - destruct ps; [constructor | discriminate].
  - destruct ps as [|x ps]; [constructor|]. simpl in Hp.
    inversion Hl as [|? ? Hy Hl']; subst.
    destruct (String.eqb_spec x y) as [->|_].
    + constructor; [exact Hy | now apply IH].
    + now apply IH.
Qed.

Lemma picked_length (l ps : list string) :
  picked ps l = true -> (length ps <= length l)%nat.
Proof.
  revert ps. induction l as [|y l IH]; intros ps Hp.
  - destruct ps; [simpl; lia | discriminate].
  - destruct ps as [|x ps]; [simpl; lia|]. simpl in Hp.
    destruct (String.eqb x y).
    + specialize (IH _ Hp). simpl. lia.
    + specialize (IH _ Hp). simpl in *. lia.
Qed.

Lemma Forall_firstn_skipn (P : string -> Prop) (l : list string) (n m : nat) :
  Forall P l -> Forall P (firstn n (skipn m l)).
Proof.
  intros H. rewrite <- (firstn_skipn m l) in H.
  apply Forall_app in H. destruct H as [_ H].
  rewrite <- (firstn_skipn n (skipn m l)) in H.
  apply Forall_app in H. exact (proj1 H).
Qed.

Lemma firstn_firstn_same (n : nat) (l : list string) :
  firstn n (firstn n l) = firstn n l.
Proof. rewrite firstn_firstn. now rewrite Nat.min_id. Qed.

(** ** More on the validator *)

Lemma validate_tokens_lower (commands : node) (c0 : string)
  (rest : list string) :
  validate_tokens commands (PyStr.lower c0 :: rest)
  = validate_tokens commands (c0 :: rest).
Proof.
  unfold validate_tokens. simpl. now rewrite lower_idempotent.
Qed.

Lemma validate_tokens_offered (commands : node) (l : list string) :
  validate_tokens commands (offered l) = validate_tokens commands l.
Proof. destruct l; [reflexivity | apply validate_tokens_lower]. Qed.

Lemma offered_idempotent (l : list string) : offered (offered l) = offered l.
Proof. destruct l; simpl; [reflexivity | now rewrite lower_idempotent]. Qed.

(** X4. The category token is read without regard to case, for any command
    table; the tokens after it are compared as typed, so [sys ERASEFW] is
    no command while [SYS eraseFW] is one. *)
Theorem category_is_case_insensitive :
  (forall (commands : node) (c0 c0' : string) (rest : list string),
      PyStr.lower c0 = PyStr.lower c0' ->
      validate_tokens commands (c0 :: rest)
      = validate_tokens commands (c0' :: rest))
  /\ validate_command Table.commands "SYS eraseFW"
     = Return (PStr "sys eraseFW")
  /\ validate_command Table.commands "sys ERASEFW" = Return PFalse.
Proof.
  split; [|split; vm_compute; reflexivity].
  intros commands c0 c0' rest H.
  rewrite <- (validate_tokens_lower commands c0),
    <- (validate_tokens_lower commands c0'), H.
  reflexivity.
Qed.

Lemma getindex_input_list (ui : node) (i : nat) :
  is_input_list ui = true -> (i < len ui)%nat ->
  exists d, getindex ui i = Return d.
Proof.
  destruct ui as [items|specs]; [discriminate|]. intros _ Hi. simpl in *.
  destruct (nth_error specs i) as [d|] eqn:E; [now exists d|].
  apply nth_error_None in E. lia.
Qed.

Lemma check_user_input_returns (s : string) (ui : node) (a b : string) :
  is_input_list ui = true ->
  exists v, check_user_input s ui a b = Return v.
Proof.
  intros Hui. unfold check_user_input, bind_result.
  destruct (getindex_input_list ui 0 Hui) as [d0 ->].
  { destruct ui as [|[|]]; try discriminate. simpl. lia. }
  destruct (check_param a d0); [|eexists; reflexivity].
  destruct (Nat.eqb_spec (len ui) 2) as [E|_]; [|eexists; reflexivity].
  destruct (getindex_input_list ui 1 Hui) as [d1 ->]; [lia|].
  destruct (check_param b d1); eexists; reflexivity.
Qed.

Section Total.

Variable commands : node.
Hypothesis Hwf : well_formed commands = true.

(** With two tokens or more, a well-formed table never makes the validator
    raise. *)
Lemma validate_tokens_returns (c0 c1 : string) (rest : list string) :
  exists v, validate_tokens commands (c0 :: c1 :: rest) = Return v.
Proof.
  unfold validate_tokens. simpl.
  destruct (getitem (PyStr.lower c0) commands) as [a|] eqn:Ea;
    [|eexists; reflexivity].
  destruct (well_formed_getitem _ _ _ Hwf Ea) as [_ [Hwa _]].
  destruct (getitem c1 a) as [b|] eqn:Eb; [|eexists; reflexivity].
  destruct (well_formed_getitem _ _ _ Hwa Eb) as [_ [Hwb _]].
  destruct (node_truthy b); [|eexists; reflexivity].
  destruct (getitem "user_input" b) as [ui|] eqn:Eui.
  { destruct (well_formed_getitem _ _ _ Hwb Eui) as [_ [_ Hui]].
    apply check_user_input_returns. now apply Hui. }
  destruct (getitem (nth 0 rest "") b) as [c|] eqn:Ec; [|eexists; reflexivity].
  destruct (well_formed_getitem _ _ _ Hwb Ec) as [_ [Hwc _]].
  destruct (node_truthy c); [|eexists; reflexivity].
  destruct (getitem "user_input" c) as [ui|] eqn:Euc.
  { destruct (well_formed_getitem _ _ _ Hwc Euc) as [_ [_ Hui]].
    apply check_user_input_returns. now apply Hui. }
  destruct (getitem (nth 1 rest "") c) as [d|] eqn:Ed; [|eexists; reflexivity].
  destruct (well_formed_getitem _ _ _ Hwc Ed) as [_ [Hwd _]].
  destruct (getitem "user_input" d) as [ui|] eqn:Eud; [|eexists; reflexivity].
  destruct (well_formed_getitem _ _ _ Hwd Eud) as [_ [_ Hui]].
  destruct (input_list_index ui (Hui eq_refl)) as [spec0 ->]. simpl.
  destruct (check_param (nth 2 rest "") spec0); eexists; reflexivity.
Qed.

(** The category of an accepted list is a key of the table. *)
Lemma accepted_category (l : list string) (out : string) :
  validate_tokens commands l = Return (PStr out) ->
  exists c0 c1 rest a,
    l = c0 :: c1 :: rest /\ getitem (PyStr.lower c0) commands = Some a.
Proof.
  destruct l as [|c0 [|c1 rest]]; try discriminate.
  unfold validate_tokens. simpl.
  destruct (getitem (PyStr.lower c0) commands) as [a|] eqn:Ea;
    [|discriminate].
  intros _. now exists c0, c1, rest, a.
Qed.

End Total.

(** X5. [validate_command] raises in one situation only: the line contains
    a space and has fewer than two tokens, and the exception is
    [IndexError]. Every other line is answered with [False] or with a
    canonical command. *)
Theorem validate_command_raises_only_on_short_input :
  forall (cmd : string) (e : exn),
    validate_command Table.commands cmd = Raise e
    <-> PyStr.contains " " cmd = true
        /\ (length (PyStr.split cmd) < 2)%nat
        /\ e = IndexError.
Proof.
  intros cmd e. unfold validate_command.
  destruct (PyStr.contains " " cmd); simpl.
  2:{ split; [discriminate | intros [H _]; discriminate]. }
  destruct (PyStr.split cmd) as [|c0 [|c1 rest]].
  - simpl. split; [intros [= <-]; repeat split; lia | now intros [_ [_ ->]]].
  - simpl. split; [intros [= <-]; repeat split; lia | now intros [_ [_ ->]]].
  - destruct (validate_tokens_returns _ commands_well_formed c0 c1 rest)
      as [v ->].
    split; [discriminate | simpl; intros [_ [H _]]; lia].
Qed.

(** X6. A canonical command is a line of two to five tokens separated by
    single spaces, with no blank at either end, and its first token is one
    of [sys], [mac], [radio]. *)
Theorem canonical_command_is_normalised :
  forall cmd out : string,
    validate_command Table.commands cmd = Return (PStr out) ->
    PyStr.join " " (PyStr.split out) = out
    /\ (2 <= length (PyStr.split out) <= 5)%nat
    /\ exists category,
         nth_error (PyStr.split out) 0 = Some category
         /\ In category ["sys"; "mac"; "radio"].
Proof.
  intros cmd out H. unfold validate_command in H.
  destruct (PyStr.contains " " cmd); [|discriminate H]. simpl in H.
  pose proof (split_tokens cmd) as Htok.
  destruct (accepted_category _ _ _ H) as [c0 [c1 [rest [a [El Ha]]]]].
  destruct (validate_tokens_picks _ commands_well_formed _ _ H)
    as [ps [Hout Hps]].
  rewrite El in Htok, Hout, Hps.
  change (skipn 2 (c0 :: c1 :: rest)) with rest in Hps.
  change (firstn 2 (offered (c0 :: c1 :: rest)) ++ ps)%list
    with (PyStr.lower c0 :: c1 :: ps) in Hout.
  apply Forall_cons_iff in Htok. destruct Htok as [H0 Htok].
  apply Forall_cons_iff in Htok. destruct Htok as [H1 Hrest].
  assert (HT : Forall (fun t => is_token t = true)
                 (PyStr.lower c0 :: c1 :: ps)).
  { constructor; [now rewrite is_token_lower|]. constructor; [exact H1|].
    apply (picked_Forall _ _ _ Hps).
    exact (Forall_firstn_skipn _ rest 3 0 Hrest). }
  rewrite Hout, (split_join _ HT). split; [reflexivity|]. split.
  - pose proof (picked_length _ _ Hps) as Hl.
    pose proof (firstn_le_length 3 rest). cbn [length]. lia.
  - exists (PyStr.lower c0). split; [reflexivity|].
    cbn in Ha. by_key Ha; simpl; tauto.
Qed.

Lemma canonical_command_is_normalised_witness :
  PyStr.join " " (PyStr.split "sys set nvm 3ff Ff") = "sys set nvm 3ff Ff".
Proof.
  apply (canonical_command_is_normalised "  SYS set  nvm 3ff Ff x y").
  vm_compute. reflexivity.
Defined.

(** X7. Outside [mac get ch], validating a canonical command gives the same
    canonical command again. *)
Theorem canonical_form_is_stable_elsewhere :
  forall cmd out : string,
    validate_command Table.commands cmd = Return (PStr out) ->
    firstn 3 (offered (PyStr.split cmd)) <> ["mac"; "get"; "ch"] ->
    validate_command Table.commands out = Return (PStr out).
Proof.
  intros cmd out H Hother. unfold validate_command in H.
  destruct (PyStr.contains " " cmd); [|discriminate H]. simpl in H.
  pose proof (split_tokens cmd) as Htok.
  set (l := PyStr.split cmd) in *.
  rewrite <- validate_tokens_offered in H.
  destruct (validate_tokens_prefix _ commands_well_formed _ _ H)
    as [[n [Hn [Hout Hsame]]]|[a [b [c [Ha [Hb [Hbu [Hc [Hct Hcu]]]]]]]]].
  - rewrite offered_idempotent in Hout.
    assert (HT : Forall (fun t => is_token t = true) (firstn n (offered l))).
    { apply (Forall_firstn_skipn _ (offered l) n 0).
      destruct l as [|c0 l']; [constructor|]. simpl.
      apply Forall_cons_iff in Htok. destruct Htok as [H0 Htok].
      constructor; [now rewrite is_token_lower | assumption]. }
    assert (Hlen : (2 <= length (firstn n (offered l)))%nat).
    { rewrite length_firstn. lia. }
    assert (Hs : PyStr.split out = firstn n (offered l))
      by (rewrite Hout; exact (split_join _ HT)).
    assert (Hc : PyStr.contains " " out = true).
    { rewrite Hout.
      destruct (firstn n (offered l)) as [|t0 [|t1 r]];
        [simpl in Hlen; lia | simpl in Hlen; lia |].
      apply join_contains_space. }
    unfold validate_command. rewrite Hc, Hs. simpl negb. cbv iota.
    apply Hsame. apply firstn_firstn_same.
  - exfalso. apply Hother.
    destruct (only_branch_is_mac_get_ch _ _ _ _ _ _ Ha Hb Hbu Hc Hct Hcu)
      as [H0 [H1 H2]].
    destruct l as [|c0 [|c1 [|r0 rest]]]; simpl in H0, H1, H2;
      try discriminate.
    simpl. rewrite lower_idempotent in H0. now rewrite H0, H1, H2.
Qed.

Lemma canonical_form_is_stable_elsewhere_witness :
  validate_command Table.commands "radio set sf sf7"
  = Return (PStr "radio set sf sf7").
Proof.
  apply (canonical_form_is_stable_elsewhere "RADIO  set sf sf7 junk").
  - vm_compute. reflexivity.
  - vm_compute. discriminate.
Defined.

(** ** The recognized prefix *)

(** No category of the table declares parameters of its own. *)
Lemma category_declares_nothing (t0 : string) (a : node) :
  getitem t0 Table.commands = Some a -> getitem "user_input" a = None.
Proof.
  intros Ha. cbn in Ha.
  by_key Ha; try discriminate Ha; injection Ha as <-; reflexivity.
Qed.

(** The commands and subcommands of the table declare one parameter or
    two. *)
Lemma command_slots (t0 t1 : string) (a b ui : node) :
  getitem t0 Table.commands = Some a ->
  getitem t1 a = Some b ->
  getitem "user_input" b = Some ui ->
  len ui = 1%nat \/ len ui = 2%nat.
Proof.
  intros Ha Hb Hu.
  cbn in Ha. by_key Ha; try discriminate Ha; injection Ha as <-;
  cbn in Hb; by_key Hb; try discriminate Hb; injection Hb as <-;
  try discriminate Hu; cbn in Hu; injection Hu as <-; cbn; auto.
Qed.

Lemma subcommand_slots (t0 t1 t2 : string) (a b c ui : node) :
  getitem t0 Table.commands = Some a ->
  getitem t1 a = Some b ->
  getitem t2 b = Some c ->
  getitem "user_input" c = Some ui ->
  len ui = 1%nat \/ len ui = 2%nat.
Proof.
  intros Ha Hb Hc Hu.
  cbn in Ha. by_key Ha; try discriminate Ha; injection Ha as <-;
  cbn in Hb; by_key Hb; try discriminate Hb; injection Hb as <-;
  cbn in Hc; by_key Hc; try discriminate Hc; injection Hc as <-;
  try discriminate Hu; cbn in Hu; injection Hu as <-; cbn; auto.
Qed.

Lemma falsy_has_no_key (n : node) (k : string) :
  node_truthy n = false -> getitem k n = None.
Proof. destruct n as [[|? ?]|[|? ?]]; try discriminate; reflexivity. Qed.

(** The two ways the block on user input succeeds, by the number of
    declared parameters. *)
Lemma check_user_input_slots (s out : string) (ui : node) (pa pb : string) :
  check_user_input s ui pa pb = Return (PStr out) ->
  PyStr.nonempty pa = true
  /\ ((len ui <> 2%nat /\ out = s ++ " " ++ pa
       /\ forall pb', check_user_input s ui pa pb' = Return (PStr out))
      \/ (len ui = 2%nat /\ out = (s ++ " " ++ pa) ++ " " ++ pb
          /\ PyStr.nonempty pb = true)).
Proof.
  unfold check_user_input, bind_result.
  destruct (getindex ui 0) as [spec0|]; [|discriminate].
  destruct (check_param pa spec0) eqn:Ca; [|discriminate].
  intros H. split; [exact (check_param_nonempty _ _ Ca)|].
  destruct (Nat.eqb_spec (len ui) 2) as [E|E].
  - destruct (getindex ui 1) as [spec1|]; [|discriminate].
    destruct (check_param pb spec1) eqn:Cb; [|discriminate].
    injection H as <-. right. split; [exact E|]. split; [reflexivity|].
    exact (check_param_nonempty _ _ Cb).
  - injection H as <-. left. split; [exact E|]. split; [reflexivity|].
    trivial.
Qed.

(** Outside [mac get ch], what the validator returns for an accepted token
    list is its recognized prefix, and nothing after that prefix is
    looked at. *)
Lemma validate_tokens_recognized (l : list string) (out : string) :
  validate_tokens Table.commands l = Return (PStr out) ->
  firstn 3 (offered l) <> ["mac"; "get"; "ch"] ->
  exists n,
    recognized Table.commands (offered l) = n
    /\ (2 <= n <= 5)%nat /\ (n <= length l)%nat
    /\ out = PyStr.join " " (firstn n (offered l))
    /\ forall l', firstn n l' = firstn n l ->
                  validate_tokens Table.commands l' = Return (PStr out).
Proof.
  pose proof commands_well_formed as Hwf.
  pose proof category_declares_nothing as F1.
  pose proof command_slots as F2.
  pose proof subcommand_slots as F3.
  pose proof only_branch_is_mac_get_ch as F4.
  assert (F0 : getitem "user_input" Table.commands = None) by reflexivity.
  remember Table.commands as T eqn:HT. clear HT.
  destruct l as [|c0 [|c1 rest]]; try discriminate.
  unfold validate_tokens at 1. simpl nth_error. cbv iota beta zeta.
  cbn [nth offered recognized]. rewrite F0.
  destruct (getitem (PyStr.lower c0) T) as [a|] eqn:Ea;
    [|discriminate].
  destruct (well_formed_getitem _ _ _ Hwf Ea) as [_ [Hwa _]].
  pose proof (F1 _ _ Ea) as Hua.
  cbn [recognized]. rewrite Hua.
  destruct (getitem c1 a) as [b|] eqn:Eb; [|discriminate].
  destruct (well_formed_getitem _ _ _ Hwa Eb) as [_ [Hwb _]].
  destruct (node_truthy b) eqn:Tb.
  2:{ intros [= <-] _. exists 2%nat.
      split.
      { destruct rest as [|r0 rest]; cbn [recognized];
          rewrite ?(falsy_has_no_key b _ Tb); reflexivity. }
      split; [lia|]. split; [simpl; lia|]. split; [reflexivity|].
      intros l' H. peel H l'. peel H l'.
      unfold validate_tokens. simpl. now rewrite Ea, Eb, Tb. }
  destruct (getitem "user_input" b) as [ui|] eqn:Eui.
  { intros H _.
    assert (Hrec : recognized b rest = len ui)
      by (destruct rest; cbn [recognized]; now rewrite Eui).
    rewrite Hrec.
    destruct (F2 _ _ _ _ _ Ea Eb Eui) as [Hlen|Hlen].
    - destruct (check_user_input_slots _ _ _ _ _ H)
        as [Hpa [[_ [Hout Hany]]|[Hl2 _]]]; [|lia].
      rewrite Hout in *; clear Hout.
      destruct rest as [|r0 rest]; [discriminate Hpa|]. simpl in Hany, Hpa.
      exists 3%nat. split; [now rewrite Hlen|].
      split; [lia|]. split; [simpl; lia|]. split; [join_eq|].
      intros l' E. peel E l'. peel E l'. peel E l'.
      unfold validate_tokens. simpl. rewrite Ea, Eb, Tb, Eui.
      apply Hany.
    - destruct (check_user_input_slots _ _ _ _ _ H)
        as [Hpa [[Hl2 _]|[_ [Hout Hpb]]]]; [lia|].
      rewrite Hout in *; clear Hout.
      destruct rest as [|r0 [|r1 rest]];
        [discriminate Hpa | discriminate Hpb |]. simpl in H.
      exists 4%nat. split; [now rewrite Hlen|].
      split; [lia|]. split; [simpl; lia|]. split; [join_eq|].
      intros l' E. peel E l'. peel E l'. peel E l'. peel E l'.
      unfold validate_tokens. simpl. rewrite Ea, Eb, Tb, Eui.
      exact H. }
  destruct (getitem (nth 0 rest "") b) as [c|] eqn:Ec; [|discriminate].
  destruct (well_formed_getitem _ _ _ Hwb Ec) as [Hp1 [Hwc _]].
  destruct rest as [|r0 rest]; [discriminate Hp1|].
  cbn [nth] in Ec |- *. cbn [recognized]. rewrite Eui, Ec.
  destruct (node_truthy c) eqn:Tc.
  2:{ intros [= <-] _. exists 3%nat.
      split.
      { destruct rest as [|r1 rest]; cbn [recognized];
          rewrite ?(falsy_has_no_key c _ Tc); reflexivity. }
      split; [lia|]. split; [simpl; lia|]. split; [join_eq|].
      intros l' E. peel E l'. peel E l'. peel E l'.
      unfold validate_tokens. simpl. now rewrite Ea, Eb, Tb, Eui, Ec, Tc. }
  destruct (getitem "user_input" c) as [ui|] eqn:Euc.
  { intros H _.
    assert (Hrec : recognized c rest = len ui)
      by (destruct rest; cbn [recognized]; now rewrite Euc).
    rewrite Hrec.
    destruct (F3 _ _ _ _ _ _ _ Ea Eb Ec Euc) as [Hlen|Hlen].
    - destruct (check_user_input_slots _ _ _ _ _ H)
        as [Hpa [[_ [Hout Hany]]|[Hl2 _]]]; [|lia].
      rewrite Hout in *; clear Hout.
      destruct rest as [|r1 rest]; [discriminate Hpa|]. simpl in Hany, Hpa.
      exists 4%nat. split; [now rewrite Hlen|].
      split; [lia|]. split; [simpl; lia|]. split; [join_eq|].
      intros l' E. peel E l'. peel E l'. peel E l'. peel E l'.
      unfold validate_tokens. simpl.
      rewrite Ea, Eb, Tb, Eui, Ec, Tc, Euc. apply Hany.
    - destruct (check_user_input_slots _ _ _ _ _ H)
        as [Hpa [[Hl2 _]|[_ [Hout Hpb]]]]; [lia|].
      rewrite Hout in *; clear Hout.
      destruct rest as [|r1 [|r2 rest]];
        [discriminate Hpa | discriminate Hpb |]. simpl in H.
      exists 5%nat. split; [now rewrite Hlen|].
      split; [lia|]. split; [simpl; lia|]. split; [join_eq|].
      intros l' E. peel E l'. peel E l'. peel E l'. peel E l'. peel E l'.
      unfold validate_tokens. simpl.
      rewrite Ea, Eb, Tb, Eui, Ec, Tc, Euc. exact H. }
  intros _ Hother. exfalso. apply Hother.
  destruct (F4 _ _ _ _ _ _ Ea Eb Eui Ec Tc Euc)
    as [H0 [H1 H2]].
  simpl. now rewrite H0, H1, H2.
Qed.

(** X24. Whenever [validate_command] accepts a command line:
    - the line still validates when further tokens are appended to it;
    - besides the test for a space character in the raw line, only its
      first five tokens are examined: a line that contains a space and has
      the same first five tokens gets the same canonical command;
    - the canonical command is the category in lower case, the command, and
      then tokens taken, in their order, among the third to fifth tokens;
    - unless the line starts with [mac get ch], the canonical command is
      exactly the prefix of the line that the table recognizes (category in
      lower case, command, subcommand if any, and as many parameters as
      are declared), and whatever follows this prefix is dropped: every
      line that contains a space and starts with the same prefix gets the
      same canonical command. *)
Theorem surplus_tokens_are_discarded :
  forall cmd out : string,
    validate_command Table.commands cmd = Return (PStr out) ->
    (forall tail : string,
        exists out',
          validate_command Table.commands (cmd ++ " " ++ tail)
          = Return (PStr out'))
    /\ (forall cmd' : string,
          PyStr.contains " " cmd' = true ->
          firstn 5 (PyStr.split cmd') = firstn 5 (PyStr.split cmd) ->
          validate_command Table.commands cmd' = Return (PStr out))
    /\ (exists ps : list string,
          out = PyStr.join " " (firstn 2 (offered (PyStr.split cmd)) ++ ps)
          /\ picked ps (firstn 3 (skipn 2 (PyStr.split cmd))) = true)
    /\ (firstn 3 (offered (PyStr.split cmd)) <> ["mac"; "get"; "ch"] ->
        exists n : nat,
          recognized Table.commands (offered (PyStr.split cmd)) = n
          /\ (2 <= n <= 5)%nat
          /\ (n <= length (PyStr.split cmd))%nat
          /\ out = PyStr.join " " (firstn n (offered (PyStr.split cmd)))
          /\ forall cmd' : string,
               PyStr.contains " " cmd' = true ->
               firstn n (PyStr.split cmd') = firstn n (PyStr.split cmd) ->
               validate_command Table.commands cmd' = Return (PStr out)).
Proof.
  intros cmd out H. unfold validate_command in H.
  destruct (PyStr.contains " " cmd) eqn:Hsp; [|discriminate H].
  simpl in H.
  split; [|split; [|split]].
  - intros tail. unfold validate_command.
    change (cmd ++ " " ++ tail) with (cmd ++ String " " tail).
    rewrite contains_append. simpl negb. cbv iota.
    unfold PyStr.split. rewrite split_from_append.
    exact (validate_tokens_append _ commands_well_formed _ _ _ H).
  - intros cmd' Hsp' Hfive. unfold validate_command. rewrite Hsp'.
    simpl negb. cbv iota.
    rewrite (validate_tokens_first_five _ _ _ Hfive). exact H.
  - exact (validate_tokens_picks _ commands_well_formed _ _ H).
  - intros Hother.
    destruct (validate_tokens_recognized _ _ H Hother)
      as [n [Hrec [Hn [Hlen [Hout Hsame]]]]].
    exists n. split; [exact Hrec|]. split; [exact Hn|].
    split; [exact Hlen|]. split; [exact Hout|].
    intros cmd' Hsp' Hfirst. unfold validate_command. rewrite Hsp'.
    simpl negb. cbv iota. apply Hsame. exact Hfirst.
Qed.

(** [sys sleep 100 junk]: the table recognizes three tokens, the line
    canonicalizes to [sys sleep 100], and so does [mac pause junk] to
    [mac pause]. *)
Lemma surplus_tokens_are_discarded_witness :
  validate_command Table.commands "sys sleep 100 junk"
  = Return (PStr "sys sleep 100")
  /\ recognized Table.commands (offered (PyStr.split "sys sleep 100 junk"))
     = 3%nat
  /\ (forall cmd' : string,
        PyStr.contains " " cmd' = true ->
        firstn 5 (PyStr.split cmd') = ["sys"; "sleep"; "100"; "junk"] ->
        validate_command Table.commands cmd' = Return (PStr "sys sleep 100")).
Proof.
  assert (H : validate_command Table.commands "sys sleep 100 junk"
              = Return (PStr "sys sleep 100")) by (vm_compute; reflexivity).
  split; [exact H|].
  destruct (surplus_tokens_are_discarded _ _ H) as [_ [Hfive _]].
  split; [vm_compute; reflexivity | exact Hfive].
Defined.

(** ** Reading a response *)

Lemma strip_crlf_line (s : string) :
  PyStr.forallb (fun c => negb (Ascii.eqb c "010")) s = true ->
  PyStr.strip_crlf (s ++ Table.data_termintaor) = s.
Proof.
  induction s as [|c s IH]; intros H; [reflexivity|].
  simpl in H. apply andb_prop in H. destruct H as [Hc Hs].
  specialize (IH Hs).
  change ((String c s) ++ Table.data_termintaor)
    with (String c (s ++ Table.data_termintaor)).
  destruct s as [|d s'].
  - simpl. destruct (Ascii.eqb c "013"); reflexivity.
  - change (String d s' ++ Table.data_termintaor)
      with (String d (s' ++ Table.data_termintaor)) in *.
    cbn [PyStr.strip_crlf]. cbn [PyStr.strip_crlf] in IH.
    simpl in Hs. apply andb_prop in Hs. destruct Hs as [Hd _].
    apply negb_true_iff in Hd. rewrite Hd, andb_false_r.
    f_equal. exact IH.
Qed.

Lemma is_text_no_lf (s : string) :
  is_text s = true ->
  PyStr.forallb (fun c => negb (Ascii.eqb c "010")) s = true.
Proof.
  unfold is_text. induction s as [|c s IH]; simpl; [reflexivity|].
  intros H. apply andb_prop in H. destruct H as [Hc Hs].
  unfold is_text_char in Hc. apply andb_prop in Hc. destruct Hc as [_ Hc].
  now rewrite Hc, (IH Hs).
Qed.

(** Text that fits in the remaining iterations is taken in whole. *)
Lemma read_loop_text (s : string) :
  forall (n : nat) (resp : string) (rest : list rx) (plan : list bool)
         (log : list (string * bool)),
    is_text s = true ->
    (String.length s <= n)%nat ->
    read_loop n resp (mk_serial (bytes s ++ rest) plan log)
    = read_loop (n - String.length s) (resp ++ s)
        (mk_serial rest plan log).
Proof.
  induction s as [|c s IH]; intros n resp rest plan log Ht Hn.
  - simpl. now rewrite Nat.sub_0_r, append_nil_r.
  - simpl in Hn. destruct n as [|n]; [lia|].
    unfold is_text in Ht. simpl in Ht. apply andb_prop in Ht.
    destruct Ht as [Hc Hs]. unfold is_text_char in Hc.
    apply andb_prop in Hc. destruct Hc as [H7 Hlf].
    apply negb_true_iff in Hlf.
    change (bytes (String c s) ++ rest)%list
      with (RxByte c :: (bytes s ++ rest))%list.
    cbn [read_loop serial_read inbox wplan written decode].
    rewrite H7.
    assert (E : String.eqb (String c "") (String "010" "") = false).
    { simpl. now rewrite Hlf. }
    rewrite E. rewrite (IH n _ rest plan log Hs) by lia.
    rewrite append_assoc. reflexivity.
Qed.

Lemma bytes_app (s t : string) : bytes (s ++ t) = (bytes s ++ bytes t)%list.
Proof.
  unfold bytes. induction s as [|c s IH]; simpl; [reflexivity|].
  now rewrite IH.
Qed.

Lemma is_text_app (s t : string) :
  is_text (s ++ t) = is_text s && is_text t.
Proof. unfold is_text. apply forallb_append. Qed.

Lemma length_append (s t : string) :
  String.length (s ++ t) = (String.length s + String.length t)%nat.
Proof. induction s as [|c s IH]; simpl; [reflexivity | now rewrite IH]. Qed.

Lemma read_loop_line (s : string) (n : nat) (rest : list rx)
  (plan : list bool) (log : list (string * bool)) :
  is_text s = true ->
  (String.length s + 2 <= n)%nat ->
  read_loop n "" (mk_serial (line s ++ rest) plan log)
  = (Some (s ++ Table.data_termintaor), mk_serial rest plan log).
Proof.
  intros Ht Hn. unfold line.
  change (s ++ Table.data_termintaor)
    with (s ++ String "013" (String "010" "")).
  replace (s ++ String "013" (String "010" ""))
    with ((s ++ String "013" "") ++ String "010" "")
    by (now rewrite append_assoc).
  fold (bytes ((s ++ String "013" "") ++ String "010" "")).
  rewrite bytes_app, <- app_assoc.
  rewrite read_loop_text.
  - rewrite length_append. simpl String.length.
    destruct (n - (String.length s + 1))%nat as [|m] eqn:E; [lia|].
    reflexivity.
  - rewrite is_text_app, Ht. reflexivity.
  - rewrite length_append. simpl. lia.
Qed.

(** X8. A response line of 7-bit text without line feed, at most 254
    characters long and followed by the terminator, is returned as it was
    sent, terminator removed; the bytes after it stay in the port, and
    nothing is written. What [write_command] frames, [read_response]
    unframes. *)
Theorem read_response_returns_the_line :
  forall (self : rn2903) (s : string) (rest : list rx),
    is_text s = true ->
    (String.length s <= 254)%nat ->
    inbox (dev_object self) = (line s ++ rest)%list ->
    read_response self
    = (Return (PStr s),
       with_dev self
         (mk_serial rest (wplan (dev_object self))
            (written (dev_object self)))).
Proof.
  intros [status mode config [box plan log]] s rest Ht Hn Hbox.
  simpl in Hbox. subst box. unfold read_response, max_ch. simpl dev_object.
  rewrite (read_loop_line s 256 rest plan log Ht) by lia.
  rewrite (strip_crlf_line s (is_text_no_lf s Ht)). reflexivity.
Qed.

Lemma read_response_returns_the_line_witness :
  read_response (session "idle" [] (line "4294967245" ++ line "ok"))
  = (Return (PStr "4294967245"), session "idle" [] (line "ok")).
Proof.
  apply (read_response_returns_the_line
           (session "idle" [] (line "4294967245" ++ line "ok"))
           "4294967245" (line "ok")).
  - reflexivity.
  - simpl. lia.
  - reflexivity.
Defined.

(** X9. When the port delivers 256 bytes of 7-bit text without a line feed,
    the read stops there: the result is that text (any terminator pairs
    inside it removed), not a failure, and the bytes after it stay in the
    port. *)
Theorem read_response_stops_at_256_bytes :
  forall (self : rn2903) (s : string) (rest : list rx),
    is_text s = true ->
    String.length s = 256%nat ->
    inbox (dev_object self) = (bytes s ++ rest)%list ->
    read_response self
    = (Return (PStr (PyStr.strip_crlf s)),
       with_dev self
         (mk_serial rest (wplan (dev_object self))
            (written (dev_object self)))).
Proof.
  intros [status mode config [box plan log]] s rest Ht Hn Hbox.
  simpl in Hbox. subst box. unfold read_response, max_ch. simpl dev_object.
  rewrite (read_loop_text s 256 "" rest plan log Ht) by lia.
  rewrite Hn, Nat.sub_diag. reflexivity.
Qed.

Lemma read_response_stops_at_256_bytes_witness :
  let s := string_of_list_ascii (repeat "a"%char 256) in
  read_response (session "idle" [] (bytes s ++ line "ok"))
  = (Return (PStr s), session "idle" [] (line "ok")).
Proof.
  cbv zeta.
  refine (eq_trans
    (read_response_stops_at_256_bytes
       (session "idle" [] (bytes (string_of_list_ascii (repeat "a"%char 256))
                           ++ line "ok"))
       (string_of_list_ascii (repeat "a"%char 256)) (line "ok") _ _ _) _).
  - vm_compute. reflexivity.
  - vm_compute. reflexivity.
  - reflexivity.
  - vm_compute. reflexivity.
Defined.

Lemma read_loop_consumes (n : nat) :
  forall (resp : string) (dev : serial),
    exists k,
      (k <= n)%nat
      /\ snd (read_loop n resp dev)
         = mk_serial (skipn k (inbox dev)) (wplan dev) (written dev).
Proof.
  induction n as [|n IH]; intros resp [box plan log].
  - exists 0%nat. split; [lia | reflexivity].
  - destruct box as [|ev box];
      cbn [read_loop serial_read inbox wplan written].
    + destruct (IH (resp ++ "") (mk_serial [] plan log)) as [k [Hk E]].
      exists 0%nat. split; [lia|].
      change (snd (read_loop n (resp ++ "") (mk_serial [] plan log))
              = mk_serial (skipn 0 []) plan log).
      rewrite E. simpl. now rewrite skipn_nil.
    + destruct (decode ev) as [s|].
      * destruct (String.eqb s (String "010" "")).
        -- exists 1%nat. split; [lia | reflexivity].
        -- destruct (IH (resp ++ s) (mk_serial box plan log)) as [k [Hk E]].
           exists (S k). split; [lia|]. rewrite E. reflexivity.
      * exists 1%nat. split; [lia | reflexivity].
Qed.

(** X10. One call to [read_response] takes at most 256 items from the port,
    in order, and changes nothing else: no write, no change of the
    settings. *)
Theorem read_response_is_bounded :
  forall self : rn2903,
    exists k,
      (k <= 256)%nat
      /\ snd (read_response self)
         = with_dev self
             (mk_serial (skipn k (inbox (dev_object self)))
                (wplan (dev_object self)) (written (dev_object self))).
Proof.
  intros self. unfold read_response, max_ch.
  destruct (read_loop_consumes 256 "" (dev_object self)) as [k [Hk E]].
  exists k. split; [exact Hk|].
  destruct (read_loop 256 "" (dev_object self)) as [[resp|] dev];
    simpl in E |- *; now rewrite E.
Qed.

(** ** What one dispatch does to the instance *)

Lemma reached_refl (self : rn2903) : reached self self 0 [].
Proof.
  unfold reached, same_settings. rewrite app_nil_r. simpl. tauto.
Qed.

Lemma reached_trans (a b c : rn2903) (k1 k2 : nat)
  (n1 n2 : list (string * bool)) :
  reached a b k1 n1 -> reached b c k2 n2 ->
  reached a c (k2 + k1) (n1 ++ n2).
Proof.
  unfold reached, same_settings.
  intros [[A1 [A2 A3]] [A4 A5]] [[B1 [B2 B3]] [B4 B5]].
  repeat split; try congruence.
  - rewrite B4, A4. apply skipn_skipn.
  - rewrite B5, A5. now rewrite app_assoc.
Qed.

Lemma write_command_reached (s : string) (self : rn2903) :
  PyStr.nonempty s = true ->
  exists b self',
    write_command s self = (Return b, self')
    /\ reached self self' 0 [(s ++ Table.data_termintaor, b)].
Proof.
  intros Hne. unfold write_command. rewrite Hne. simpl negb. cbv iota.
  unfold serial_write. destruct self as [st mode cfg [box plan log]].
  simpl. destruct plan as [|b plan]; [exists true | exists b];
    eexists; (split; [reflexivity|]); unfold reached, same_settings;
    simpl; tauto.
Qed.

Lemma read_response_reached (self : rn2903) :
  exists v k self',
    read_response self = (Return v, self')
    /\ (k <= 256)%nat
    /\ reached self self' k [].
Proof.
  unfold read_response, max_ch.
  destruct (read_loop_consumes 256 "" (dev_object self)) as [k [Hk E]].
  destruct (read_loop 256 "" (dev_object self)) as [[resp|] dev];
    simpl in E; subst dev; eexists; exists k; eexists;
    (split; [reflexivity|]); (split; [exact Hk|]);
    unfold reached, same_settings; simpl; rewrite app_nil_r; tauto.
Qed.

(** A write followed, when it succeeds, by a read whose result is only
    looked at: [k] returns [f status] and leaves the instance alone. *)
Lemma write_then_read (A : Type) (s : string) (k : pyval -> method A)
  (f : pyval -> A) (x : A) (self : rn2903) :
  (forall v self, k v self = (Return (f v), self)) ->
  PyStr.nonempty s = true ->
  exists r b n self',
    (do! sent <- write_command s;
     if sent : bool then do! status <- read_response; k status
     else ret x) self
    = (Return r, self')
    /\ (n <= 256)%nat
    /\ reached self self' n [(s ++ Table.data_termintaor, b)]
    /\ (b = false -> r = x /\ write_command s self = (Return false, self'))
    /\ (b = true ->
        exists status self1,
          r = f status
          /\ write_command s self = (Return true, self1)
          /\ read_response self1 = (Return status, self')).
Proof.
  intros Hk Hne.
  destruct (write_command_reached s self Hne) as [b [self1 [Ew Hw]]].
  unfold bind at 1. rewrite Ew.
  destruct b.
  - destruct (read_response_reached self1) as [v [n [self2 [Er [Hn Hr]]]]].
    unfold bind. rewrite Er, Hk.
    exists (f v), true, n, self2. split; [reflexivity|]. split; [exact Hn|].
    split.
    { pose proof (reached_trans _ _ _ _ _ _ _ Hw Hr) as H.
      now rewrite Nat.add_0_r in H. }
    split; [discriminate|]. intros _. exists v, self1. tauto.
  - unfold ret. exists x, false, 0%nat, self1.
    split; [reflexivity|]. split; [lia|]. split; [exact Hw|].
    split; [tauto | discriminate].
Qed.

(** The results of the four branches of [send_command] that read a
    response, as functions of what was read. *)
Lemma sleep_result (mils : string) (status : pyval) (self : rn2903) :
  (if pyval_eqb status ok then ret (status, PStr mils)
   else ret (PFalse, PFalse)) self
  = (Return (if pyval_eqb status ok then (status, PStr mils)
             else (PFalse, PFalse)), self).
Proof. destruct (pyval_eqb status ok); reflexivity. Qed.

Lemma other_result (status : pyval) (self : rn2903) :
  (if status_in status err_status then ret (PFalse, status)
   else if negb (pyval_eqb status ok) then ret (ok, status)
   else ret (status, PStr "")) self
  = (Return (if status_in status err_status then (PFalse, status)
             else if negb (pyval_eqb status ok) then (ok, status)
             else (status, PStr "")), self).
Proof.
  destruct (status_in status err_status); [reflexivity|].
  destruct (negb (pyval_eqb status ok)); reflexivity.
Qed.

(** One dispatch: at most 256 items read, at most one write, and that
    write is the canonical command with the terminator. *)
Lemma send_command_reached (ps_cmd : string) (self : rn2903) :
  exists r n new self',
    send_command ps_cmd self = (r, self')
    /\ (n <= 256)%nat
    /\ reached self self' n new
    /\ (new = []
        \/ exists out b,
             validate_command Table.commands ps_cmd = Return (PStr out)
             /\ new = [(out ++ Table.data_termintaor, b)]).
Proof.
  assert (Hstay : forall r : result (pyval * pyval), exists r' n new self',
             (r, self) = (r', self') /\ (n <= 256)%nat
             /\ reached self self' n new
             /\ (new = []
                 \/ exists out b,
                      validate_command Table.commands ps_cmd
                      = Return (PStr out)
                      /\ new = [(out ++ Table.data_termintaor, b)])).
  { intros r. exists r, 0%nat, [], self.
    split; [reflexivity|]. split; [lia|].
    split; [apply reached_refl | now left]. }
  unfold send_command.
  destruct (String.eqb (dev_status self) "error"); [apply Hstay|].
  destruct (validate_command Table.commands ps_cmd) as [[|send_str]|e] eqn:Ev;
    try apply Hstay.
  destruct (PyStr.nonempty send_str) eqn:Hne; simpl negb; cbv iota;
    [|apply Hstay].
  assert (Hwr : forall (k : pyval -> method (pyval * pyval)) f x,
    (forall v self, k v self = (Return (f v), self)) ->
    exists r n new self',
      (do! sent <- write_command send_str;
       if sent : bool then do! status <- read_response; k status
       else ret x) self = (r, self')
      /\ (n <= 256)%nat /\ reached self self' n new
      /\ (new = []
          \/ exists out b,
               Return (PStr send_str) = Return (PStr out)
               /\ new = [(out ++ Table.data_termintaor, b)])).
  { intros k f x Hk.
    destruct (write_then_read _ send_str k f x self Hk Hne)
      as [r [b [n [self' [E [Hn [Hr _]]]]]]].
    exists (Return r), n, [(send_str ++ Table.data_termintaor, b)], self'.
    split; [exact E|]. split; [exact Hn|]. split; [exact Hr|].
    right. now exists send_str, b. }
  destruct (PyStr.startswith send_str "sys sleep").
  { destruct (nth_error (PyStr.split_on " " send_str) 2) as [mils|];
      [|apply Hstay].
    apply (Hwr _ _ _ (sleep_result mils)). }
  destruct (PyStr.startswith send_str "sys reset").
  { apply (Hwr (fun status => ret (expect_version status)) expect_version).
    reflexivity. }
  destruct (PyStr.startswith send_str "sys eraseFW").
  { destruct (String.eqb (safe_mode self) "off"); [|apply Hstay].
    destruct (write_command_reached send_str self Hne)
      as [b [self' [Ew Hw]]].
    unfold bind. rewrite Ew.
    exists (Return (if b then (ok, PStr "awaiting firmware")
                    else (PStr "", PStr ""))), 0%nat,
      [(send_str ++ Table.data_termintaor, b)], self'.
    split; [destruct b; reflexivity|]. split; [lia|]. split; [exact Hw|].
    right. now exists send_str, b. }
  destruct (PyStr.startswith send_str "sys factoryRESET").
  { destruct (String.eqb (safe_mode self) "off"); [|apply Hstay].
    apply (Hwr (fun status => ret (expect_version status)) expect_version).
    reflexivity. }
  destruct (PyStr.startswith send_str "radio rx ").
  { destruct (nth_error (PyStr.split_on " " send_str) 2); apply Hstay. }
  destruct (PyStr.startswith send_str "radio tx"); [apply Hstay|].
  apply (Hwr _ _ _ other_result).
Qed.

(** X11. Whatever the command and the state, one call to [send_command]
    keeps the settings of the instance, takes at most 256 items from the
    port and writes at most once; what it writes is the canonical form of
    the command followed by the terminator. *)
Theorem send_command_writes_at_most_once :
  forall (ps_cmd : string) (self : rn2903),
    exists n new,
      reached self (snd (send_command ps_cmd self)) n new
      /\ (n <= 256)%nat
      /\ (new = []
          \/ exists out b,
               validate_command Table.commands ps_cmd = Return (PStr out)
               /\ new = [(out ++ Table.data_termintaor, b)]).
Proof.
  intros ps_cmd self.
  destruct (send_command_reached ps_cmd self)
    as [r [n [new [self' [E [Hn [Hr Hnew]]]]]]].
  exists n, new. rewrite E. simpl. tauto.
Qed.

(** ** Every write is a validated command *)

Lemma only_valid_writes_refl (self : rn2903) : only_valid_writes self self.
Proof. exists 0%nat, []. split; [apply reached_refl | constructor]. Qed.

Lemma only_valid_writes_trans (a b c : rn2903) :
  only_valid_writes a b -> only_valid_writes b c -> only_valid_writes a c.
Proof.
  intros [k1 [n1 [H1 F1]]] [k2 [n2 [H2 F2]]].
  exists (k2 + k1)%nat, (n1 ++ n2)%list.
  split; [exact (reached_trans _ _ _ _ _ _ _ H1 H2)|].
  apply Forall_app. split; assumption.
Qed.

Lemma keeps_ret (A : Type) (a : A) : keeps only_valid_writes (ret a).
Proof. intros self. apply only_valid_writes_refl. Qed.

Lemma keeps_raise (A : Type) (e : exn) :
  keeps only_valid_writes (@raise A e).
Proof. intros self. apply only_valid_writes_refl. Qed.

Lemma keeps_lift (A : Type) (r : result A) :
  keeps only_valid_writes (lift r).
Proof. intros self. apply only_valid_writes_refl. Qed.

Lemma keeps_bind (A B : Type) (m : method A) (k : A -> method B) :
  keeps only_valid_writes m ->
  (forall a, keeps only_valid_writes (k a)) ->
  keeps only_valid_writes (bind m k).
Proof.
  intros Hm Hk self. unfold bind. specialize (Hm self).
  destruct (m self) as [[a|e] self1]; simpl in Hm.
  - exact (only_valid_writes_trans _ _ _ Hm (Hk a self1)).
  - exact Hm.
Qed.

Lemma keeps_send_command (ps_cmd : string) :
  keeps only_valid_writes (send_command ps_cmd).
Proof.
  intros self.
  destruct (send_command_reached ps_cmd self)
    as [r [n [new [self' [E [Hn [Hr Hnew]]]]]]].
  rewrite E. simpl. exists n, new. split; [exact Hr|].
  destruct Hnew as [->|[out [b [Hv ->]]]]; constructor; [|constructor].
  exists ps_cmd, out. split; [exact Hv | reflexivity].
Qed.

Lemma keeps_nvm_loop (n : nat) :
  forall (adr : nat) (nvm_data : string),
    keeps only_valid_writes (nvm_loop n adr nvm_data).
Proof.
  induction n as [|n IH]; intros adr nvm_data; cbn [nvm_loop].
  - apply keeps_ret.
  - apply keeps_bind; [apply keeps_send_command|].
    intros [status response].
    destruct (pyval_eqb status ok); [|apply IH].
    destruct response; [apply keeps_raise | apply IH].
Qed.

Lemma keeps_config_loop (cmds : list string) :
  forall config, keeps only_valid_writes (config_loop cmds config).
Proof.
  induction cmds as [|cmd rest IH]; intros config; cbn [config_loop].
  - apply keeps_ret.
  - destruct (PyStr.split_on " " cmd) as [|a [|b [|c [|d l]]]];
      try apply keeps_raise.
    destruct (String.eqb cmd "sys get nvm").
    { apply keeps_bind; [apply keeps_nvm_loop|]. intros nvm_data.
      apply keeps_bind; [apply keeps_lift | intros; apply IH]. }
    destruct (String.eqb cmd "mac get ch"); [apply IH|].
    apply keeps_bind; [apply keeps_send_command|].
    intros [status response].
    destruct (negb (pyval_eqb status ok)); [apply IH|].
    apply keeps_bind; [apply keeps_lift | intros; apply IH].
Qed.

Lemma keeps_get_device_config : keeps only_valid_writes get_device_config.
Proof.
  unfold get_device_config.
  apply keeps_bind; [apply keeps_send_command|]. intros _.
  apply keeps_bind; [apply keeps_config_loop|]. intros config.
  apply keeps_bind; [apply keeps_send_command|]. intros _.
  apply keeps_ret.
Qed.

Lemma keeps_apply_settings (radio : dict pyval) :
  keeps only_valid_writes (apply_settings radio).
Proof.
  induction radio as [|[setting val] rest IH]; cbn [apply_settings].
  - apply keeps_ret.
  - apply keeps_bind; [apply keeps_lift|]. intros cmd.
    apply keeps_bind; [apply keeps_send_command|]. intros sr.
    destruct (negb (pyval_eqb (fst sr) ok)); [apply keeps_ret | apply IH].
Qed.

Lemma keeps_put_device_config : keeps only_valid_writes put_device_config.
Proof.
  intros self. unfold put_device_config.
  destruct (dict_get "radio" (device_config self)) as [radio|];
    [|apply only_valid_writes_refl].
  apply keeps_bind; [apply keeps_lift|]. intros [|]; [|apply keeps_ret].
  apply keeps_bind; [apply keeps_send_command|]. intros sr.
  destruct (negb (pyval_eqb (fst sr) ok)); [apply keeps_ret|].
  apply keeps_bind; [apply keeps_apply_settings|]. intros set_config.
  apply keeps_bind.
  { destruct set_config; [apply keeps_send_command | apply keeps_ret]. }
  intros _. apply keeps_bind; [apply keeps_send_command|]. intros sr'.
  destruct (negb (pyval_eqb (fst sr') ok)); apply keeps_ret.
Qed.

(** X12. In every state and whatever the device answers, the three public
    operations keep [dev_status], [safe_mode] and [device_config], only
    consume what the port delivers, and write nothing but canonical
    commands, each followed by the terminator; this holds also when an
    operation ends by an exception. *)
Theorem public_operations_write_only_valid_commands :
  forall self : rn2903,
    (forall ps_cmd,
        only_valid_writes self (snd (send_command ps_cmd self)))
    /\ only_valid_writes self (snd (get_device_config self))
    /\ only_valid_writes self (snd (put_device_config self)).
Proof.
  intros self. split; [|split].
  - intros ps_cmd. apply keeps_send_command.
  - apply keeps_get_device_config.
  - apply keeps_put_device_config.
Qed.

(** ** The branches of send_command *)

Lemma contains_nonempty (c : ascii) (s : string) :
  PyStr.contains c s = true -> PyStr.nonempty s = true.
Proof. destruct s; [discriminate | reflexivity]. Qed.

(** A canonical command has a space in it. *)
Lemma accepted_contains_space (l : list string) (out : string) :
  validate_tokens Table.commands l = Return (PStr out) ->
  PyStr.contains " " out = true.
Proof.
  intros H.
  destruct (accepted_category _ _ _ H) as [c0 [c1 [rest [a [El _]]]]].
  destruct (validate_tokens_picks _ commands_well_formed _ _ H)
    as [ps [Hout _]].
  rewrite El in Hout.
  change (firstn 2 (offered (c0 :: c1 :: rest)) ++ ps)%list
    with (PyStr.lower c0 :: c1 :: ps) in Hout.
  rewrite Hout. apply join_contains_space.
Qed.

Lemma accepted_nonempty (cmd out : string) :
  validate_command Table.commands cmd = Return (PStr out) ->
  PyStr.nonempty out = true.
Proof.
  unfold validate_command.
  destruct (PyStr.contains " " cmd); [|discriminate]. simpl.
  intros H. apply (contains_nonempty " ").
  exact (accepted_contains_space _ _ H).
Qed.

(** The last branch of [send_command], for a command outside the special
    classes on an instance that is not in the error state. *)
Lemma send_command_ordinary (self : rn2903) (ps_cmd send_str : string) :
  dev_status self <> "error" ->
  validate_command Table.commands ps_cmd = Return (PStr send_str) ->
  special_class send_str = false ->
  send_command ps_cmd self
  = (do! sent <- write_command send_str;
     if sent : bool then
       do! status <- read_response;
       if status_in status err_status then ret (PFalse, status)
       else if negb (pyval_eqb status ok) then ret (ok, status)
       else ret (status, PStr "")
     else ret (PStr "", PStr "")) self.
Proof.
  intros Hst Hval Hsp. unfold send_command.
  apply String.eqb_neq in Hst.
  rewrite Hst, Hval, (accepted_nonempty _ _ Hval). simpl negb. cbv iota.
  unfold special_class in Hsp.
  repeat (apply orb_false_elim in Hsp; destruct Hsp as [Hsp ?]).
  repeat match goal with
         | H : PyStr.startswith send_str _ = false |- _ =>
             rewrite H; clear H
         end.
  reflexivity.
Qed.

Lemma read_loop_silent (n : nat) (resp : string) (dev : serial) :
  inbox dev = [] -> read_loop n resp dev = (Some resp, dev).
Proof.
  intros Hbox. revert resp. induction n as [|n IH]; intros resp;
    [reflexivity|].
  cbn [read_loop]. unfold serial_read. rewrite Hbox. cbn [decode].
  change (String.eqb "" (String "010" "")) with false. cbv iota.
  rewrite IH. now rewrite append_nil_r.
Qed.

Lemma read_response_silent (self : rn2903) :
  inbox (dev_object self) = [] ->
  read_response self = (Return (PStr ""), self).
Proof.
  intros Hbox. unfold read_response.
  rewrite (read_loop_silent _ _ _ Hbox). simpl.
  now destruct self.
Qed.

(** X13. For a command outside the special classes on an instance that is
    not in the error state: when the write fails the result is the pair of
    empty strings and nothing is read; when the write succeeds and the
    read fails the result is [('ok', False)]; when the write succeeds and
    the port stays silent the result is [('ok', '')], the same as for a
    device that answered [ok]. *)
Theorem ordinary_command_transport_failures :
  forall (self self1 : rn2903) (ps_cmd send_str : string),
    dev_status self <> "error" ->
    validate_command Table.commands ps_cmd = Return (PStr send_str) ->
    special_class send_str = false ->
    (write_command send_str self = (Return false, self1) ->
     send_command ps_cmd self = (Return (PStr "", PStr ""), self1))
    /\ (forall self2,
          write_command send_str self = (Return true, self1) ->
          read_response self1 = (Return PFalse, self2) ->
          send_command ps_cmd self = (Return (PStr "ok", PFalse), self2))
    /\ (write_command send_str self = (Return true, self1) ->
        inbox (dev_object self1) = [] ->
        send_command ps_cmd self = (Return (PStr "ok", PStr ""), self1)).
Proof.
  intros self self1 ps_cmd send_str Hst Hval Hsp.
  rewrite (send_command_ordinary _ _ _ Hst Hval Hsp).
  split; [|split].
  - intros Hw. unfold bind. rewrite Hw. reflexivity.
  - intros self2 Hw Hr. unfold bind. rewrite Hw, Hr. reflexivity.
  - intros Hw Hbox. unfold bind.
    rewrite Hw, (read_response_silent _ Hbox). reflexivity.
Qed.

Lemma ordinary_command_transport_failures_witness :
  send_command "mac save"
    (mk_rn2903 "idle" "on" [] (mk_serial (line "ok") [false] []))
  = (Return (PStr "", PStr ""),
     mk_rn2903 "idle" "on" []
       (mk_serial (line "ok") []
          [("mac save" ++ Table.data_termintaor, false)])).
Proof.
  refine (proj1 (ordinary_command_transport_failures
    (mk_rn2903 "idle" "on" [] (mk_serial (line "ok") [false] []))
    _ "mac save" "mac save" _ _ _) _).
  - simpl. discriminate.
  - vm_compute. reflexivity.
  - vm_compute. reflexivity.
  - vm_compute. reflexivity.
Defined.

(** X14. With [safe_mode] at ['off'], a request whose canonical command is
    [sys eraseFW] is written once and no response is read: the port keeps
    all it had to deliver. The result is [('ok', 'awaiting firmware')]
    when the write succeeded and the pair of empty strings otherwise. *)
Theorem erase_firmware_is_written_and_not_read :
  forall (self : rn2903) (ps_cmd : string),
    dev_status self <> "error" ->
    safe_mode self = "off" ->
    validate_command Table.commands ps_cmd = Return (PStr "sys eraseFW") ->
    exists b self',
      send_command ps_cmd self
      = (Return (if b : bool then (PStr "ok", PStr "awaiting firmware")
                 else (PStr "", PStr "")), self')
      /\ reached self self' 0
           [("sys eraseFW" ++ Table.data_termintaor, b)].
Proof.
  intros self ps_cmd Hst Hoff Hval. unfold send_command.
  apply String.eqb_neq in Hst. rewrite Hst, Hval, Hoff.
  destruct (write_command_reached "sys eraseFW" self eq_refl)
    as [b [self' [Ew Hw]]].
  exists b, self'. split; [|exact Hw].
  cbn -[write_command]. unfold bind. rewrite Ew.
  destruct b; reflexivity.
Qed.

Lemma erase_firmware_is_written_and_not_read_witness :
  exists b self',
    send_command "sys eraseFW"
      (mk_rn2903 "idle" "off" [] (port (line "ok")))
    = (Return (if b : bool then (PStr "ok", PStr "awaiting firmware")
               else (PStr "", PStr "")), self')
    /\ reached (mk_rn2903 "idle" "off" [] (port (line "ok"))) self' 0
         [("sys eraseFW" ++ Table.data_termintaor, b)].
Proof.
  apply erase_firmware_is_written_and_not_read.
  - simpl. discriminate.
  - reflexivity.
  - reflexivity.
Defined.

Lemma is_dec_not_space (c : ascii) :
  PyStr.is_dec c = true ->
  PyStr.isspace c = false /\ Ascii.eqb c " " = false.
Proof.
  destruct c as [[] [] [] [] [] [] [] []]; vm_compute;
    first [discriminate | split; reflexivity].
Qed.

Lemma split_on_plain (sep : ascii) (s : string) :
  PyStr.forallb (fun c => negb (Ascii.eqb c sep)) s = true ->
  PyStr.split_on sep s = [s].
Proof.
  induction s as [|c s IH]; simpl; [reflexivity|].
  intros H. apply andb_prop in H. destruct H as [Hc Hs].
  apply negb_true_iff in Hc. now rewrite Hc, (IH Hs).
Qed.

Lemma digits_are_a_token (n : string) :
  n <> "" -> PyStr.forallb PyStr.is_dec n = true ->
  is_token n = true
  /\ PyStr.forallb (fun c => negb (Ascii.eqb c " ")) n = true.
Proof.
  intros Hne H. unfold is_token.
  rewrite (proj2 (nonempty_spec n) Hne). simpl. clear Hne.
  induction n as [|c n IH]; simpl; [split; reflexivity|].
  simpl in H. apply andb_prop in H. destruct H as [Hc Hn].
  destruct (is_dec_not_space c Hc) as [H1 H2]. rewrite H1, H2. simpl.
  exact (IH Hn).
Qed.

Lemma split_on_sleep (n : string) :
  PyStr.forallb (fun c => negb (Ascii.eqb c " ")) n = true ->
  PyStr.split_on " " ("sys sleep " ++ n) = ["sys"; "sleep"; n].
Proof.
  intros H. simpl. now rewrite (split_on_plain " " n H).
Qed.

(** X15. For every duration [n] the table accepts, the command
    ["sys sleep " ++ n] is its own canonical form, and once it is written
    the result depends on the response alone: [('ok', n)], the duration
    echoed, when the response is [ok], and [(False, False)] for any other
    response or a failed read. *)
Theorem sleep_echoes_the_duration :
  forall (self self1 self2 : rn2903) (n : string) (status : pyval),
    dev_status self <> "error" ->
    check_param n (Table.int_range 100 4294967296) = true ->
    write_command ("sys sleep " ++ n) self = (Return true, self1) ->
    read_response self1 = (Return status, self2) ->
    validate_command Table.commands ("sys sleep " ++ n)
    = Return (PStr ("sys sleep " ++ n))
    /\ send_command ("sys sleep " ++ n) self
       = (Return (if pyval_eqb status (PStr "ok") then (PStr "ok", PStr n)
                  else (PFalse, PFalse)), self2).
Proof.
  intros self self1 self2 n status Hst Hn Hw Hr.
  destruct (check_param_int_digits _ _ _ Hn) as [Hne Hdec].
  destruct (digits_are_a_token n Hne Hdec) as [Htok Hsp].
  assert (Hval : validate_command Table.commands ("sys sleep " ++ n)
                 = Return (PStr ("sys sleep " ++ n))).
  { unfold validate_command.
    change ("sys sleep " ++ n) with (PyStr.join " " ["sys"; "sleep"; n]) at 1 2.
    rewrite join_contains_space. simpl negb. cbv iota.
    rewrite split_join
      by (constructor; [reflexivity|]; constructor; [reflexivity|];
          constructor; [exact Htok | constructor]).
    cbv [Table.int_range] in Hn. cbv -[check_param]. rewrite Hn.
    reflexivity. }
  split; [exact Hval|].
  unfold send_command. apply String.eqb_neq in Hst. rewrite Hst, Hval.
  change (PyStr.nonempty ("sys sleep " ++ n)) with true.
  change (PyStr.startswith ("sys sleep " ++ n) "sys sleep") with true.
  simpl negb. cbv iota. rewrite (split_on_sleep n Hsp).
  cbn [nth_error]. unfold bind. rewrite Hw, Hr.
  destruct status as [|s]; [reflexivity|].
  simpl. unfold ok. destruct (String.eqb_spec s "ok") as [->|]; reflexivity.
Qed.

Lemma sleep_echoes_the_duration_witness :
  send_command "sys sleep 100" (session "idle" [] (line "ok"))
  = (Return (PStr "ok", PStr "100"),
     mk_rn2903 "idle" "on" [("sys", []); ("mac", []); ("radio", [])]
       (mk_serial [] [] [("sys sleep 100" ++ Table.data_termintaor, true)])).
Proof.
  refine (proj2 (sleep_echoes_the_duration
    (session "idle" [] (line "ok"))
    (mk_rn2903 "idle" "on" [("sys", []); ("mac", []); ("radio", [])]
       (mk_serial (line "ok") []
          [("sys sleep 100" ++ Table.data_termintaor, true)]))
    _ "100" (PStr "ok") _ _ _ _)).
  - simpl. discriminate.
  - vm_compute. reflexivity.
  - vm_compute. reflexivity.
  - vm_compute. reflexivity.
Defined.

(** ** The read sequence *)

Lemma Forall_skipn_rx (P : rx -> Prop) (k : nat) (l : list rx) :
  Forall P l -> Forall P (skipn k l).
Proof.
  intros H. rewrite <- (firstn_skipn k l) in H.
  apply Forall_app in H. exact (proj2 H).
Qed.

Lemma sent_reached (self self' : rn2903) (k : nat)
  (new : list (string * bool)) :
  reached self self' k new ->
  sent self' = (sent self ++ map fst new)%list
  /\ (dev_status self <> "error" -> dev_status self' <> "error")
  /\ (clean (dev_object self) -> clean (dev_object self')).
Proof.
  intros [[Hs _] [Hbox Hlog]]. unfold sent, clean. rewrite Hlog, Hbox.
  split; [apply map_app|]. split; [now rewrite Hs|].
  intros H. exact (Forall_skipn_rx _ _ _ H).
Qed.

Lemma read_loop_clean (n : nat) :
  forall (resp : string) (dev : serial),
    clean dev -> exists out dev', read_loop n resp dev = (Some out, dev').
Proof.
  induction n as [|n IH]; intros resp [box plan log] Hc.
  - now exists resp, (mk_serial box plan log).
  - unfold clean in Hc. simpl in Hc.
    destruct box as [|ev box];
      cbn [read_loop serial_read inbox wplan written].
    + cbn [decode]. change (String.eqb "" (String "010" "")) with false.
      cbv iota. apply IH. constructor.
    + apply Forall_cons_iff in Hc. destruct Hc as [Hev Hbox].
      destruct (decode ev) as [s|]; [|now elim Hev].
      destruct (String.eqb s (String "010" "")); [now eexists; eexists|].
      apply IH. exact Hbox.
Qed.

Lemma read_response_clean (self self' : rn2903) (v : pyval) :
  clean (dev_object self) ->
  read_response self = (Return v, self') ->
  exists s, v = PStr s.
Proof.
  intros Hc. unfold read_response.
  destruct (read_loop_clean max_ch "" _ Hc) as [out [dev' ->]].
  intros [= <- _]. now eexists.
Qed.

Lemma plain_spec (cmd : string) :
  plain cmd = true ->
  validate_command Table.commands cmd = Return (PStr cmd)
  /\ special_class cmd = false.
Proof.
  unfold plain.
  destruct (validate_command Table.commands cmd) as [[|out]|e];
    try discriminate.
  intros H. apply andb_prop in H. destruct H as [H1 H2].
  apply String.eqb_eq in H1. subst out.
  apply negb_true_iff in H2. split; [reflexivity | exact H2].
Qed.

(** A command that is sent as it stands: one write of that command, and a
    result; on a clean port the payload is a string. *)
Lemma send_plain (cmd : string) (self : rn2903) :
  plain cmd = true ->
  dev_status self <> "error" ->
  exists status response n b self',
    send_command cmd self = (Return (status, response), self')
    /\ reached self self' n [(cmd ++ Table.data_termintaor, b)]
    /\ (clean (dev_object self) -> exists s, response = PStr s).
Proof.
  intros Hp Hst. destruct (plain_spec _ Hp) as [Hval Hsp].
  rewrite (send_command_ordinary _ _ _ Hst Hval Hsp).
  destruct (write_then_read _ cmd _ _ (PStr "", PStr "") self other_result
              (accepted_nonempty _ _ Hval))
    as [r [b [n [self' [E [Hn [Hr [Hf Ht]]]]]]]].
  destruct r as [status response].
  exists status, response, n, b, self'.
  split; [exact E|]. split; [exact Hr|].
  intros Hc. destruct b.
  - destruct (Ht eq_refl) as [v [self1 [Ev [Hw Hrd]]]].
    assert (Hc1 : clean (dev_object self1)).
    { destruct (write_command_reached cmd self (accepted_nonempty _ _ Hval))
        as [b' [s1 [Ew' Hw']]].
      rewrite Hw in Ew'. injection Ew' as _ <-.
      exact (proj2 (proj2 (sent_reached _ _ _ _ Hw')) Hc). }
    destruct (read_response_clean _ _ _ Hc1 Hrd) as [s ->].
    revert Ev. destruct (status_in (PStr s) err_status);
      [|destruct (negb (pyval_eqb (PStr s) ok))];
      intros [= _ ->]; now eexists.
  - destruct (Hf eq_refl) as [[= _ ->] _]. now eexists.
Qed.

Lemma nvm_commands_plain :
  forallb (fun adr => plain (nvm_cmd adr)) (seq 0 256) = true.
Proof. vm_compute. reflexivity. Qed.

Lemma nvm_cmd_plain (adr : nat) : (adr < 256)%nat -> plain (nvm_cmd adr) = true.
Proof.
  intros H. apply (proj1 (forallb_forall _ _) nvm_commands_plain).
  apply in_seq. lia.
Qed.

Lemma frames_cons (cmd : string) (l : list string) :
  frames (cmd :: l) = (cmd ++ Table.data_termintaor) :: frames l.
Proof. reflexivity. Qed.

Lemma frames_app (l1 l2 : list string) :
  frames (l1 ++ l2) = (frames l1 ++ frames l2)%list.
Proof. apply map_app. Qed.

(** The memory loop from address [adr] on: it sends one read per address,
    and stops by [TypeError] at the first read that fails. *)
Lemma nvm_loop_writes (n : nat) :
  forall (adr : nat) (nvm_data : string) (self : rn2903),
    (adr + n <= 256)%nat ->
    dev_status self <> "error" ->
    exists r k new self',
      nvm_loop n adr nvm_data self = (r, self')
      /\ reached self self' k new
      /\ ((exists data, r = Return data)
          /\ map fst new = frames (map nvm_cmd (seq adr n))
          \/ r = Raise TypeError
             /\ ~ clean (dev_object self)
             /\ exists j, (j < n)%nat
                  /\ map fst new = frames (map nvm_cmd (seq adr (S j)))).
Proof.
  induction n as [|n IH]; intros adr nvm_data self Hadr Hst.
  - exists (Return nvm_data), 0%nat, [], self.
    split; [reflexivity|]. split; [apply reached_refl|].
    left. split; [now eexists | reflexivity].
  - cbn [nvm_loop]. fold (nvm_cmd adr). unfold bind at 1.
    destruct (send_plain (nvm_cmd adr) self (nvm_cmd_plain adr ltac:(lia)) Hst)
      as [status [response [k1 [b [self1 [E [Hr1 Hclean]]]]]]].
    rewrite E.
    destruct (sent_reached _ _ _ _ Hr1) as [_ [Hst1 Hc1]].
    assert (Hnext : forall data,
      exists r k new self',
        nvm_loop n (adr + 1) data self1 = (r, self')
        /\ reached self self' k new
        /\ ((exists data, r = Return data)
            /\ map fst new = frames (map nvm_cmd (seq adr (S n)))
            \/ r = Raise TypeError
               /\ ~ clean (dev_object self)
               /\ exists j, (j < S n)%nat
                    /\ map fst new = frames (map nvm_cmd (seq adr (S j))))).
    { intros data.
      destruct (IH (adr + 1)%nat data self1 ltac:(lia) (Hst1 Hst))
        as [r [k2 [new2 [self2 [E2 [Hr2 Hcase]]]]]].
      exists r, (k2 + k1)%nat,
        ((nvm_cmd adr ++ Table.data_termintaor, b) :: new2), self2.
      split; [exact E2|].
      split; [exact (reached_trans _ _ _ _ _ _ _ Hr1 Hr2)|].
      rewrite Nat.add_1_r in Hcase.
      destruct Hcase as [[Hd Hn]|[Hraise [Hnc [j [Hj Hn]]]]].
      - left. split; [exact Hd|]. cbn [map fst]. rewrite Hn. reflexivity.
      - right. split; [exact Hraise|].
        split; [intros Hc; exact (Hnc (Hc1 Hc))|].
        exists (S j). split; [lia|]. cbn [map fst]. rewrite Hn.
        reflexivity. }
    destruct (pyval_eqb status ok); [|apply Hnext].
    destruct response as [|data]; [|apply Hnext].
    exists (Raise TypeError), k1,
      [(nvm_cmd adr ++ Table.data_termintaor, b)], self1.
    split; [reflexivity|]. split; [exact Hr1|]. right.
    split; [reflexivity|]. split.
    + intros Hc. destruct (Hclean Hc) as [s Hs]. discriminate.
    + exists 0%nat. split; [lia | reflexivity].
Qed.

Lemma firstn_seq_le (j n a : nat) :
  (j <= n)%nat -> firstn j (seq a n) = seq a j.
Proof.
  revert n a. induction j as [|j IH]; intros n a H; [reflexivity|].
  destruct n as [|n]; [lia|]. simpl. f_equal. apply IH. lia.
Qed.

Lemma dict_get_set (V : Type) (g k : string) (x : V) (d : dict V) :
  dict_get g (dict_set k x d)
  = if String.eqb g k then Some x else dict_get g d.
Proof.
  induction d as [|[k' v'] r IH]; simpl.
  - reflexivity.
  - destruct (String.eqb_spec k k') as [->|Hk]; simpl.
    + destruct (String.eqb g k'); reflexivity.
    + rewrite IH. destruct (String.eqb_spec g k') as [->|Hg];
        [|reflexivity].
      destruct (String.eqb_spec k' k) as [->|_]; [now elim Hk|reflexivity].
Qed.

Lemma config_set_groups (ctype cparm : string) (value : pyval)
  (config : dict (dict pyval)) :
  has_groups config ->
  In ctype ["sys"; "mac"; "radio"] ->
  exists config',
    config_set ctype cparm value config = Return config'
    /\ has_groups config'.
Proof.
  intros Hg Hin. unfold config_set.
  destruct (dict_get ctype config) as [group|] eqn:E;
    [|now elim (Hg ctype Hin)].
  eexists. split; [reflexivity|].
  intros g Hgin. rewrite dict_get_set.
  destruct (String.eqb g ctype); [discriminate | now apply Hg].
Qed.

Lemma loop_entry_spec (cmd : string) :
  loop_entry cmd = true ->
  exists ctype cbase cparm,
    PyStr.split_on " " cmd = [ctype; cbase; cparm]
    /\ In ctype ["sys"; "mac"; "radio"]
    /\ (String.eqb cmd "sys get nvm" = false ->
        String.eqb cmd "mac get ch" = false -> plain cmd = true).
Proof.
  unfold loop_entry.
  destruct (PyStr.split_on " " cmd) as [|a [|b [|c [|d l]]]];
    try discriminate.
  intros H. apply andb_prop in H. destruct H as [Hg Hp].
  exists a, b, c. split; [reflexivity|]. split.
  - apply existsb_exists in Hg. destruct Hg as [g [Hin Heq]].
    apply String.eqb_eq in Heq. now subst g.
  - intros E1 E2. now rewrite E1, E2 in Hp.
Qed.

(** The loop over the read commands: it sends what [expand] lists for each
    entry, and only a failed read in the memory loop stops it. *)
Lemma config_loop_writes (cmds : list string) :
  forallb loop_entry cmds = true ->
  forall (config : dict (dict pyval)) (self : rn2903),
    has_groups config ->
    dev_status self <> "error" ->
    exists r k new self',
      config_loop cmds config self = (r, self')
      /\ reached self self' k new
      /\ ((exists config', r = Return config' /\ has_groups config')
          /\ map fst new = frames (flat_map expand cmds)
          \/ r = Raise TypeError
             /\ ~ clean (dev_object self)
             /\ exists m, (m <= length (flat_map expand cmds))%nat
                  /\ map fst new
                     = frames (firstn m (flat_map expand cmds))).
Proof.
  induction cmds as [|cmd rest IH]; intros Hall config self Hg Hst.
  - exists (Return config), 0%nat, [], self.
    split; [reflexivity|]. split; [apply reached_refl|].
    left. split; [exists config; split; [reflexivity | exact Hg] | reflexivity].
  - cbn [forallb] in Hall. apply andb_prop in Hall.
    destruct Hall as [Hcmd Hrest]. specialize (IH Hrest).
    destruct (loop_entry_spec cmd Hcmd)
      as [ctype [cbase [cparm [Esplit [Hin Hplain]]]]].
    cbn [config_loop flat_map]. rewrite Esplit. unfold expand at 1 3 5.
    (* what follows the handling of [cmd]: the rest of the loop from an
       instance reached by the writes [new1] *)
    assert (Hthen : forall config1 self1 k1 new1,
      has_groups config1 ->
      reached self self1 k1 new1 ->
      exists r k new self',
        config_loop rest config1 self1 = (r, self')
        /\ reached self self' k new
        /\ ((exists config', r = Return config' /\ has_groups config')
            /\ map fst new
               = (map fst new1 ++ frames (flat_map expand rest))%list
            \/ r = Raise TypeError
               /\ ~ clean (dev_object self)
               /\ exists m, (m <= length (flat_map expand rest))%nat
                    /\ map fst new
                       = (map fst new1
                          ++ frames (firstn m (flat_map expand rest)))%list)).
    { intros config1 self1 k1 new1 Hg1 Hr1.
      destruct (sent_reached _ _ _ _ Hr1) as [_ [Hst1 Hc1]].
      destruct (IH config1 self1 Hg1 (Hst1 Hst))
        as [r [k2 [new2 [self2 [E2 [Hr2 Hcase]]]]]].
      exists r, (k2 + k1)%nat, (new1 ++ new2)%list, self2.
      split; [exact E2|].
      split; [exact (reached_trans _ _ _ _ _ _ _ Hr1 Hr2)|].
      rewrite map_app.
      destruct Hcase as [[Hd Hn]|[Hraise [Hnc [m [Hm Hn]]]]].
      - left. split; [exact Hd | now rewrite Hn].
      - right. split; [exact Hraise|].
        split; [intros Hc; exact (Hnc (Hc1 Hc))|].
        exists m. split; [exact Hm | now rewrite Hn]. }
    destruct (String.eqb cmd "sys get nvm") eqn:Envm.
    + (* the memory window *)
      unfold bind at 1.
      destruct (nvm_loop_writes 256 0 "" self ltac:(lia) Hst)
        as [r [k1 [new1 [self1 [E1 [Hr1 Hcase]]]]]].
      rewrite E1.
      destruct Hcase as [[[data ->] Hn]|[-> [Hnc [j [Hj Hn]]]]].
      * unfold bind at 1, lift.
        destruct (config_set_groups "sys" "nvm" (PStr data) config Hg
                    ltac:(now left)) as [config1 [-> Hg1]].
        destruct (Hthen config1 self1 k1 new1 Hg1 Hr1)
          as [r [k [new [self' [E [Hr Hcase]]]]]].
        exists r, k, new, self'. split; [exact E|]. split; [exact Hr|].
        rewrite Hn in Hcase.
        destruct Hcase as [[Hd Hnew]|[Hraise [Hnc [m [Hm Hnew]]]]].
        -- left. split; [exact Hd|]. now rewrite frames_app.
        -- right. split; [exact Hraise|]. split; [exact Hnc|].
           exists (256 + m)%nat. split.
           { rewrite length_app, length_map, length_seq. lia. }
           rewrite Hnew.
           replace 256%nat with (length (map nvm_cmd (seq 0 256))) at 2
             by (now rewrite length_map, length_seq).
           rewrite firstn_app_2. now rewrite frames_app.
      * exists (Raise TypeError), k1, new1, self1.
        split; [reflexivity|]. split; [exact Hr1|]. right.
        split; [reflexivity|]. split; [exact Hnc|].
        exists (S j). split.
        { rewrite length_app, length_map, length_seq. lia. }
        rewrite Hn, firstn_app.
        rewrite length_map, length_seq.
        replace (S j - 256)%nat with 0%nat by lia.
        rewrite firstn_0, app_nil_r, firstn_map, firstn_seq_le by lia.
        reflexivity.
    + destruct (String.eqb cmd "mac get ch") eqn:Ech.
      * destruct (Hthen config self 0%nat [] Hg (reached_refl self))
          as [r [k [new [self' [E [Hr Hcase]]]]]].
        exists r, k, new, self'. split; [exact E|]. split; [exact Hr|].
        exact Hcase.
      * unfold bind at 1.
        destruct (send_plain cmd self (Hplain eq_refl eq_refl) Hst)
          as [status [response [k1 [b [self1 [E1 [Hr1 _]]]]]]].
        rewrite E1.
        assert (Hfin : forall config1, has_groups config1 ->
          exists r k new self',
            config_loop rest config1 self1 = (r, self')
            /\ reached self self' k new
            /\ ((exists config', r = Return config' /\ has_groups config')
                /\ map fst new = frames ([cmd] ++ flat_map expand rest)
                \/ r = Raise TypeError
                   /\ ~ clean (dev_object self)
                   /\ exists m,
                        (m <= length ([cmd] ++ flat_map expand rest))%nat
                        /\ map fst new
                           = frames (firstn m
                                       ([cmd] ++ flat_map expand rest)))).
        { intros config1 Hg1.
          destruct (Hthen config1 self1 k1 _ Hg1 Hr1)
            as [r [k [new [self' [E [Hr Hcase]]]]]].
          exists r, k, new, self'. split; [exact E|]. split; [exact Hr|].
          destruct Hcase as [[Hd Hnew]|[Hraise [Hnc [m [Hm Hnew]]]]].
          - left. split; [exact Hd | exact Hnew].
          - right. split; [exact Hraise|]. split; [exact Hnc|].
            exists (S m). split; [simpl; lia | exact Hnew]. }
        destruct (negb (pyval_eqb status ok)); [now apply Hfin|].
        unfold bind at 1, lift.
        destruct (config_set_groups ctype cparm response config Hg Hin)
          as [config1 [-> Hg1]].
        now apply Hfin.
Qed.

Lemma read_commands_are_loop_entries :
  forallb loop_entry config_cmds = true
  /\ plain "mac pause" = true /\ plain "mac resume" = true
  /\ plain "mac save" = true.
Proof. repeat split; vm_compute; reflexivity. Qed.

Lemma read_sequence_shape :
  length read_sequence = 298%nat
  /\ nth_error read_sequence 0 = Some "mac pause"
  /\ nth_error read_sequence 297 = Some "mac resume".
Proof. repeat split; vm_compute; reflexivity. Qed.

Lemma initial_config_has_groups :
  has_groups [("sys", []); ("mac", []); ("radio", [])].
Proof.
  intros g [<-|[<-|[<-|[]]]]; discriminate.
Qed.

(** The whole read sequence on an instance that is not in the error
    state. *)
Lemma get_device_config_writes (self : rn2903) :
  dev_status self <> "error" ->
  exists r self',
    get_device_config self = (r, self')
    /\ same_settings self self'
    /\ ((exists config, r = Return config /\ has_groups config)
        /\ sent self' = (sent self ++ frames read_sequence)%list
        \/ r = Raise TypeError
           /\ ~ clean (dev_object self)
           /\ exists m, (m < length read_sequence)%nat
                /\ sent self'
                   = (sent self ++ frames (firstn m read_sequence))%list).
Proof.
  intros Hst.
  destruct read_commands_are_loop_entries as [Hcmds [Hpause [Hresume _]]].
  unfold get_device_config. unfold bind at 1.
  destruct (send_plain "mac pause" self Hpause Hst)
    as [st1 [rs1 [k1 [b1 [self1 [E1 [Hr1 _]]]]]]].
  rewrite E1.
  destruct (sent_reached _ _ _ _ Hr1) as [Hs1 [Hst1 Hc1]].
  unfold bind at 1.
  destruct (config_loop_writes config_cmds Hcmds _ self1
              initial_config_has_groups (Hst1 Hst))
    as [r [k2 [new2 [self2 [E2 [Hr2 Hcase]]]]]].
  rewrite E2.
  destruct (sent_reached _ _ _ _ Hr2) as [Hs2 [Hst2 Hc2]].
  set (L := flat_map expand config_cmds) in *.
  destruct Hcase as [[[config [-> Hgc]] Hn]|[-> [Hnc [m [Hm Hn]]]]].
  - unfold bind at 1.
    destruct (send_plain "mac resume" self2 Hresume (Hst2 (Hst1 Hst)))
      as [st3 [rs3 [k3 [b3 [self3 [E3 [Hr3 _]]]]]]].
    rewrite E3. unfold ret.
    destruct (sent_reached _ _ _ _ Hr3) as [Hs3 _].
    exists (Return config), self3. split; [reflexivity|]. split.
    { destruct Hr1 as [[A1 [A2 A3]] _]. destruct Hr2 as [[B1 [B2 B3]] _].
      destruct Hr3 as [[C1 [C2 C3]] _].
      unfold same_settings. repeat split; congruence. }
    left. split; [exists config; split; [reflexivity | exact Hgc]|].
    rewrite Hs3, Hs2, Hs1, Hn. unfold read_sequence. fold L.
    rewrite frames_cons, frames_app. simpl map.
    now rewrite <- !app_assoc.
  - exists (Raise TypeError), self2. split; [reflexivity|]. split.
    { destruct Hr1 as [[A1 [A2 A3]] _]. destruct Hr2 as [[B1 [B2 B3]] _].
      unfold same_settings. repeat split; congruence. }
    right. split; [reflexivity|].
    split; [intros Hc; exact (Hnc (Hc1 Hc))|].
    exists (S m). split.
    { unfold read_sequence. fold L. cbn [length].
      rewrite length_app. cbn [length]. lia. }
    rewrite Hs2, Hs1, Hn. unfold read_sequence. fold L.
    rewrite firstn_cons, firstn_app.
    replace (m - length L)%nat with 0%nat by lia.
    rewrite firstn_0, app_nil_r, frames_cons. simpl map.
    now rewrite <- !app_assoc.
Qed.

(** X17. On an instance that is not in the error state,
    [get_device_config] keeps the settings of the instance and does one of
    two things. Either it returns a snapshot after writing the complete
    read sequence: [mac pause], the read commands with the 256 memory
    reads in place of [sys get nvm], [mac resume]. Or it raises
    [TypeError] after a strict prefix of that sequence, so that
    [mac resume] is not sent; this happens only when the port holds an
    item that cannot be read. *)
Theorem get_device_config_write_sequence :
  forall self : rn2903,
    dev_status self <> "error" ->
    exists r self',
      get_device_config self = (r, self')
      /\ same_settings self self'
      /\ ((exists config, r = Return config /\ has_groups config)
          /\ sent self' = (sent self ++ frames read_sequence)%list
          \/ r = Raise TypeError
             /\ ~ clean (dev_object self)
             /\ exists m, (m < length read_sequence)%nat
                  /\ sent self'
                     = (sent self ++ frames (firstn m read_sequence))%list).
Proof. exact get_device_config_writes. Qed.

Lemma get_device_config_write_sequence_witness :
  exists r self',
    get_device_config (session "idle" [] (line "4294967245" ++ [RxFail]))
    = (r, self')
    /\ same_settings
         (session "idle" [] (line "4294967245" ++ [RxFail])) self'
    /\ ((exists config, r = Return config /\ has_groups config)
        /\ sent self' = ([] ++ frames read_sequence)%list
        \/ r = Raise TypeError
           /\ ~ clean (port (line "4294967245" ++ [RxFail]))
           /\ exists m, (m < length read_sequence)%nat
                /\ sent self'
                   = ([] ++ frames (firstn m read_sequence))%list).
Proof.
  apply (get_device_config_write_sequence
           (session "idle" [] (line "4294967245" ++ [RxFail]))).
  simpl. discriminate.
Defined.

(** X18. When, besides, every item the port delivers can be read (bytes of
    7-bit text and time-outs), [get_device_config] returns a snapshot and
    has written exactly the 298 commands of the read sequence, [mac pause]
    first and [mac resume] last. *)
Theorem get_device_config_completes_on_a_clean_port :
  forall self : rn2903,
    dev_status self <> "error" ->
    clean (dev_object self) ->
    exists config self',
      get_device_config self = (Return config, self')
      /\ has_groups config
      /\ sent self' = (sent self ++ frames read_sequence)%list
      /\ length read_sequence = 298%nat
      /\ nth_error read_sequence 0 = Some "mac pause"
      /\ nth_error read_sequence 297 = Some "mac resume".
Proof.
  intros self Hst Hc.
  destruct (get_device_config_writes self Hst)
    as [r [self' [E [_ [[[config [-> Hg]] Hs]|[_ [Hnc _]]]]]]];
    [|contradiction].
  exists config, self'. split; [exact E|]. split; [exact Hg|].
  split; [exact Hs|].
  exact read_sequence_shape.
Qed.

Lemma get_device_config_completes_on_a_clean_port_witness :
  exists config self',
    get_device_config (session "idle" [] (line "busy"))
    = (Return config, self')
    /\ has_groups config
    /\ sent self' = ([] ++ frames read_sequence)%list
    /\ length read_sequence = 298%nat
    /\ nth_error read_sequence 0 = Some "mac pause"
    /\ nth_error read_sequence 297 = Some "mac resume".
Proof.
  apply (get_device_config_completes_on_a_clean_port
           (session "idle" [] (line "busy"))).
  - simpl. discriminate.
  - unfold clean, session, port, line. simpl.
    repeat constructor; discriminate.
Defined.

Lemma nvm_addresses_checked :
  forallb
    (fun adr =>
       match PyStr.int16 (nvm_adr adr) with
       | Some v => Z.eqb v (768 + Z.of_nat adr)
       | None => false
       end
       && String.eqb (canonical (nvm_cmd adr)) (nvm_cmd adr))
    (seq 0 256) = true.
Proof. vm_compute. reflexivity. Qed.

(** X16. For each of the 256 bytes of the memory window, the address
    [get_device_config] sends is the hexadecimal number [0x300 + adr], so
    the loop covers [300] to [3FF] exactly, and the read command built
    from it is accepted by the validator unchanged. *)
Theorem nvm_loop_addresses_are_valid :
  forall adr : nat,
    (adr < 256)%nat ->
    PyStr.int16 (nvm_adr adr) = Some (768 + Z.of_nat adr)%Z
    /\ validate_command Table.commands ("sys get nvm " ++ nvm_adr adr)
       = Return (PStr ("sys get nvm " ++ nvm_adr adr)).
Proof.
  intros adr H.
  assert (Hin : In adr (seq 0 256)) by (apply in_seq; lia).
  pose proof (proj1 (forallb_forall _ _) nvm_addresses_checked adr Hin) as Hc.
  cbv beta in Hc. apply andb_prop in Hc. destruct Hc as [Hv Hp].
  split.
  - destruct (PyStr.int16 (nvm_adr adr)) as [v|]; [|discriminate].
    apply Z.eqb_eq in Hv. now subst v.
  - pose proof (nvm_cmd_plain adr H) as Hpl. apply plain_spec in Hpl.
    exact (proj1 Hpl).
Qed.

Lemma nvm_loop_addresses_are_valid_witness :
  PyStr.int16 (nvm_adr 255) = Some 1023%Z
  /\ validate_command Table.commands ("sys get nvm " ++ nvm_adr 255)
     = Return (PStr ("sys get nvm " ++ nvm_adr 255)).
Proof. apply (nvm_loop_addresses_are_valid 255). lia. Defined.

(** ** The write sequence *)

Lemma validate_settings_false (radio : dict pyval) (b : bool) :
  validate_settings radio false = Return b -> b = false.
Proof.
  induction radio as [|[setting val] rest IH]; simpl.
  - now intros [= <-].
  - unfold bind_result. destruct (radio_set setting val); [|discriminate].
    destruct (validate_command Table.commands a); [|discriminate].
    destruct (negb (truthy a0)); exact IH.
Qed.

Lemma validate_settings_true (radio : dict pyval) :
  validate_settings radio true = Return true -> Forall passed radio.
Proof.
  induction radio as [|[setting val] rest IH]; [constructor|].
  cbn [validate_settings]. unfold bind_result.
  destruct val as [|s]; [discriminate|]. cbn [radio_set].
  destruct (validate_command Table.commands
              ("radio set " ++ setting ++ " " ++ s)) as [v|e] eqn:Ev;
    [|discriminate].
  destruct v as [|out]; cbn [truthy negb].
  - intros H. apply validate_settings_false in H. discriminate.
  - destruct (PyStr.nonempty out); cbn [negb].
    + intros H. constructor; [|exact (IH H)].
      exists s, out. split; [reflexivity | exact Ev].
    + intros H. apply validate_settings_false in H. discriminate.
Qed.

Lemma split_radio_set (x : string) :
  PyStr.split ("radio set " ++ x) = "radio" :: "set" :: PyStr.split x.
Proof. reflexivity. Qed.

(** The canonical form of a [radio set] command takes the last branch of
    [send_command]. *)
Lemma radio_set_is_ordinary (x out : string) :
  validate_command Table.commands ("radio set " ++ x) = Return (PStr out) ->
  special_class out = false.
Proof.
  unfold validate_command.
  destruct (PyStr.contains " " ("radio set " ++ x)); [|discriminate].
  simpl negb. cbv iota. rewrite split_radio_set. intros H.
  destruct (validate_tokens_picks _ commands_well_formed _ _ H)
    as [ps [-> _]].
  destruct ps; reflexivity.
Qed.

(** A command outside the special classes: one write of its canonical
    form. *)
Lemma send_ordinary (cmd out : string) (self : rn2903) :
  validate_command Table.commands cmd = Return (PStr out) ->
  special_class out = false ->
  dev_status self <> "error" ->
  exists status response n b self',
    send_command cmd self = (Return (status, response), self')
    /\ reached self self' n [(out ++ Table.data_termintaor, b)].
Proof.
  intros Hval Hsp Hst.
  rewrite (send_command_ordinary _ _ _ Hst Hval Hsp).
  destruct (write_then_read _ out _ _ (PStr "", PStr "") self other_result
              (accepted_nonempty _ _ Hval))
    as [[status response] [b [n [self' [E [Hn [Hr _]]]]]]].
  now exists status, response, n, b, self'.
Qed.

Lemma radio_commands_firstn (n : nat) (radio : dict pyval) :
  radio_commands (firstn n radio) = firstn n (radio_commands radio).
Proof. unfold radio_commands. symmetry. apply firstn_map. Qed.

Lemma same_settings_trans (a b c : rn2903) :
  same_settings a b -> same_settings b c -> same_settings a c.
Proof.
  unfold same_settings. intros [A1 [A2 A3]] [B1 [B2 B3]].
  repeat split; congruence.
Qed.

Lemma pyval_eqb_eq (a b : pyval) : pyval_eqb a b = true <-> a = b.
Proof.
  destruct a as [|s], b as [|t]; simpl; split; try discriminate;
    try reflexivity.
  - intros H. apply String.eqb_eq in H. now subst.
  - intros [= ->]. apply String.eqb_refl.
Qed.

Lemma not_acknowledged (status : pyval) :
  negb (pyval_eqb status ok) = true <-> status <> ok.
Proof.
  rewrite negb_true_iff. split.
  - intros H E. apply pyval_eqb_eq in E. congruence.
  - intros H. destruct (pyval_eqb status ok) eqn:E; [|reflexivity].
    apply pyval_eqb_eq in E. contradiction.
Qed.

Lemma radio_requests_firstn (n : nat) (radio : dict pyval) :
  radio_requests (firstn n radio) = firstn n (radio_requests radio).
Proof. unfold radio_requests. symmetry. apply firstn_map. Qed.

(** The second loop of [put_device_config]: the settings are sent in order
    up to and including the first one that is not acknowledged. *)
Lemma apply_settings_writes (radio : dict pyval) :
  Forall passed radio ->
  forall self : rn2903,
    dev_status self <> "error" ->
    exists set_config self',
      apply_settings radio self = (Return set_config, self')
      /\ same_settings self self'
      /\ (set_config = true
          /\ all_acknowledged (radio_requests radio) self self'
          /\ sent self' = (sent self ++ frames (radio_commands radio))%list
          \/ set_config = false
             /\ exists j cmd self2 sr,
                  (j < length radio)%nat
                  /\ all_acknowledged (firstn j (radio_requests radio))
                       self self2
                  /\ nth_error (radio_requests radio) j = Some cmd
                  /\ send_command cmd self2 = (Return sr, self')
                  /\ fst sr <> ok
                  /\ sent self'
                     = (sent self
                        ++ frames (radio_commands (firstn (S j) radio)))%list).
Proof.
  induction radio as [|[setting val] rest IH]; intros Hall self Hst.
  - exists true, self. split; [reflexivity|].
    split; [exact (proj1 (reached_refl self))|]. left.
    split; [reflexivity|]. split; [constructor|].
    now rewrite app_nil_r.
  - apply Forall_cons_iff in Hall. destruct Hall as [Hp Hrest].
    destruct Hp as [s [out [Hs Hval]]]. simpl in Hs, Hval. subst val.
    cbn [apply_settings radio_set]. unfold bind at 1, lift.
    unfold bind at 1.
    assert (Hval' : validate_command Table.commands
                      ("radio set " ++ setting ++ " " ++ s)
                    = Return (PStr out)) by exact Hval.
    destruct (send_ordinary _ out self Hval'
                (radio_set_is_ordinary _ _ Hval') Hst)
      as [status [response [k1 [b [self1 [E Hr1]]]]]].
    rewrite E. cbn [fst].
    assert (Hcanon : radio_commands ((setting, PStr s) :: rest)
                     = out :: radio_commands rest).
    { unfold radio_commands. cbn [map fst snd radio_set].
      unfold canonical. now rewrite Hval'. }
    assert (Hreq : radio_requests ((setting, PStr s) :: rest)
                   = ("radio set " ++ setting ++ " " ++ s)
                     :: radio_requests rest) by reflexivity.
    destruct (sent_reached _ _ _ _ Hr1) as [Hs1 [Hst1 _]].
    cbn [map fst] in Hs1.
    destruct (negb (pyval_eqb status ok)) eqn:Hack.
    + exists false, self1.
      split; [reflexivity|]. split; [exact (proj1 Hr1)|]. right.
      split; [reflexivity|].
      exists 0%nat, ("radio set " ++ setting ++ " " ++ s), self,
        (status, response).
      split; [simpl; lia|]. split; [constructor|].
      split; [reflexivity|]. split; [exact E|].
      split; [exact (proj1 (not_acknowledged _) Hack)|].
      rewrite radio_commands_firstn, Hcanon. exact Hs1.
    + assert (Hok : status = ok).
      { apply pyval_eqb_eq. now apply negb_false_iff. }
      subst status.
      destruct (IH Hrest self1 (Hst1 Hst))
        as [set_config [self2 [E2 [Hsame Hcase]]]].
      exists set_config, self2.
      split; [exact E2|].
      split; [exact (same_settings_trans _ _ _ (proj1 Hr1) Hsame)|].
      destruct Hcase as [[-> [Hack2 Hn]]|
                         [-> [j [cmd [selfj [sr [Hj [Hackj [Hnth [Ej [Hsr Hn]]]]]]]]]]].
      * left. split; [reflexivity|]. split.
        { rewrite Hreq. exact (ack_cons _ _ _ _ _ _ E Hack2). }
        rewrite Hn, Hs1, Hcanon, <- app_assoc. reflexivity.
      * right. split; [reflexivity|].
        exists (S j), cmd, selfj, sr.
        split; [simpl; lia|]. split.
        { rewrite Hreq. cbn [firstn].
          exact (ack_cons _ _ _ _ _ _ E Hackj). }
        split; [rewrite Hreq; exact Hnth|]. split; [exact Ej|].
        split; [exact Hsr|].
        rewrite Hn, Hs1, !radio_commands_firstn, Hcanon, <- app_assoc.
        reflexivity.
Qed.

(** X19. On an instance that is not in the error state and whose radio
    settings all validate, [put_device_config] returns, keeps the settings
    of the instance, and runs in one of three ways, by what the device
    answers:
    - [mac pause] is not acknowledged: the result is [False] and nothing
      more is written, [mac resume] included;
    - [mac pause] and the first [j] [radio set] requests are acknowledged
      and the next one is not: the canonical [radio set] commands up to
      and including that one have been written, in the order of the
      settings, then [mac resume] and no [mac save];
    - [mac pause] and all the [radio set] requests are acknowledged:
      the canonical [radio set] commands have all been written, then
      [mac save] and [mac resume].
    In the last two the result tells whether [mac resume] was
    acknowledged. *)
Theorem put_device_config_write_sequence :
  forall (self : rn2903) (radio : dict pyval),
    dev_status self <> "error" ->
    dict_get "radio" (device_config self) = Some radio ->
    validate_settings radio true = Return true ->
    exists (b : bool) (self' : rn2903),
      put_device_config self = (Return b, self')
      /\ same_settings self self'
      /\ ((exists sr,
             send_command "mac pause" self = (Return sr, self')
             /\ fst sr <> ok
             /\ b = false
             /\ sent self' = (sent self ++ frames ["mac pause"])%list)
          \/ (exists response self1 j self2 cmd sr self3 sr',
                send_command "mac pause" self = (Return (ok, response), self1)
                /\ (j < length radio)%nat
                /\ all_acknowledged (firstn j (radio_requests radio))
                     self1 self2
                /\ nth_error (radio_requests radio) j = Some cmd
                /\ send_command cmd self2 = (Return sr, self3)
                /\ fst sr <> ok
                /\ send_command "mac resume" self3 = (Return sr', self')
                /\ b = pyval_eqb (fst sr') ok
                /\ sent self'
                   = (sent self
                      ++ frames ("mac pause"
                                 :: radio_commands (firstn (S j) radio)
                                 ++ ["mac resume"]))%list)
          \/ (exists response self1 self2 sr self3 sr',
                send_command "mac pause" self = (Return (ok, response), self1)
                /\ all_acknowledged (radio_requests radio) self1 self2
                /\ send_command "mac save" self2 = (Return sr, self3)
                /\ send_command "mac resume" self3 = (Return sr', self')
                /\ b = pyval_eqb (fst sr') ok
                /\ sent self'
                   = (sent self
                      ++ frames ("mac pause" :: radio_commands radio
                                 ++ ["mac save"; "mac resume"]))%list)).
Proof.
  intros self radio Hst Hradio Hvalid.
  destruct read_commands_are_loop_entries as [_ [Hpause [Hresume Hsave]]].
  unfold put_device_config. rewrite Hradio.
  unfold bind at 1, lift. rewrite Hvalid.
  unfold bind at 1.
  destruct (send_plain "mac pause" self Hpause Hst)
    as [st1 [rs1 [k1 [b1 [self1 [E1 [Hr1 _]]]]]]].
  rewrite E1. cbn [fst].
  destruct (sent_reached _ _ _ _ Hr1) as [Hs1 [Hst1 _]].
  destruct (negb (pyval_eqb st1 ok)) eqn:Hack1.
  { exists false, self1. split; [reflexivity|].
    split; [exact (proj1 Hr1)|]. left. exists (st1, rs1).
    split; [reflexivity|].
    split; [exact (proj1 (not_acknowledged _) Hack1)|].
    split; [reflexivity | exact Hs1]. }
  assert (Hok1 : st1 = ok).
  { apply pyval_eqb_eq. now apply negb_false_iff. }
  subst st1.
  unfold bind at 1.
  destruct (apply_settings_writes radio (validate_settings_true _ Hvalid)
              self1 (Hst1 Hst))
    as [set_config [self2 [E2 [Hsame2 Hcase]]]].
  rewrite E2.
  pose proof (same_settings_trans _ _ _ (proj1 Hr1) Hsame2) as H12.
  assert (Hst2 : dev_status self2 <> "error").
  { destruct H12 as [-> _]. exact Hst. }
  assert (Hresume' : forall self3 : rn2903,
    dev_status self3 <> "error" ->
    exists sr' self',
      send_command "mac resume" self3 = (Return sr', self')
      /\ (do! sr <- send_command "mac resume";
          if negb (pyval_eqb (fst sr) ok) then ret false else ret true) self3
         = (Return (pyval_eqb (fst sr') ok), self')
      /\ same_settings self3 self'
      /\ sent self' = (sent self3 ++ frames ["mac resume"])%list).
  { intros self3 Hst3. unfold bind.
    destruct (send_plain "mac resume" self3 Hresume Hst3)
      as [st [rs [k [b [self' [E [Hr _]]]]]]].
    rewrite E. cbn [fst].
    destruct (sent_reached _ _ _ _ Hr) as [Hs _].
    exists (st, rs), self'. split; [reflexivity|].
    split; [cbn [fst]; destruct (pyval_eqb st ok); reflexivity|].
    split; [exact (proj1 Hr) | exact Hs]. }
  destruct Hcase as [[-> [Hack Hn]]|
                     [-> [j [cmd [selfj [sr [Hj [Hackj [Hnth [Ej [Hsr Hn]]]]]]]]]]].
  - unfold bind at 1.
    destruct (send_plain "mac save" self2 Hsave Hst2)
      as [st3 [rs3 [k3 [b3 [self3 [E3 [Hr3 _]]]]]]].
    rewrite E3.
    destruct (sent_reached _ _ _ _ Hr3) as [Hs3 [Hst3 _]].
    destruct (Hresume' self3 (Hst3 Hst2))
      as [sr' [self' [Er [E [Hsame Hs]]]]].
    exists (pyval_eqb (fst sr') ok), self'. split; [exact E|]. split.
    { exact (same_settings_trans _ _ _ H12
               (same_settings_trans _ _ _ (proj1 Hr3) Hsame)). }
    right. right. exists rs1, self1, self2, (st3, rs3), self3, sr'.
    split; [reflexivity|]. split; [exact Hack|].
    split; [exact E3|]. split; [exact Er|]. split; [reflexivity|].
    rewrite Hs, Hs3, Hn, Hs1.
    unfold frames. cbn [map fst app]. rewrite ?map_app. cbn [map fst app].
    rewrite <- ?app_assoc. reflexivity.
  - unfold bind at 1. unfold ret at 1.
    destruct (Hresume' self2 Hst2)
      as [sr' [self' [Er [E [Hsame Hs]]]]].
    exists (pyval_eqb (fst sr') ok), self'. split; [exact E|]. split.
    { exact (same_settings_trans _ _ _ H12 Hsame). }
    right. left. exists rs1, self1, j, selfj, cmd, sr, self2, sr'.
    split; [reflexivity|]. split; [exact Hj|]. split; [exact Hackj|].
    split; [exact Hnth|]. split; [exact Ej|]. split; [exact Hsr|].
    split; [exact Er|]. split; [reflexivity|].
    rewrite Hs, Hn, Hs1.
    unfold frames. cbn [map fst app]. rewrite ?map_app. cbn [map fst app].
    rewrite <- ?app_assoc. reflexivity.
Qed.

(** A device that answers [invalid_param] to the second of two settings:
    [mac pause], both [radio set] commands and [mac resume] are written,
    and [mac save] is not. *)
Lemma put_device_config_write_sequence_witness :
  let radio := [("sf", PStr "sf7"); ("pwr", PStr "2")] in
  let self :=
    session "idle" radio
      (line "4294967245" ++ line "ok" ++ line "invalid_param" ++ line "ok") in
    exists (b : bool) (self' : rn2903),
      put_device_config self = (Return b, self')
      /\ same_settings self self'
      /\ ((exists sr,
             send_command "mac pause" self = (Return sr, self')
             /\ fst sr <> ok
             /\ b = false
             /\ sent self' = (sent self ++ frames ["mac pause"])%list)
          \/ (exists response self1 j self2 cmd sr self3 sr',
                send_command "mac pause" self = (Return (ok, response), self1)
                /\ (j < length radio)%nat
                /\ all_acknowledged (firstn j (radio_requests radio))
                     self1 self2
                /\ nth_error (radio_requests radio) j = Some cmd
                /\ send_command cmd self2 = (Return sr, self3)
                /\ fst sr <> ok
                /\ send_command "mac resume" self3 = (Return sr', self')
                /\ b = pyval_eqb (fst sr') ok
                /\ sent self'
                   = (sent self
                      ++ frames ("mac pause"
                                 :: radio_commands (firstn (S j) radio)
                                 ++ ["mac resume"]))%list)
          \/ (exists response self1 self2 sr self3 sr',
                send_command "mac pause" self = (Return (ok, response), self1)
                /\ all_acknowledged (radio_requests radio) self1 self2
                /\ send_command "mac save" self2 = (Return sr, self3)
                /\ send_command "mac resume" self3 = (Return sr', self')
                /\ b = pyval_eqb (fst sr') ok
                /\ sent self'
                   = (sent self
                      ++ frames ("mac pause" :: radio_commands radio
                                 ++ ["mac save"; "mac resume"]))%list)).
Proof.
  cbv zeta. apply put_device_config_write_sequence.
  - simpl. discriminate.
  - reflexivity.
  - vm_compute. reflexivity.
Defined.

(** ** example.py *)

Lemma append_args_from (cmd : string) (args : list string) :
  append_args cmd args = cmd ++ append_args "" args.
Proof.
  revert cmd. induction args as [|a r IH]; intros cmd; simpl.
  - now rewrite append_nil_r.
  - rewrite (IH (cmd ++ a ++ " ")), (IH (a ++ " ")).
    now rewrite !append_assoc.
Qed.

Lemma append_args_join (a : string) (r : list string) :
  append_args "" (a :: r) = PyStr.join " " (a :: r) ++ " ".
Proof.
  revert a. induction r as [|b r IH]; intros a.
  - reflexivity.
  - change (append_args "" (a :: b :: r))
      with (append_args ("" ++ a ++ " ") (b :: r)).
    rewrite append_args_from, IH.
    change (PyStr.join " " (a :: b :: r))
      with (a ++ " " ++ PyStr.join " " (b :: r)).
    simpl. now rewrite !append_assoc.
Qed.

Lemma drop_last_space (s : string) : drop_last (s ++ " ") = s.
Proof.
  induction s as [|c s IH]; [reflexivity|].
  change (String c s ++ " ") with (String c (s ++ " ")).
  cbn [drop_last]. destruct (s ++ " ") as [|d t] eqn:E.
  - destruct s; discriminate.
  - now rewrite IH.
Qed.

(** The command the script builds. *)
Lemma example_cmd_spec (args : list string) :
  ((length args < 2)%nat -> example_cmd args = "")
  /\ ((2 <= length args)%nat ->
      Forall (fun t => is_token t = true) args ->
      example_cmd args = PyStr.join " " args
      /\ PyStr.split (example_cmd args) = args
      /\ validate_command Table.commands (example_cmd args)
         = validate_tokens Table.commands args
      /\ exists v,
           validate_command Table.commands (example_cmd args) = Return v).
Proof.
  split.
  - intros H. unfold example_cmd.
    destruct (Nat.ltb_spec 1 (length args)); [lia | reflexivity].
  - intros H Htok.
    assert (E : example_cmd args = PyStr.join " " args).
    { unfold example_cmd.
      destruct (Nat.ltb_spec 1 (length args)); [|lia].
      destruct args as [|a r]; [simpl in H; lia|].
      now rewrite append_args_join, drop_last_space. }
    assert (Es : PyStr.split (example_cmd args) = args)
      by (rewrite E; now apply split_join).
    assert (Ev : validate_command Table.commands (example_cmd args)
                 = validate_tokens Table.commands args).
    { unfold validate_command. rewrite Es, E.
      destruct args as [|a [|b r]]; [simpl in H; lia | simpl in H; lia |].
      now rewrite join_contains_space. }
    split; [exact E|]. split; [exact Es|]. split; [exact Ev|].
    rewrite Ev. destruct args as [|a [|b r]];
      [simpl in H; lia | simpl in H; lia |].
    apply validate_tokens_returns. exact commands_well_formed.
Qed.

(** X20. With fewer than two arguments the script builds the empty
    command and sends no command of its own: it leaves the instance as
    [__init__] built it and, when [__init__] returned, prints the
    configuration. With two or more arguments, each a non-empty word
    without white space, the command it builds is the arguments joined by
    single spaces; the validator reads it back as exactly these arguments
    and so never raises on it; and after [__init__] the script writes at
    most once, the canonical command of its arguments. *)
Theorem example_command_line :
  forall (args : list string) (config : option file_config)
         (open_port : string -> option serial),
    ((length args < 2)%nat ->
     example_cmd args = ""
     /\ snd (example args config open_port) = snd (init config open_port)
     /\ (fst (init config open_port) = Return tt ->
         fst (example args config open_port)
         = Return (PrintConfig
                     (device_config (snd (init config open_port))))))
    /\ ((2 <= length args)%nat ->
        Forall (fun t => is_token t = true) args ->
        example_cmd args = PyStr.join " " args
        /\ PyStr.split (example_cmd args) = args
        /\ validate_command Table.commands (example_cmd args)
           = validate_tokens Table.commands args
        /\ (exists v,
              validate_command Table.commands (example_cmd args) = Return v)
        /\ (fst (init config open_port) = Return tt ->
            example args config open_port
            = let (r, self') :=
                send_command (PyStr.join " " args)
                  (snd (init config open_port)) in
              (match r with
               | Return sr => Return (PrintResult (fst sr) (snd sr))
               | Raise e => Raise e
               end, self'))
        /\ exists n new,
             reached (snd (init config open_port))
               (snd (example args config open_port)) n new
             /\ (new = []
                 \/ exists out b,
                      validate_tokens Table.commands args
                      = Return (PStr out)
                      /\ new = [(out ++ Table.data_termintaor, b)])).
Proof.
  intros args config open_port.
  destruct (example_cmd_spec args) as [Hshort Hlong].
  split.
  - intros H. rewrite (Hshort H). split; [reflexivity|].
    unfold example. rewrite (Hshort H).
    destruct (init config open_port) as [[[]|e] modem1]; cbn [fst snd];
      (split; [reflexivity|]); [reflexivity | discriminate].
  - intros H Htok.
    destruct (Hlong H Htok) as [E [Es [Ev Hv]]].
    split; [exact E|]. split; [exact Es|]. split; [exact Ev|].
    split; [exact Hv|].
    assert (Hne : PyStr.nonempty (example_cmd args) = true).
    { rewrite E. destruct args as [|a [|b r]];
        [simpl in H; lia | simpl in H; lia |].
      exact (contains_nonempty " " _ (join_contains_space a b r)). }
    split.
    { unfold example. rewrite Hne, E.
      destruct (init config open_port) as [[[]|e] modem1]; cbn [fst snd];
        [|discriminate].
      intros _. unfold bind, ret.
      destruct (send_command (PyStr.join " " args) modem1) as [[sr|e] s'];
        reflexivity. }
    unfold example.
    destruct (init config open_port) as [[[]|e] modem1]; cbn [fst snd].
    + destruct (PyStr.nonempty (example_cmd args)).
      * destruct (send_command_reached (example_cmd args) modem1)
          as [r [n [new [self' [Es' [_ [Hr Hnew]]]]]]].
        unfold bind. rewrite Es'.
        exists n, new. split.
        { destruct r as [sr|e]; exact Hr. }
        rewrite <- Ev. exact Hnew.
      * exists 0%nat, []. split; [apply reached_refl | now left].
    + exists 0%nat, []. split; [apply reached_refl | now left].
Qed.

(** [./example.py sys get ver] on a module that reports another
    firmware: the command is built and validated, and the instance being
    in the error state, nothing is written for it. *)
Lemma example_command_line_witness :
  example_cmd ["sys"; "get"; "ver"] = "sys get ver"
  /\ PyStr.split (example_cmd ["sys"; "get"; "ver"]) = ["sys"; "get"; "ver"]
  /\ exists n new,
       reached
         (snd (init None
                 (fun _ =>
                    Some (port (line "RN2483 1.0.5 Mar 24 2017 08:50:31")))))
         (snd (example ["sys"; "get"; "ver"] None
                 (fun _ =>
                    Some (port (line "RN2483 1.0.5 Mar 24 2017 08:50:31")))))
         n new
       /\ (new = []
           \/ exists out b,
                validate_tokens Table.commands ["sys"; "get"; "ver"]
                = Return (PStr out)
                /\ new = [(out ++ Table.data_termintaor, b)]).
Proof.
  destruct (proj2 (example_command_line ["sys"; "get"; "ver"] None
                     (fun _ =>
                        Some (port
                                (line "RN2483 1.0.5 Mar 24 2017 08:50:31")))))
    as [H1 [H2 [_ [_ [_ H3]]]]].
  - simpl. lia.
  - repeat (constructor; [reflexivity|]). constructor.
  - split; [exact H1|]. split; [exact H2 | exact H3].
Defined.

(** ** __init__ *)

Lemma sys_get_ver_plain : plain "sys get ver" = true.
Proof. vm_compute. reflexivity. Qed.

Lemma put_device_config_blocked (self : rn2903) :
  dev_status self = "error" -> snd (put_device_config self) = self.
Proof.
  intros Herr. unfold put_device_config.
  destruct (dict_get "radio" (device_config self)) as [radio|];
    [|reflexivity].
  unfold bind, lift.
  destruct (validate_settings radio true) as [[|]|e]; [|reflexivity..].
  rewrite (send_command_in_error_state _ _ Herr). reflexivity.
Qed.

Lemma put_device_config_reached (self : rn2903) :
  exists k new, reached self (snd (put_device_config self)) k new.
Proof.
  destruct (keeps_put_device_config self) as [k [new [H _]]]. now exists k, new.
Qed.


Lemma init_without_port (config : option file_config)
  (open_port : string -> option serial) :
  open_port (device_path config) = None ->
  dev_status (snd (init config open_port)) = "error"
  /\ safe_mode (snd (init config open_port)) = "on"
  /\ dev_object (snd (init config open_port)) = port [].
Proof.
  intros Hp. unfold init. rewrite Hp. cbn [dev_status String.eqb Ascii.eqb].
  cbv beta iota.
  destruct config as [[d [dc|]]|]; cbn -[put_device_config];
    try (repeat split; reflexivity).
  unfold bind.
  pose proof (put_device_config_blocked
                (set_config (mk_rn2903 "error" "on" default_device_config
                               (port [])) dc) eq_refl) as H.
  destruct (put_device_config _) as [[b|e] self']; simpl in H; subst self';
    repeat split; reflexivity.
Qed.

Lemma send_version_query (dev : serial) :
  exists r self1,
    send_command "sys get ver" (opened dev) = (r, self1)
    /\ same_settings (opened dev) self1
    /\ sent self1 = (sent (opened dev) ++ frames ["sys get ver"])%list.
Proof.
  destruct (send_plain "sys get ver" (opened dev) sys_get_ver_plain)
    as [status [response [n [b [self1 [E [Hr _]]]]]]];
    [discriminate|].
  exists (Return (status, response)), self1.
  split; [exact E|]. split; [exact (proj1 Hr)|].
  exact (proj1 (sent_reached _ _ _ _ Hr)).
Qed.

Lemma init_bad_firmware (config : option file_config)
  (open_port : string -> option serial) (dev : serial) :
  open_port (device_path config) = Some dev ->
  firmware_matches (fst (send_command "sys get ver" (opened dev))) = false ->
  dev_status (snd (init config open_port)) = "error"
  /\ safe_mode (snd (init config open_port)) = "on"
  /\ sent (snd (init config open_port))
     = (sent (opened dev) ++ frames ["sys get ver"])%list.
Proof.
  intros Hp Hfw. unfold init. rewrite Hp.
  change (mk_rn2903 "idle" "on" default_device_config dev) with (opened dev).
  change (String.eqb (dev_status (opened dev)) "idle") with true.
  cbv beta iota zeta.
  destruct (send_version_query dev) as [r [self1 [E [[_ [Hm _]] Hs]]]].
  rewrite E in Hfw |- *. simpl in Hfw. rewrite Hfw.
  change (String.eqb (dev_status (set_status self1 "error")) "idle")
    with false.
  cbv beta iota zeta.
  destruct config as [[d [dc|]]|]; cbv beta iota;
    try (split; [reflexivity|]; split; [exact Hm | exact Hs]).
  unfold bind.
  pose proof (put_device_config_blocked
                (set_config (set_status self1 "error") dc) eq_refl) as H.
  destruct (put_device_config _) as [[b|e] self']; simpl in H; subst self';
    (split; [reflexivity|]; split; [exact Hm | exact Hs]).
Qed.

Lemma has_groups_nonempty (config : dict (dict pyval)) :
  has_groups config -> config <> [].
Proof.
  intros H ->. apply (H "sys"); [now left | reflexivity].
Qed.

Lemma init_good_firmware (config : option file_config)
  (open_port : string -> option serial) (dev : serial) :
  open_port (device_path config) = Some dev ->
  firmware_matches (fst (send_command "sys get ver" (opened dev))) = true ->
  dev_status (snd (init config open_port)) = "idle"
  /\ safe_mode (snd (init config open_port)) = "on"
  /\ (fst (init config open_port) = Return tt ->
      exists tail,
        sent (snd (init config open_port))
        = (sent (opened dev) ++ frames ("sys get ver" :: read_sequence)
           ++ tail)%list
        /\ match overrides config with
           | None =>
               tail = []
               /\ has_groups (device_config (snd (init config open_port)))
           | Some dc => device_config (snd (init config open_port)) = dc
           end)
  /\ (clean dev -> overrides config = None ->
      fst (init config open_port) = Return tt).
Proof.
  intros Hp Hfw.
  destruct (init config open_port) as [ri final] eqn:Eo. cbn [fst snd].
  unfold init in Eo. rewrite Hp in Eo.
  change (mk_rn2903 "idle" "on" default_device_config dev)
    with (opened dev) in Eo.
  change (String.eqb (dev_status (opened dev)) "idle") with true in Eo.
  cbv beta iota zeta in Eo.
  destruct (send_version_query dev) as [r [self1 [E [[Hst1 [Hm1 _]] Hs1]]]].
  assert (Hc1 : clean dev -> clean (dev_object self1)).
  { destruct (send_plain "sys get ver" (opened dev) sys_get_ver_plain)
      as [status [response [n [b [self1' [E' [Hr _]]]]]]];
      [discriminate|].
    rewrite E in E'. injection E' as _ <-.
    exact (proj2 (proj2 (sent_reached _ _ _ _ Hr))). }
  rewrite E in Hfw, Eo. cbn [fst] in Hfw. rewrite Hfw in Eo.
  change (dev_status (opened dev)) with "idle" in Hst1.
  change (safe_mode (opened dev)) with "on" in Hm1.
  rewrite Hst1 in Eo. change (String.eqb "idle" "idle") with true in Eo.
  cbv beta iota zeta in Eo. unfold bind at 1 in Eo.
  destruct (get_device_config_writes self1)
    as [r2 [self2 [E2 [[Hst2 [Hm2 _]] Hcase]]]];
    [rewrite Hst1; discriminate|].
  rewrite E2 in Eo. rewrite Hst1 in Hst2. rewrite Hm1 in Hm2.
  destruct Hcase as [[[cfg [-> Hg]] Hs2]|[-> [Hnc _]]].
  - pose proof (has_groups_nonempty _ Hg) as Hne.
    assert (Hsent : sent self2
                    = (sent (opened dev)
                       ++ frames ("sys get ver" :: read_sequence) ++ [])%list).
    { rewrite Hs2, Hs1, app_nil_r, <- app_assoc. reflexivity. }
    destruct cfg as [|g cfg]; [contradiction|].
    cbv beta iota in Eo.
    destruct config as [[d [dc|]]|]; cbv beta iota in Eo;
      cbn [overrides fc_device_config].
    + unfold bind in Eo.
      destruct (keeps_put_device_config
                  (set_config (set_config self2 (g :: cfg)) dc))
        as [k [new [[[Hst3 [Hm3 Hdc3]] [_ Hw3]] _]]].
      destruct (put_device_config _) as [[b|e] self3];
        cbn [fst snd ret set_config dev_status safe_mode device_config
             dev_object] in *;
        injection Eo as <- <-.
      * split; [now rewrite Hst3|]. split; [now rewrite Hm3|].
        split; [|intros _ [=]].
        intros _. exists (map fst new). split; [|exact Hdc3].
        unfold sent in *. rewrite Hw3, map_app, Hsent, app_nil_r.
        rewrite <- !app_assoc. reflexivity.
      * split; [now rewrite Hst3|]. split; [now rewrite Hm3|].
        split; [discriminate | intros _ [=]].
    + injection Eo as <- <-.
      split; [exact Hst2|]. split; [exact Hm2|]. split; [|reflexivity].
      intros _. exists []. split; [exact Hsent|].
      split; [reflexivity | exact Hg].
    + injection Eo as <- <-.
      split; [exact Hst2|]. split; [exact Hm2|]. split; [|reflexivity].
      intros _. exists []. split; [exact Hsent|].
      split; [reflexivity | exact Hg].
  - cbv beta iota in Eo. injection Eo as <- <-.
    split; [exact Hst2|]. split; [exact Hm2|].
    split; [discriminate|].
    intros Hc _. exfalso. exact (Hnc (Hc1 Hc)).
Qed.

(** X21. The instance [__init__] leaves behind is in safe mode and in
    state ['idle'] or ['error']; it is ['idle'] exactly when the serial
    device at the configured path opened and the answer to [sys get ver]
    passed the firmware check. Neither the read sequence nor the push of
    the settings of the configuration file changes the state. *)
Theorem new_instance_state :
  forall (config : option file_config) (open_port : string -> option serial),
    safe_mode (snd (init config open_port)) = "on"
    /\ (dev_status (snd (init config open_port)) = "idle"
        \/ dev_status (snd (init config open_port)) = "error")
    /\ (dev_status (snd (init config open_port)) = "idle"
        <-> exists dev,
              open_port (device_path config) = Some dev
              /\ firmware_matches
                   (fst (send_command "sys get ver" (opened dev))) = true).
Proof.
  intros config open_port.
  destruct (open_port (device_path config)) as [dev|] eqn:Hp.
  - destruct (firmware_matches
                (fst (send_command "sys get ver" (opened dev)))) eqn:Hfw.
    + destruct (init_good_firmware config open_port dev Hp Hfw)
        as [Hst [Hm _]].
      split; [exact Hm|]. split; [left; exact Hst|].
      split; [|intros _; exact Hst].
      intros _. exists dev. split; [reflexivity | exact Hfw].
    + destruct (init_bad_firmware config open_port dev Hp Hfw)
        as [Hst [Hm _]].
      split; [exact Hm|]. split; [right; exact Hst|].
      rewrite Hst. split; [discriminate|].
      intros [dev' [[= <-] Hfw']]. rewrite Hfw in Hfw'. discriminate.
  - destruct (init_without_port config open_port Hp) as [Hst [Hm _]].
    split; [exact Hm|]. split; [right; exact Hst|].
    rewrite Hst. split; [discriminate|].
    intros [dev [[=] _]].
Qed.

(** X22. When the port opened and [__init__] ends in state ['error'], the
    only text it ever wrote to the device is the version query: the read
    sequence is skipped and the settings of the configuration file are not
    pushed. *)
Theorem failed_firmware_check_stops_all_writes :
  forall (config : option file_config) (open_port : string -> option serial)
         (dev : serial),
    open_port (device_path config) = Some dev ->
    dev_status (snd (init config open_port)) = "error" ->
    sent (snd (init config open_port))
    = (sent (opened dev) ++ frames ["sys get ver"])%list.
Proof.
  intros config open_port dev Hp Herr.
  destruct (firmware_matches
              (fst (send_command "sys get ver" (opened dev)))) eqn:Hfw.
  - destruct (init_good_firmware config open_port dev Hp Hfw) as [Hst _].
    rewrite Hst in Herr. discriminate.
  - exact (proj2 (proj2 (init_bad_firmware config open_port dev Hp Hfw))).
Qed.

(** A module that reports another firmware, and a configuration file with
    radio settings to push. *)
Lemma failed_firmware_check_stops_all_writes_witness :
  sent (snd (init (Some (mk_file_config None
                           (Some [("radio", [("pwr", PStr "5")])])))
               (fun _ =>
                  Some (port (line "RN2483 1.0.5 Mar 24 2017 08:50:31")))))
  = ["sys get ver" ++ Table.data_termintaor].
Proof.
  apply (failed_firmware_check_stops_all_writes
           (Some (mk_file_config None
                    (Some [("radio", [("pwr", PStr "5")])])))
           (fun _ => Some (port (line "RN2483 1.0.5 Mar 24 2017 08:50:31")))
           (port (line "RN2483 1.0.5 Mar 24 2017 08:50:31"))).
  - reflexivity.
  - vm_compute. reflexivity.
Defined.

(** X23. When the firmware check passed and [__init__] returns, it wrote
    the version query and then the complete read sequence, in this order,
    before anything else; without settings to push from the configuration
    file nothing else is written and the instance holds the snapshot with
    its three groups, otherwise it holds the settings of the file. With no
    settings to push and a port that delivers only bytes that decode,
    [__init__] does return. *)
Theorem new_instance_write_sequence :
  forall (config : option file_config) (open_port : string -> option serial)
         (dev : serial),
    open_port (device_path config) = Some dev ->
    dev_status (snd (init config open_port)) = "idle" ->
    (fst (init config open_port) = Return tt ->
     exists tail,
       sent (snd (init config open_port))
       = (sent (opened dev) ++ frames ("sys get ver" :: read_sequence)
          ++ tail)%list
       /\ match overrides config with
          | None =>
              tail = []
              /\ has_groups (device_config (snd (init config open_port)))
          | Some dc => device_config (snd (init config open_port)) = dc
          end)
    /\ (clean dev -> overrides config = None ->
        fst (init config open_port) = Return tt).
Proof.
  intros config open_port dev Hp Hidle.
  destruct (firmware_matches
              (fst (send_command "sys get ver" (opened dev)))) eqn:Hfw.
  - exact (proj2 (proj2 (init_good_firmware config open_port dev Hp Hfw))).
  - destruct (init_bad_firmware config open_port dev Hp Hfw) as [Hst _].
    rewrite Hst in Hidle. discriminate.
Qed.

(** A module that reports the target firmware and is silent afterwards, and
    no configuration file. *)
Lemma new_instance_write_sequence_witness :
  fst (init None
         (fun _ => Some (port (line "RN2903 1.0.5 Nov 06 2018 10:45:27"))))
  = Return tt
  /\ length
       (sent (snd (init None
                     (fun _ =>
                        Some (port
                                (line "RN2903 1.0.5 Nov 06 2018 10:45:27"))))))
     = 299%nat.
Proof.
  destruct (new_instance_write_sequence None
              (fun _ =>
                 Some (port (line "RN2903 1.0.5 Nov 06 2018 10:45:27")))
              (port (line "RN2903 1.0.5 Nov 06 2018 10:45:27")))
    as [Hw Hr].
  - reflexivity.
  - vm_compute. reflexivity.
  - assert (Hret : fst (init None
                          (fun _ =>
                             Some (port
                                     (line "RN2903 1.0.5 Nov 06 2018 10:45:27"))))
                   = Return tt).
    { apply Hr; [|reflexivity].
      unfold clean, port, line. simpl.
      repeat constructor; discriminate. }
    split; [exact Hret|].
    destruct (Hw Hret) as [tail [Hs [-> _]]].
    rewrite Hs. vm_compute. reflexivity.
Defined.
